(** * The SimpleFileIo interface of the ntfs-3g UEFI driver (uefi_file.c)

    A shallow embedding of the file-handle and volume-lifecycle layer of
    [src/uefi-driver/uefi_file.c], with the data declared in
    [src/include/uefi-driver/uefi_driver.h].

    Conventions of the embedding.

    - Memory is one volume record ([EFI_FS]) and the [EFI_NTFS_FILE] objects
      whose [FileSystem] field points to it, as a finite map from addresses.
      Every operation of uefi_file.c reaches the volume only through
      [File->FileSystem], so the objects of other volumes are a frame.
    - Every operation takes the state and returns [option]: [None] is a run
      that leaves the C semantics the model covers (a handle whose object
      was already destroyed, or a failed [FS_ASSERT]).
    - [UINTN], [UINT64] and [EFI_STATUS] are 64-bit values held in [Z]; the
      signed counters [RefCount] and [TotalRefCount] ([INTN]) are held in [Z]
      and only ever change by one.
    - Strings are [CHAR16] code units without the terminating NUL.
    - The functions of uefi_bridge.c and uefi_support.h are not part of the
      sources at hand.  What they answer (is the volume read-only, does the
      engine delete succeed, what does a directory contain) is a field of
      the record [Engine]; what they do to the driver's own records is
      modelled from the specification, each such definition saying so. *)

From stdpp Require Import base option list gmap.
From Stdlib Require Import ZArith Lia.

Local Open Scope Z_scope.

(** ** Status codes (UEFI specification, Appendix D; 64-bit [UINTN]) *)

Definition EFI_STATUS := Z.

Definition MAX_BIT : Z := 2 ^ 63.
Definition ENCODE_ERROR (code : Z) : EFI_STATUS := Z.lor MAX_BIT code.
Definition ENCODE_WARNING (code : Z) : EFI_STATUS := code.

(** [EFI_ERROR(s)] is [((INTN)s) < 0]: the top bit of the status. *)
Definition EFI_ERROR (s : EFI_STATUS) : bool := Z.testbit s 63.

Definition EFI_SUCCESS : EFI_STATUS := 0.
Definition EFI_INVALID_PARAMETER : EFI_STATUS := ENCODE_ERROR 2.
Definition EFI_UNSUPPORTED : EFI_STATUS := ENCODE_ERROR 3.
Definition EFI_BAD_BUFFER_SIZE : EFI_STATUS := ENCODE_ERROR 4.
Definition EFI_BUFFER_TOO_SMALL : EFI_STATUS := ENCODE_ERROR 5.
Definition EFI_DEVICE_ERROR : EFI_STATUS := ENCODE_ERROR 7.
Definition EFI_WRITE_PROTECTED : EFI_STATUS := ENCODE_ERROR 8.
Definition EFI_OUT_OF_RESOURCES : EFI_STATUS := ENCODE_ERROR 9.
Definition EFI_NOT_FOUND : EFI_STATUS := ENCODE_ERROR 14.
Definition EFI_ACCESS_DENIED : EFI_STATUS := ENCODE_ERROR 15.
Definition EFI_END_OF_FILE : EFI_STATUS := ENCODE_ERROR 31.
Definition EFI_WARN_DELETE_FAILURE : EFI_STATUS := ENCODE_WARNING 2.

(** ** Open modes and attributes (UEFI specification, EFI_FILE_PROTOCOL.Open) *)

Definition EFI_FILE_MODE_READ : Z := 1.
Definition EFI_FILE_MODE_WRITE : Z := 2.
Definition EFI_FILE_MODE_CREATE : Z := 2 ^ 63.
Definition EFI_FILE_DIRECTORY : Z := 16.

(** ** Strings *)

Definition CHAR16 := Z.
Definition wstring := list CHAR16.

(** [StrCmp]: zero when equal, else the difference of the first code units
    that differ (the end of a string reads as the NUL code unit). *)
Fixpoint StrCmp (a b : wstring) : Z :=
  match a, b with
  | [], [] => 0
  | [], y :: _ => 0 - y
  | x :: _, [] => x
  | x :: a', y :: b' => if x =? y then StrCmp a' b' else x - y
  end.

(** [L"."] and [L".."]. *)
Definition L_dot : wstring := [46].
Definition L_dotdot : wstring := [46; 46].

Definition sizeof_CHAR16 : Z := 2.

(** Modelled from the spec: the delimiters of uefi_support.h (not in src/):
    [PATH_CHAR] is the canonical path delimiter, [DOS_PATH_CHAR] the
    secondary separator that is rewritten to it. *)
Definition PATH_CHAR : CHAR16 := 47.
Definition DOS_PATH_CHAR : CHAR16 := 92.
Definition IS_PATH_DELIMITER (c : CHAR16) : bool :=
  (c =? PATH_CHAR) || (c =? DOS_PATH_CHAR).

(** Modelled from the spec: [SafeStrLen] and [SafeStrSize] of
    uefi_support.h (not in src/): the length of a string in code units, and
    its size in bytes with the terminator, which is the required size of a
    name or label in the buffer-too-small protocol. *)
Definition SafeStrLen (s : wstring) : Z := Z.of_nat (length s).
Definition SafeStrSize (s : wstring) : Z := (SafeStrLen s + 1) * sizeof_CHAR16.

(** Modelled from the spec: [SafeStrCpy(Dest, DestMax, Src)] of
    uefi_support.h (not in src/): the copy, an internal-consistency fault
    when the string and its terminator do not fit in [DestMax] units. *)
Definition SafeStrCpy (DestMax : Z) (Src : wstring) : option wstring :=
  if SafeStrLen Src <? DestMax then Some Src else None.

(** ** The records of uefi_driver.h *)

Definition addr := positive.
Definition ntfs_inode := Z.
Definition ntfs_volume := Z.

(** A file instance.  The two [EFI_FILE] members and their markers are the
    handle values below; [Path] is the owned path buffer ([None] is NULL),
    [BaseName] the index in [Path] the base-name pointer points to. *)
Record EFI_NTFS_FILE := mkFile {
  IsDir : bool;
  IsRoot : bool;
  DirPos : Z;
  Offset : Z;
  Path : option wstring;
  BaseName : Z;
  RefCount : Z;
  NtfsInode : option ntfs_inode
}.

Record EFI_BLOCK_IO_MEDIA := mkMedia {
  BlockSize : Z;
  LastBlock : Z
}.

(** A file system instance (the fields uefi_file.c reads or writes). *)
Record EFI_FS := mkFS {
  BlockIo : EFI_BLOCK_IO_MEDIA;
  BlockIo2 : option EFI_BLOCK_IO_MEDIA;
  NtfsVolume : option ntfs_volume;
  NtfsVolumeLabel : option wstring;
  TotalRefCount : Z
}.

(** A handle value is the address of one of the two [EFI_FILE] members of
    a file instance.  As the comment of the typedef has it, the member for
    read-only access is the one followed by an all-ones word ([MarkerRO],
    against [DetectRO] after [EfiFileRW]); [RO_ACCESS] reads the word that
    follows the member it is given, and [BASE_FILE] steps back from that
    member to the instance. *)
Inductive EFI_FILE_member := EfiFileRW | EfiFileRO.

Record EFI_FILE_HANDLE := mkHandle {
  handle_object : addr;
  handle_member : EFI_FILE_member
}.

Definition RO_ACCESS (Handle : EFI_FILE_HANDLE) : bool :=
  match handle_member Handle with EfiFileRO => true | EfiFileRW => false end.

Definition BASE_FILE (Handle : EFI_FILE_HANDLE) : addr := handle_object Handle.

Record State := mkState {
  fs : EFI_FS;
  files : gmap addr EFI_NTFS_FILE;
  errno : EFI_STATUS
}.

#[global] Instance EFI_FILE_member_eq_dec : EqDecision EFI_FILE_member.
Proof. solve_decision. Defined.
#[global] Instance EFI_FILE_HANDLE_eq_dec : EqDecision EFI_FILE_HANDLE.
Proof. solve_decision. Defined.

(** Field updates, written [File->RefCount = n] in the source. *)
Definition set_RefCount (n : Z) (f : EFI_NTFS_FILE) : EFI_NTFS_FILE :=
  mkFile (IsDir f) (IsRoot f) (DirPos f) (Offset f) (Path f) (BaseName f) n (NtfsInode f).
Definition set_NtfsInode (i : option ntfs_inode) (f : EFI_NTFS_FILE) : EFI_NTFS_FILE :=
  mkFile (IsDir f) (IsRoot f) (DirPos f) (Offset f) (Path f) (BaseName f) (RefCount f) i.
Definition set_IsDir (b : bool) (f : EFI_NTFS_FILE) : EFI_NTFS_FILE :=
  mkFile b (IsRoot f) (DirPos f) (Offset f) (Path f) (BaseName f) (RefCount f) (NtfsInode f).
Definition set_DirPos (p : Z) (f : EFI_NTFS_FILE) : EFI_NTFS_FILE :=
  mkFile (IsDir f) (IsRoot f) p (Offset f) (Path f) (BaseName f) (RefCount f) (NtfsInode f).
Definition set_Offset (o : Z) (f : EFI_NTFS_FILE) : EFI_NTFS_FILE :=
  mkFile (IsDir f) (IsRoot f) (DirPos f) o (Path f) (BaseName f) (RefCount f) (NtfsInode f).
Definition set_Path (p : option wstring) (b : Z) (f : EFI_NTFS_FILE) : EFI_NTFS_FILE :=
  mkFile (IsDir f) (IsRoot f) (DirPos f) (Offset f) p b (RefCount f) (NtfsInode f).

Definition set_TotalRefCount (n : Z) (v : EFI_FS) : EFI_FS :=
  mkFS (BlockIo v) (BlockIo2 v) (NtfsVolume v) (NtfsVolumeLabel v) n.
Definition set_NtfsVolume (p : option ntfs_volume) (v : EFI_FS) : EFI_FS :=
  mkFS (BlockIo v) (BlockIo2 v) p (NtfsVolumeLabel v) (TotalRefCount v).

Definition with_fs (v : EFI_FS) (st : State) : State :=
  mkState v (files st) (errno st).
Definition with_files (m : gmap addr EFI_NTFS_FILE) (st : State) : State :=
  mkState (fs st) m (errno st).
Definition with_errno (e : EFI_STATUS) (st : State) : State :=
  mkState (fs st) (files st) e.

(** [*File = f] for the object at [a]. *)
Definition store_file (a : addr) (f : EFI_NTFS_FILE) (st : State) : State :=
  with_files (<[a := f]> (files st)) st.

(** The volume is mounted while it holds an engine volume object. *)
Definition mounted (st : State) : bool :=
  match NtfsVolume (fs st) with Some _ => true | None => false end.

(** ** Buffers the caller passes in

    [EFI_FILE_INFO] and [EFI_FILE_SYSTEM_INFO] as in the UEFI
    specification; times are opaque.  A caller's [Data] buffer is modelled
    by the typed value last stored through it. *)

Record EFI_FILE_INFO := mkInfo {
  Info_Size : Z;
  FileSize : Z;
  PhysicalSize : Z;
  CreateTime : Z;
  LastAccessTime : Z;
  ModificationTime : Z;
  Attribute : Z;
  FileName : wstring
}.

Record EFI_FILE_SYSTEM_INFO := mkFSInfo {
  FSInfo_Size : Z;
  ReadOnly : bool;
  VolumeSize : Z;
  FreeSpace : Z;
  FSInfo_BlockSize : Z;
  VolumeLabel : wstring
}.

Inductive Buffer :=
| BufBytes (b : list Z)
| BufFileInfo (i : EFI_FILE_INFO)
| BufFileSystemInfo (i : EFI_FILE_SYSTEM_INFO)
| BufVolumeLabel (l : wstring).

Definition SIZE_OF_EFI_FILE_INFO : Z := 80.
Definition SIZE_OF_EFI_FILE_SYSTEM_INFO : Z := 36.

Definition zero_info : EFI_FILE_INFO := mkInfo 0 0 0 0 0 0 0 [].

(** [(EFI_FILE_INFO* )Data].  The driver stores [Size] before it reads any
    field, so what a buffer of another kind would show there is never
    observed; it reads as zero. *)
Definition as_FILE_INFO (Data : Buffer) : EFI_FILE_INFO :=
  match Data with BufFileInfo i => i | _ => zero_info end.

Definition set_Info_Size (n : Z) (i : EFI_FILE_INFO) : EFI_FILE_INFO :=
  mkInfo n (FileSize i) (PhysicalSize i) (CreateTime i) (LastAccessTime i)
    (ModificationTime i) (Attribute i) (FileName i).
Definition set_FileName (s : wstring) (i : EFI_FILE_INFO) : EFI_FILE_INFO :=
  mkInfo (Info_Size i) (FileSize i) (PhysicalSize i) (CreateTime i) (LastAccessTime i)
    (ModificationTime i) (Attribute i) s.

(** One entry as the engine presents it to a directory hook. *)
Record DirEntry := mkEntry {
  d_Name : wstring;
  d_NameLen : Z;
  d_NameType : Z;
  d_MRef : Z;
  d_DtType : Z
}.

(** ** The filesystem engine

    What the engine collaborator (uefi_bridge.c over libntfs-3g, not in
    src/) answers.  The driver code below is stated for an arbitrary
    engine. *)

Record Engine := mkEngine {
  (** [NtfsIsVolumeReadOnly(Volume)] *)
  NtfsIsVolumeReadOnly : option ntfs_volume -> bool;
  (** does the allocation of a file object by [NtfsAllocateFile] fail *)
  pool_exhausted : State -> bool;
  (** [AllocateZeroPool(Size) == NULL], for the buffers the driver
      allocates itself *)
  AllocateZeroPool_NULL : State -> Z -> bool;
  (** the engine's mount primitive: an error, or the engine volume object *)
  ntfs_mount : State -> EFI_STATUS + ntfs_volume;
  (** [PATH_MAX], the length in code units of a path buffer *)
  PATH_MAX : Z;
  (** [CleanPath(Path)], in place *)
  CleanPath : wstring -> wstring;
  (** [NtfsOpenFile(&File)] and [NtfsCreateFile(&File)]: the status, the
      object [File] points to afterwards, and the memory *)
  NtfsOpenFile : State -> addr -> EFI_STATUS * addr * State;
  NtfsCreateFile : State -> addr -> EFI_STATUS * addr * State;
  (** the status of the engine's delete of an object *)
  ntfs_delete : State -> addr -> EFI_STATUS;
  (** the engine's read and write at the object's offset: status and count *)
  ntfs_read : State -> addr -> Z -> EFI_STATUS * list Z;
  ntfs_write : State -> addr -> Buffer -> Z -> EFI_STATUS * Z;
  (** [NtfsGetFileInfo(File, Info, MRef, IsDir)] fills [Info] *)
  NtfsGetFileInfo : State -> addr -> EFI_FILE_INFO -> Z -> bool -> EFI_STATUS * EFI_FILE_INFO;
  (** [NtfsGetVolumeFreeSpace(Volume)] *)
  NtfsGetVolumeFreeSpace : option ntfs_volume -> Z;
  (** [GetInodeNumber(MRef)] *)
  GetInodeNumber : Z -> Z;
  (** the entries of an open directory, in enumeration order *)
  ntfs_dir_entries : State -> addr -> list DirEntry
}.

(** Modelled from the spec: the inode numbers of the skip rule
    (uefi_bridge.h, not in src/): the filesystem root is inode 5, the first
    user inode is 16. *)
Definition FILE_ROOT : Z := 5.
Definition FILE_FIRST_USER : Z := 16.

Section Driver.

Variable E : Engine.

(** *** Lifecycle primitives of the bridge *)

(** Modelled from the spec: [NtfsMountVolume] (uefi_bridge.c, not in src/).
    Transition Unmounted to Mounted on the first request; invokes the
    engine's mount primitive; on failure the volume stays Unmounted and the
    operation fails. *)
Definition NtfsMountVolume (st : State) : EFI_STATUS * State :=
  if mounted st then (EFI_SUCCESS, st)
  else match ntfs_mount E st with
       | inl e => (e, st)
       | inr v => (EFI_SUCCESS, with_fs (set_NtfsVolume (Some v) (fs st)) st)
       end.

(** Modelled from the spec: [NtfsUnmountVolume] (uefi_bridge.c, not in
    src/).  Transition Mounted to Unmounted; the engine volume object is
    only valid while mounted. *)
Definition NtfsUnmountVolume (st : State) : State :=
  with_fs (set_NtfsVolume None (fs st)) st.

(** Modelled from the spec: [NtfsAllocateFile] (uefi_bridge.c, not in
    src/).  [Allocate(volume) -> handle]: one new, zeroed file object of
    the volume; an allocation failure is OutOfResources. *)
Definition blank_file : EFI_NTFS_FILE :=
  mkFile false false 0 0 None 0 0 None.

Definition NtfsAllocateFile (st : State) : EFI_STATUS * option addr * State :=
  if pool_exhausted E st then (EFI_OUT_OF_RESOURCES, None, st)
  else let a := fresh (dom (files st)) in
       (EFI_SUCCESS, Some a, store_file a blank_file st).

(** Modelled from the spec: [NtfsCloseFile] (uefi_bridge.c, not in src/).
    The engine node is closed: the node reference is null once the
    underlying object is gone.  A null [File] is left alone. *)
Definition NtfsCloseFile (st : State) (File : option addr) : State :=
  match File with
  | None => st
  | Some a => with_files (alter (set_NtfsInode None) a (files st)) st
  end.

(** Modelled from the spec: [NtfsFreeFile] (uefi_bridge.c, not in src/).
    [Free(handle)] only has effect if the handle's reference count is zero;
    then the object is destroyed, its path freed with it.  Calling it while
    references remain is a no-op guard. *)
Definition NtfsFreeFile (st : State) (File : option addr) : State :=
  match File with
  | None => st
  | Some a =>
      match files st !! a with
      | Some f => if RefCount f =? 0 then with_files (delete a (files st)) st else st
      | None => st
      end
  end.

(** Modelled from the spec: [NtfsDeleteFile] (uefi_bridge.c, not in src/).
    [DeleteFile(object)]: the engine's status; the node is closed by the
    delete (FileDelete: "No need to close the file, NtfsDeleteFile will do
    it"). *)
Definition NtfsDeleteFile (st : State) (a : addr) : EFI_STATUS * State :=
  (ntfs_delete E st a, NtfsCloseFile st (Some a)).

(** Modelled from the spec: [NtfsReadFile] and [NtfsWriteFile]
    (uefi_bridge.c, not in src/).  Bytes via the engine read or write at the
    object's offset, advancing the offset by the count transferred, which is
    returned through [Len]. *)
Definition NtfsReadFile (st : State) (a : addr) (f : EFI_NTFS_FILE) (Data : Buffer) (Len : Z)
  : EFI_STATUS * Z * Buffer * State :=
  let '(s, bytes) := ntfs_read E st a Len in
  if EFI_ERROR s then (s, Len, Data, st)
  else let n := Z.of_nat (length bytes) in
       (s, n, BufBytes bytes, store_file a (set_Offset (Offset f + n) f) st).

Definition NtfsWriteFile (st : State) (a : addr) (f : EFI_NTFS_FILE) (Data : Buffer) (Len : Z)
  : EFI_STATUS * Z * State :=
  let '(s, n) := ntfs_write E st a Data Len in
  if EFI_ERROR s then (s, Len, st)
  else (s, n, store_file a (set_Offset (Offset f + n) f) st).

(** *** FileClose (uefi_file.c, lines 213-239) *)

Definition FileClose (st : State) (This : EFI_FILE_HANDLE) : option (EFI_STATUS * State) :=
  let a := BASE_FILE This in
  File ← files st !! a;
  (* File->RefCount-- *)
  let File1 := set_RefCount (RefCount File - 1) File in
  let st1 := store_file a File1 st in
  let st2 := if RefCount File1 <=? 0
             then NtfsFreeFile (NtfsCloseFile st1 (Some a)) (Some a)
             else st1 in
  (* FileSystem->TotalRefCount-- *)
  let st3 := with_fs (set_TotalRefCount (TotalRefCount (fs st2) - 1) (fs st2)) st2 in
  let st4 := if TotalRefCount (fs st3) <=? 0 then NtfsUnmountVolume st3 else st3 in
  Some (EFI_SUCCESS, st4).

(** *** FileDelete (uefi_file.c, lines 250-289) *)

Definition is_null {A} (p : option A) : bool :=
  match p with None => true | Some _ => false end.

Definition FileDelete (st : State) (This : EFI_FILE_HANDLE) : option (EFI_STATUS * State) :=
  let a := BASE_FILE This in
  File ← files st !! a;
  if IsRoot File || is_null (NtfsInode File) then Some (EFI_ACCESS_DENIED, st)
  else
    (* File->RefCount--; FileSystem->TotalRefCount-- *)
    let File1 := set_RefCount (RefCount File - 1) File in
    let st1 := store_file a File1 st in
    let st2 := with_fs (set_TotalRefCount (TotalRefCount (fs st1) - 1) (fs st1)) st1 in
    (* Don't delete root or files that have more than one ref *)
    if IsRoot File1 || (0 <? RefCount File1) then Some (EFI_WARN_DELETE_FAILURE, st2)
    else if NtfsIsVolumeReadOnly E (NtfsVolume (fs st2)) then Some (EFI_WARN_DELETE_FAILURE, st2)
    else
      let '(Status, st3) := NtfsDeleteFile st2 a in
      let st4 := NtfsFreeFile st3 (Some a) in
      let st5 := if TotalRefCount (fs st4) <=? 0 then NtfsUnmountVolume st4 else st4 in
      Some (Status, st5).

(** *** FileOpen (uefi_file.c, lines 51-197) *)

(** The [switch (Mode)] of FileOpen: Read, Read/Write or Create/Read/Write. *)
Definition valid_open_mode (Mode : Z) : bool :=
  (Mode =? EFI_FILE_MODE_READ)
  || (Mode =? Z.lor EFI_FILE_MODE_READ EFI_FILE_MODE_WRITE)
  || (Mode =? Z.lor EFI_FILE_MODE_CREATE (Z.lor EFI_FILE_MODE_READ EFI_FILE_MODE_WRITE)).

(** [Mode & Flag] as a C condition. *)
Definition has_flag (Mode Flag : Z) : bool := negb (Z.land Mode Flag =? 0).

(** [*Name == 0] *)
Definition is_empty (Name : wstring) : bool :=
  match Name with [] => true | _ :: _ => false end.

(** The handle returned for an object, "with the proper access mode". *)
Definition handle_for_mode (a : addr) (Mode : Z) : EFI_FILE_HANDLE :=
  mkHandle a (if has_flag Mode EFI_FILE_MODE_WRITE then EfiFileRW else EfiFileRO).

(** The index that follows the last [PATH_CHAR] of a path, 0 when there is
    none: where the backward loop that sets [BaseName] stops. *)
Fixpoint base_name_index (p : wstring) (i acc : Z) : Z :=
  match p with
  | [] => acc
  | c :: p' => base_name_index p' (i + 1) (if c =? PATH_CHAR then i + 1 else acc)
  end.

(** The label [out:] of FileOpen; the temporary [Path] buffer is released. *)
Definition FileOpen_out (Status : EFI_STATUS) (NewFile : option addr) (st : State)
  : option (EFI_STATUS * option EFI_FILE_HANDLE * State) :=
  Some (Status, None, if EFI_ERROR Status then NtfsFreeFile st NewFile else st).

Definition FileOpen (st : State) (This : EFI_FILE_HANDLE) (Name : wstring)
    (Mode Attributes : Z) : option (EFI_STATUS * option EFI_FILE_HANDLE * State) :=
  let a := BASE_FILE This in
  File ← files st !! a;
  if NtfsIsVolumeReadOnly E (NtfsVolume (fs st)) && negb (Mode =? EFI_FILE_MODE_READ)
  then Some (EFI_WRITE_PROTECTED, None, st)
  (* Additional failures *)
  else if (StrCmp Name L_dotdot =? 0) && IsRoot File then Some (EFI_NOT_FOUND, None, st)
  else if negb (IsDir File) then Some (EFI_NOT_FOUND, None, st)
  else if negb (valid_open_mode Mode) then Some (EFI_INVALID_PARAMETER, None, st)
  (* Prevent the creation of files named '', '.' or '..' *)
  else if has_flag Mode EFI_FILE_MODE_CREATE
          && (is_empty Name || (StrCmp Name L_dot =? 0) || (StrCmp Name L_dotdot =? 0))
  then Some (EFI_ACCESS_DENIED, None, st)
  (* See if we're trying to reopen current *)
  else if is_empty Name || (StrCmp Name L_dot =? 0) then
    let st1 := store_file a (set_RefCount (RefCount File + 1) File) st in
    let st2 := with_fs (set_TotalRefCount (TotalRefCount (fs st1) + 1) (fs st1)) st1 in
    Some (EFI_SUCCESS, Some (handle_for_mode a Mode), st2)
  (* Path = AllocateZeroPool(PATH_MAX * sizeof(CHAR16)) *)
  else if AllocateZeroPool_NULL E st (PATH_MAX E * sizeof_CHAR16)
  then FileOpen_out EFI_OUT_OF_RESOURCES None st
  else
    (* If we have an absolute path, don't bother completing with the parent *)
    parent ← (if match Name with c :: _ => IS_PATH_DELIMITER c | [] => false end
              then Some []
              else p ← Path File; q ← SafeStrCpy (PATH_MAX E) p; Some (q ++ [PATH_CHAR]));
    let Len := SafeStrLen parent in
    (* Copy the rest of the path, convert the delimiters *)
    rest ← SafeStrCpy (PATH_MAX E - Len) Name;
    let rest := (λ c, if c =? DOS_PATH_CHAR then PATH_CHAR else c) <$> rest in
    let P := CleanPath E (parent ++ rest) in
    (* FS_ASSERT(Path[0] == PATH_CHAR) *)
    if negb (match P with c :: _ => c =? PATH_CHAR | [] => false end) then None
    else
      let '(Status, NewFile, st1) := NtfsAllocateFile st in
      if EFI_ERROR Status then FileOpen_out Status NewFile st1
      (* Extra check to see if we're trying to create root *)
      else if match P with c :: t => (c =? PATH_CHAR) && is_empty t | [] => false end
              && has_flag Mode EFI_FILE_MODE_CREATE
      then FileOpen_out EFI_ACCESS_DENIED NewFile st1
      else
        n ← NewFile;
        f ← files st1 !! n;
        let f := set_Path (Some P) (base_name_index P 0 0) f in
        let '(Status, n, st2) :=
          if has_flag Mode EFI_FILE_MODE_CREATE
          then NtfsCreateFile E
                 (store_file n (set_IsDir (has_flag Attributes EFI_FILE_DIRECTORY) f) st1) n
          else NtfsOpenFile E (store_file n f st1) n in
        if EFI_ERROR Status then FileOpen_out Status (Some n) st2
        else
          f ← files st2 !! n;
          let st3 := store_file n (set_RefCount (RefCount f + 1) f) st2 in
          let st4 := with_fs (set_TotalRefCount (TotalRefCount (fs st3) + 1) (fs st3)) st3 in
          Some (EFI_SUCCESS, Some (handle_for_mode n Mode), st4).

(** *** FileOpenVolume (uefi_file.c, lines 743-799) *)

Definition FileOpenVolume_out (Status : EFI_STATUS) (RootFile : option addr) (st : State)
  : option (EFI_STATUS * option EFI_FILE_HANDLE * State) :=
  Some (Status, None,
        NtfsUnmountVolume (NtfsFreeFile (NtfsCloseFile st RootFile) RootFile)).

Definition FileOpenVolume (st : State)
  : option (EFI_STATUS * option EFI_FILE_HANDLE * State) :=
  let '(Status, st1) := NtfsMountVolume st in
  if EFI_ERROR Status then FileOpenVolume_out Status None st1
  else
    let '(Status, RootFile, st2) := NtfsAllocateFile st1 in
    if EFI_ERROR Status then FileOpenVolume_out Status RootFile st2
    else
      r ← RootFile;
      f ← files st2 !! r;
      (* Setup the root path *)
      if AllocateZeroPool_NULL E st2 (2 * sizeof_CHAR16)
      then FileOpenVolume_out EFI_OUT_OF_RESOURCES (Some r) st2
      else
        let st3 := store_file r (set_Path (Some [PATH_CHAR]) 1 f) st2 in
        let '(Status, r, st4) := NtfsOpenFile E st3 r in
        if EFI_ERROR Status then FileOpenVolume_out Status (Some r) st4
        else
          f ← files st4 !! r;
          let st5 := store_file r (set_RefCount (RefCount f + 1) f) st4 in
          let st6 := with_fs (set_TotalRefCount (TotalRefCount (fs st5) + 1) (fs st5)) st5 in
          Some (EFI_SUCCESS, Some (mkHandle r EfiFileRW), st6).

(** *** DirHook (uefi_file.c, lines 294-327) *)

(** Structure used with DirHook: the directory and the caller's buffer. *)
Record DIR_DATA := mkDirData {
  Parent : addr;
  Info : EFI_FILE_INFO
}.

Definition UINT64_MODULUS : Z := 2 ^ 64.

(** [((UINT64)NameLen + 1) * sizeof(CHAR16)] *)
Definition name_bytes (NameLen : Z) : Z :=
  (((NameLen mod UINT64_MODULUS) + 1) * sizeof_CHAR16) mod UINT64_MODULUS.

Definition DirHook (st : State) (Data : DIR_DATA) (Name : wstring)
    (NameLen NameType Pos MRef DtType : Z) : option (Z * State * DIR_DATA) :=
  (* Don't list any system files except root *)
  if (GetInodeNumber E MRef <? FILE_FIRST_USER) && negb (GetInodeNumber E MRef =? FILE_ROOT)
  then Some (0, st, Data)
  (* FS_ASSERT(NameLen < 256) *)
  else if negb (NameLen <? 256) then None
  else if Info_Size (Info Data) <? name_bytes NameLen
  then Some (-1, with_errno EFI_BUFFER_TOO_SMALL st, Data)
  (* CopyMem(..., NameLen * sizeof(CHAR16)): with a negative NameLen the
     length is above 2^63 bytes as a UINTN, more than any buffer holds *)
  else if NameLen <? 0 then None
  else
    let Info1 := set_FileName (take (Z.to_nat NameLen) Name) (Info Data) in
    let Info2 :=
      set_Info_Size ((SIZE_OF_EFI_FILE_INFO + name_bytes NameLen) mod UINT64_MODULUS) Info1 in
    (* Set the Info attributes we obtain from the inode *)
    let '(Status, Info3) := NtfsGetFileInfo E st (Parent Data) Info2 MRef (DtType =? 4) in
    if EFI_ERROR Status
    then Some (-1, with_errno Status st, mkDirData (Parent Data) Info3)
    (* One shot *)
    else Some (1, st, mkDirData (Parent Data) Info3).

(** *** The enumerator of the bridge *)

Definition NTFS_DIRHOOK : Type :=
  State -> DIR_DATA -> wstring -> Z -> Z -> Z -> Z -> Z -> option (Z * State * DIR_DATA).

(** Modelled from the spec: the entry visit of [NtfsReadDirectory]
    (uefi_bridge.c, not in src/).  The entries from the current enumeration
    position are presented to the callback one by one until it returns
    non-zero; a callback error is reported with the status it left in the
    out-of-band error channel, and the entry it failed on is presented again
    by the next call; running out of entries is end of directory. *)
Fixpoint visit_entries (Hook : NTFS_DIRHOOK) (st : State) (Data : DIR_DATA)
    (entries : list DirEntry) (pos : Z) : option (EFI_STATUS * Z * State * DIR_DATA) :=
  match entries with
  | [] => Some (EFI_END_OF_FILE, pos, st, Data)
  | e :: rest =>
      '(r, st1, Data1) ← Hook st Data (d_Name e) (d_NameLen e) (d_NameType e) pos
                            (d_MRef e) (d_DtType e);
      if r =? 0 then visit_entries Hook st1 Data1 rest (pos + 1)
      else if r <? 0 then Some (errno st1, pos, st1, Data1)
      else Some (EFI_SUCCESS, pos + 1, st1, Data1)
  end.

(** Modelled from the spec: [NtfsReadDirectory] (uefi_bridge.c, not in
    src/).  [ReadDirectory(object, visitorCallback)]: a restartable visit of
    the directory's entries from [DirPos], which it leaves at the position
    reached. *)
Definition NtfsReadDirectory (st : State) (a : addr) (File : EFI_NTFS_FILE)
    (Hook : NTFS_DIRHOOK) (Data : DIR_DATA) : option (EFI_STATUS * State * DIR_DATA) :=
  '(s, pos, st1, Data1) ←
     visit_entries Hook st Data
       (drop (Z.to_nat (DirPos File)) (ntfs_dir_entries E st a)) (DirPos File);
  Some (s, with_files (alter (set_DirPos pos) a (files st1)) st1, Data1).

(** *** FileReadDir and FileRead (uefi_file.c, lines 337-382) *)

Definition FileReadDir (st : State) (a : addr) (File : EFI_NTFS_FILE) (Len : Z) (Data : Buffer)
  : option (EFI_STATUS * Z * Buffer * State) :=
  (* HookData.Info->Size = *Len *)
  let HookData := mkDirData a (set_Info_Size Len (as_FILE_INFO Data)) in
  '(Status, st1, HookData1) ← NtfsReadDirectory st a File DirHook HookData;
  if EFI_ERROR Status then
    if Status =? EFI_END_OF_FILE
    then Some (EFI_SUCCESS, 0, BufFileInfo (Info HookData1), st1)
    else Some (Status, Len, BufFileInfo (Info HookData1), st1)
  else Some (EFI_SUCCESS, Info_Size (Info HookData1), BufFileInfo (Info HookData1), st1).

Definition FileRead (st : State) (This : EFI_FILE_HANDLE) (Len : Z) (Data : Buffer)
  : option (EFI_STATUS * Z * Buffer * State) :=
  let a := BASE_FILE This in
  File ← files st !! a;
  if is_null (NtfsInode File) then Some (EFI_DEVICE_ERROR, Len, Data, st)
  (* If this is a directory, then fetch the directory entries *)
  else if IsDir File then FileReadDir st a File Len Data
  else Some (NtfsReadFile st a File Data Len).

(** *** FileWrite (uefi_file.c, lines 399-421) *)

Definition FileWrite (st : State) (This : EFI_FILE_HANDLE) (Len : Z) (Data : Buffer)
  : option (EFI_STATUS * Z * State) :=
  let a := BASE_FILE This in
  File ← files st !! a;
  if is_null (NtfsInode File) then Some (EFI_DEVICE_ERROR, Len, st)
  else if RO_ACCESS This then Some (EFI_ACCESS_DENIED, Len, st)
  else if NtfsIsVolumeReadOnly E (NtfsVolume (fs st)) then Some (EFI_WRITE_PROTECTED, Len, st)
  (* "Writes to open directory files are not supported" *)
  else if IsDir File then Some (EFI_UNSUPPORTED, Len, st)
  else Some (NtfsWriteFile st a File Data Len).

(** *** FileGetInfo (uefi_file.c, lines 509-623) *)

(** The three information types, as (Data1, Data2, Data3, Data4). *)
Definition EFI_GUID : Type := Z * Z * Z * Z.
Definition gEfiFileInfoGuid : EFI_GUID :=
  (0x09576e92, 0x6d3f, 0x11d2, 0x3b7269c9a000398e).
Definition gEfiFileSystemInfoGuid : EFI_GUID :=
  (0x09576e93, 0x6d3f, 0x11d2, 0x3b7269c9a000398e).
Definition gEfiFileSystemVolumeLabelInfoIdGuid : EFI_GUID :=
  (0xdb47d7d3, 0xfe81, 0x11d3, 0x4dc13f279000359a).

(** [CompareMem(Type, &Guid, sizeof( *Type)) == 0] *)
Definition same_guid (x y : EFI_GUID) : bool := bool_decide (x = y).

(** The string [File->BaseName] points to. *)
Definition base_name (File : EFI_NTFS_FILE) : option wstring :=
  p ← Path File; Some (drop (Z.to_nat (BaseName File)) p).

(** [Size] of the label: one NUL code unit when the volume has none. *)
Definition label_size (v : EFI_FS) : Z :=
  match NtfsVolumeLabel v with
  | None => sizeof_CHAR16
  | Some l => SafeStrSize l
  end.

Definition FileGetInfo (st : State) (This : EFI_FILE_HANDLE) (Type_ : EFI_GUID)
    (Len : Z) (Data : Buffer) : option (EFI_STATUS * Z * Buffer) :=
  let a := BASE_FILE This in
  File ← files st !! a;
  if is_null (NtfsInode File) then Some (EFI_DEVICE_ERROR, Len, Data)
  else if same_guid Type_ gEfiFileInfoGuid then
    name ← base_name File;
    let Size := SafeStrSize name in
    (* FS_ASSERT(Size >= sizeof(CHAR16)) *)
    if negb (sizeof_CHAR16 <=? Size) then None
    else if Len <? SIZE_OF_EFI_FILE_INFO + Size
    then Some (EFI_BUFFER_TOO_SMALL, SIZE_OF_EFI_FILE_INFO + Size, Data)
    else
      (* ZeroMem(Data, SIZE_OF_EFI_FILE_INFO) *)
      let Info0 := set_FileName (FileName (as_FILE_INFO Data)) zero_info in
      let '(Status, Info1) := NtfsGetFileInfo E st a Info0 0 (IsDir File) in
      if EFI_ERROR Status then Some (Status, Len, BufFileInfo Info1)
      else
        let Info2 := set_Info_Size (Size + SIZE_OF_EFI_FILE_INFO) (set_FileName name Info1) in
        Some (EFI_SUCCESS, Info_Size Info2, BufFileInfo Info2)
  else if same_guid Type_ gEfiFileSystemInfoGuid then
    let Size := label_size (fs st) in
    if Len <? SIZE_OF_EFI_FILE_SYSTEM_INFO + Size
    then Some (EFI_BUFFER_TOO_SMALL, SIZE_OF_EFI_FILE_SYSTEM_INFO + Size, Data)
    else
      let Media := match BlockIo2 (fs st) with Some m => m | None => BlockIo (fs st) end in
      let BlockSize_ := if BlockSize Media =? 0 then 512 else BlockSize Media in
      Some (EFI_SUCCESS, Size + SIZE_OF_EFI_FILE_SYSTEM_INFO,
            BufFileSystemInfo
              (mkFSInfo (Size + SIZE_OF_EFI_FILE_SYSTEM_INFO)
                 (NtfsIsVolumeReadOnly E (NtfsVolume (fs st)))
                 ((((LastBlock Media + 1) mod UINT64_MODULUS) * BlockSize_) mod UINT64_MODULUS)
                 (NtfsGetVolumeFreeSpace E (NtfsVolume (fs st)))
                 BlockSize_
                 (match NtfsVolumeLabel (fs st) with Some l => l | None => [] end)))
  else if same_guid Type_ gEfiFileSystemVolumeLabelInfoIdGuid then
    (* Per specs, only valid for root *)
    if negb (IsRoot File) then Some (EFI_ACCESS_DENIED, Len, Data)
    else if Len <? sizeof_CHAR16 then Some (EFI_BUFFER_TOO_SMALL, Len, Data)
    else
      let Size := label_size (fs st) in
      if Size <? Len then Some (EFI_BUFFER_TOO_SMALL, Size, Data)
      else
        Some (EFI_SUCCESS, Size,
              BufVolumeLabel (match NtfsVolumeLabel (fs st) with Some l => l | None => [] end))
  else Some (EFI_UNSUPPORTED, Len, Data).

End Driver.

(** * Vocabulary of the statements *)

(** The two other valid open modes. *)
Definition MODE_READ_WRITE : Z := Z.lor EFI_FILE_MODE_READ EFI_FILE_MODE_WRITE.
Definition MODE_CREATE_READ_WRITE : Z :=
  Z.lor EFI_FILE_MODE_CREATE (Z.lor EFI_FILE_MODE_READ EFI_FILE_MODE_WRITE).

(** The memory after the two decrements of FileDelete, [File->RefCount--]
    and [FileSystem->TotalRefCount--], on the object at [a]. *)
Definition count_down (st : State) (a : addr) (File : EFI_NTFS_FILE) : State :=
  with_fs (set_TotalRefCount (TotalRefCount (fs st) - 1) (fs st))
    (store_file a (set_RefCount (RefCount File - 1) File) st).

(** The skip rule in the words of the specification: an entry is listed
    when it is the entry of the filesystem root or its inode number is at
    least the first user inode. *)
Definition listed (E : Engine) (e : DirEntry) : bool :=
  (GetInodeNumber E (d_MRef e) =? FILE_ROOT)
  || (FILE_FIRST_USER <=? GetInodeNumber E (d_MRef e)).

(** A listing from its first listed entry on. *)
Fixpoint skip_unlisted (E : Engine) (l : list DirEntry) : list DirEntry :=
  match l with
  | [] => []
  | e :: r => if listed E e then e :: r else skip_unlisted E r
  end.

(** The engine's metadata query succeeds and leaves alone the two fields
    the hook has stored. *)
Definition info_query_succeeds (E : Engine) : Prop :=
  forall st a i m d,
    EFI_ERROR (NtfsGetFileInfo E st a i m d).1 = false /\
    FileName (NtfsGetFileInfo E st a i m d).2 = FileName i /\
    Info_Size (NtfsGetFileInfo E st a i m d).2 = Info_Size i.

(** The name of every listed entry is at most 255 code units and fits,
    after the fixed part of [EFI_FILE_INFO], a buffer of [Len] bytes. *)
Definition names_fit (E : Engine) (Len : Z) (l : list DirEntry) : Prop :=
  Forall (fun e => listed E e = true ->
                   0 <= d_NameLen e < 256 /\
                   SIZE_OF_EFI_FILE_INFO + name_bytes (d_NameLen e) <= Len) l.

(** The name the hook stores for an entry. *)
Definition entry_name (e : DirEntry) : wstring :=
  take (Z.to_nat (d_NameLen e)) (d_Name e).

(** Repeated Read calls on a directory handle with a buffer of [Len] bytes,
    until a read of length zero: the names returned, one per call.  [None]
    when a call fails or the calls allowed are used up. *)
Fixpoint read_directory (E : Engine) (calls : nat) (st : State) (This : EFI_FILE_HANDLE)
    (Len : Z) (Data : Buffer) : option (list wstring) :=
  match calls with
  | O => None
  | S k =>
      '(Status, Len', Data', st') ← FileRead E st This Len Data;
      if EFI_ERROR Status then None
      else if Len' =? 0 then Some []
      else rest ← read_directory E k st' This Len Data';
           Some (FileName (as_FILE_INFO Data') :: rest)
  end.

(** The volume is mounted exactly while handles are open on it. *)
Definition mount_invariant (st : State) : Prop :=
  mounted st = true <-> 0 < TotalRefCount (fs st).

(** The sum of the reference counts of the objects of a volume. *)
Definition refcount_sum (m : gmap addr EFI_NTFS_FILE) : Z :=
  map_fold (fun _ f acc => RefCount f + acc) 0 m.

(** Every object in memory is referenced, and the total count of the
    volume is the sum of the reference counts of its objects. *)
Definition well_counted (st : State) : Prop :=
  (forall a f, files st !! a = Some f -> 0 < RefCount f) /\
  TotalRefCount (fs st) = refcount_sum (files st).

(** The operations on a handle that resolve no path: Close, Delete, and
    Open of the empty name or "." with some mode. *)
Inductive HandleOp :=
| OpClose (h : EFI_FILE_HANDLE)
| OpDelete (h : EFI_FILE_HANDLE)
| OpReopen (h : EFI_FILE_HANDLE) (dot : bool) (Mode : Z).

Definition run_op (E : Engine) (st : State) (op : HandleOp) : option State :=
  match op with
  | OpClose h => snd <$> FileClose st h
  | OpDelete h => snd <$> FileDelete E st h
  | OpReopen h dot Mode =>
      snd <$> FileOpen E st h (if dot then L_dot else []) Mode 0
  end.

Fixpoint run_ops (E : Engine) (st : State) (ops : list HandleOp) : option State :=
  match ops with
  | [] => Some st
  | op :: rest => st' ← run_op E st op; run_ops E st' rest
  end.

(** * A reference engine

    A small engine to run the driver on concrete inputs: a fixed table of
    paths for the disk, a fixed directory listing, and chosen answers for
    the read-only query and the delete. *)

Module Reference.

(** Modelled from the spec: [CleanPath] (uefi_support.h, not in src/).
    Runs of repeated delimiters collapse to one; a segment of exactly "."
    is removed; a segment of exactly ".." removes itself and the preceding
    segment, and does not escape above the root. *)
Fixpoint split_segments (p cur : wstring) : list wstring :=
  match p with
  | [] => [rev cur]
  | c :: p' =>
      if c =? PATH_CHAR then rev cur :: split_segments p' []
      else split_segments p' (c :: cur)
  end.

Fixpoint clean_segments (segs kept : list wstring) : list wstring :=
  match segs with
  | [] => rev kept
  | s :: r =>
      if is_empty s || (StrCmp s L_dot =? 0) then clean_segments r kept
      else if StrCmp s L_dotdot =? 0 then clean_segments r (tail kept)
      else clean_segments r (s :: kept)
  end.

Definition join_segments (segs : list wstring) : wstring :=
  match segs with
  | [] => [PATH_CHAR]
  | _ => concat (map (cons PATH_CHAR) segs)
  end.

Definition clean_path (p : wstring) : wstring :=
  join_segments (clean_segments (split_segments p []) []).

(** The disk: path, is it a directory, inode. *)
Definition disk_entry : Type := wstring * bool * ntfs_inode.

Definition same_path (p q : wstring) : bool := bool_decide (p = q).

Definition find_on_disk (disk : list disk_entry) (p : wstring) : option disk_entry :=
  List.find (fun e => same_path (fst (fst e)) p) disk.

(** An object other than [a] that is open on path [p]. *)
Definition find_open (st : State) (a : addr) (p : wstring) : option addr :=
  fst <$> List.find
    (fun kv => negb (bool_decide (fst kv = a))
               && negb (is_null (NtfsInode (snd kv)))
               && match Path (snd kv) with Some q => same_path q p | None => false end)
    (map_to_list (files st)).

(** Modelled from the spec: [NtfsOpenFile] (uefi_bridge.c, not in src/).
    [OpenFile(object) -> object]: may substitute a pre-existing object for
    the same path, the new one being released; else the engine node of the
    path is attached, and NotFound when the disk has no such path. *)
Definition open_file (disk : list disk_entry) (st : State) (a : addr)
  : EFI_STATUS * addr * State :=
  match files st !! a with
  | None => (EFI_INVALID_PARAMETER, a, st)
  | Some f =>
      match Path f with
      | None => (EFI_INVALID_PARAMETER, a, st)
      | Some p =>
          match find_open st a p with
          | Some b => (EFI_SUCCESS, b, with_files (delete a (files st)) st)
          | None =>
              match find_on_disk disk p with
              | Some (_, d, i) =>
                  (EFI_SUCCESS, a,
                   store_file a
                     (mkFile d (same_path p [PATH_CHAR]) (DirPos f) (Offset f) (Path f)
                        (BaseName f) (RefCount f) (Some i)) st)
              | None => (EFI_NOT_FOUND, a, st)
              end
          end
      end
  end.

(** Modelled from the spec: [NtfsCreateFile] (uefi_bridge.c, not in src/).
    [CreateFile(object) -> object]: a path the disk already has is opened;
    a new one gets a fresh engine node. *)
Definition create_file (disk : list disk_entry) (st : State) (a : addr)
  : EFI_STATUS * addr * State :=
  match files st !! a with
  | None => (EFI_INVALID_PARAMETER, a, st)
  | Some f =>
      match Path f with
      | None => (EFI_INVALID_PARAMETER, a, st)
      | Some p =>
          match find_on_disk disk p with
          | Some _ => open_file disk st a
          | None => (EFI_SUCCESS, a, store_file a (set_NtfsInode (Some 1000) f) st)
          end
      end
  end.

Definition engine (read_only : bool) (delete_status : EFI_STATUS)
    (info_status : EFI_STATUS) (disk : list disk_entry) (entries : list DirEntry) : Engine :=
  {| NtfsIsVolumeReadOnly := fun _ => read_only;
     pool_exhausted := fun _ => false;
     AllocateZeroPool_NULL := fun _ _ => false;
     ntfs_mount := fun _ => inr 1;
     PATH_MAX := 4096;
     CleanPath := clean_path;
     NtfsOpenFile := open_file disk;
     NtfsCreateFile := create_file disk;
     ntfs_delete := fun _ _ => delete_status;
     ntfs_read := fun _ _ n => (EFI_SUCCESS, replicate (Z.to_nat n) 0);
     ntfs_write := fun _ _ _ n => (EFI_SUCCESS, n);
     NtfsGetFileInfo := fun _ _ i _ _ => (info_status, i);
     NtfsGetVolumeFreeSpace := fun _ => 4096;
     GetInodeNumber := fun m => Z.land m (2 ^ 48 - 1);
     ntfs_dir_entries := fun _ _ => entries |}.

(** "a", "DATA" and the two paths of the disk. *)
Definition L_a : wstring := [97].
Definition L_DATA : wstring := [68; 65; 84; 65].
Definition disk : list disk_entry :=
  [([PATH_CHAR], true, 5); ([PATH_CHAR; 97], false, 64)].

(** A root directory with system files, itself and two user entries. *)
Definition listing : list DirEntry :=
  [ mkEntry [36; 77; 70; 84] 4 1 0 8;
    mkEntry [46] 1 1 5 4;
    mkEntry [36; 66] 2 1 11 8;
    mkEntry [97] 1 1 64 8;
    mkEntry [100; 105; 114] 3 1 65 4 ].

(** A discovered, unmounted volume with no handle open. *)
Definition st_init : State :=
  mkState (mkFS (mkMedia 512 999) None None (Some L_DATA) 0) ∅ 0.

Definition writable : Engine := engine false EFI_SUCCESS EFI_SUCCESS disk listing.
Definition read_only : Engine := engine true EFI_SUCCESS EFI_SUCCESS disk listing.
Definition failing_delete : Engine :=
  engine false EFI_WARN_DELETE_FAILURE EFI_SUCCESS disk listing.

(** The memory after OpenVolume and Open "a" for reading on the root:
    the root directory and the file "a", one reference each. *)
Definition root_file : EFI_NTFS_FILE :=
  mkFile true true 0 0 (Some [PATH_CHAR]) 1 1 (Some 5).
Definition file_a : EFI_NTFS_FILE :=
  mkFile false false 0 0 (Some [PATH_CHAR; 97]) 1 1 (Some 64).
Definition h_root : EFI_FILE_HANDLE := mkHandle 1%positive EfiFileRW.
Definition h_a : EFI_FILE_HANDLE := mkHandle 2%positive EfiFileRO.
Definition h_a_rw : EFI_FILE_HANDLE := mkHandle 2%positive EfiFileRW.
Definition st_open : State :=
  mkState (mkFS (mkMedia 512 999) None (Some 1) (Some L_DATA) 2)
    (<[1%positive := root_file]> (<[2%positive := file_a]> ∅)) 0.

Definition open_a (E : Engine) : option (EFI_FILE_HANDLE * EFI_FILE_HANDLE * State) :=
  '(_, r, st1) ← FileOpenVolume E st_init;
  root ← r;
  '(_, n, st2) ← FileOpen E st1 root L_a EFI_FILE_MODE_READ 0;
  h ← n;
  Some (root, h, st2).

(** The memory once the root is closed again, "a" still open; and that
    memory with the counts of "a" and of the volume brought to zero. *)
Definition st_a : State :=
  mkState (mkFS (mkMedia 512 999) None (Some 1) (Some L_DATA) 1)
    (<[2%positive := file_a]> ∅) 0.
Definition st_a_zero : State :=
  mkState (mkFS (mkMedia 512 999) None (Some 1) (Some L_DATA) 0)
    (<[2%positive := set_RefCount 0 file_a]> ∅) 0.

(** The memory after OpenVolume and a reopen of "." for reading. *)
Definition st_root_twice : State :=
  mkState (mkFS (mkMedia 512 999) None (Some 1) (Some L_DATA) 2)
    (<[1%positive := set_RefCount 2 root_file]> ∅) 0.
Definition h_root_ro : EFI_FILE_HANDLE := mkHandle 1%positive EfiFileRO.

(** The memory after OpenVolume, and with the enumeration of the root at
    the end of the directory. *)
Definition st_root : State :=
  mkState (mkFS (mkMedia 512 999) None (Some 1) (Some L_DATA) 1)
    (<[1%positive := root_file]> ∅) 0.
Definition st_root_end : State :=
  mkState (mkFS (mkMedia 512 999) None (Some 1) (Some L_DATA) 1)
    (<[1%positive := set_DirPos 5 root_file]> ∅) 0.

(** OpenVolume, then three Read calls on the root with a buffer of 600
    bytes: the memory reached. *)
Definition read_root_to_end (E : Engine) : option State :=
  '(_, r, st1) ← FileOpenVolume E st_init;
  root ← r;
  '(_, _, d1, st2) ← FileRead E st1 root 600 (BufBytes []);
  '(_, _, d2, st3) ← FileRead E st2 root 600 d1;
  '(_, _, _, st4) ← FileRead E st3 root 600 d2;
  Some st4.

(** An engine whose metadata query fails. *)
Definition failing_info : Engine :=
  engine false EFI_SUCCESS EFI_DEVICE_ERROR disk listing.

(** OpenVolume, then Open "a" for reading on the root, then Close the
    root: the handle of "a" and the memory reached. *)
Definition open_a_close_root (E : Engine) : option (EFI_FILE_HANDLE * State) :=
  '(_, r, st1) ← FileOpenVolume E st_init;
  root ← r;
  '(_, n, st2) ← FileOpen E st1 root L_a EFI_FILE_MODE_READ 0;
  h ← n;
  '(_, st3) ← FileClose st2 root;
  Some (h, st3).

(** OpenVolume, then reopen "." on the root for reading: the two handle
    values of the root and the memory reached. *)
Definition open_root_twice (E : Engine)
  : option (EFI_FILE_HANDLE * EFI_FILE_HANDLE * State) :=
  '(_, r, st1) ← FileOpenVolume E st_init;
  root ← r;
  '(_, n, st2) ← FileOpen E st1 root L_dot EFI_FILE_MODE_READ 0;
  h ← n;
  Some (root, h, st2).

End Reference.

(** * The rest of uefi_file.c

    The operations the statements above do not reach: seek, set
    information, flush, the token variants, and the install and uninstall
    of the protocol. *)

(** What they ask of the bridge (uefi_bridge.c, not in src/): the size of a
    file, and the three calls that change what the engine holds. *)
Record Bridge := mkBridge {
  (** [NtfsGetFileSize(File)] *)
  NtfsGetFileSize : State -> addr -> Z;
  (** [NtfsSetFileInfo(File, Info, ReadOnly)] *)
  NtfsSetFileInfo : State -> addr -> EFI_FILE_INFO -> bool -> EFI_STATUS * State;
  (** [NtfsRenameVolume(Volume, Label, Len)] *)
  NtfsRenameVolume : State -> wstring -> Z -> EFI_STATUS * State;
  (** [NtfsFlushFile(File)] *)
  NtfsFlushFile : State -> addr -> EFI_STATUS * State
}.

(** [(UINT64)x] and [(INT64)x]. *)
Definition to_UINT64 (x : Z) : Z := x mod UINT64_MODULUS.
Definition to_INT64 (x : Z) : Z := (x + 2 ^ 63) mod UINT64_MODULUS - 2 ^ 63.

(** [StrSize] of the UEFI library: the bytes of a string with its NUL. *)
Definition StrSize (s : wstring) : Z := (Z.of_nat (length s) + 1) * sizeof_CHAR16.

(** [EFI_FILE_VALID_ATTR] of the UEFI specification. *)
Definition EFI_FILE_VALID_ATTR : Z := 0x37.

Definition SEEK_TO_END : Z := 0xFFFFFFFFFFFFFFFF.

(** The token of the [Ex] variants. *)
Record EFI_FILE_IO_TOKEN := mkToken {
  Token_Event : Z;
  Token_Status : EFI_STATUS;
  Token_BufferSize : Z;
  Token_Buffer : Buffer
}.

Section DriverRest.

Variable E : Engine.
Variable B : Bridge.

(** *** FileSetPosition (uefi_file.c, lines 437-473) *)

Definition FileSetPosition (st : State) (This : EFI_FILE_HANDLE) (Position : Z)
  : option (EFI_STATUS * State) :=
  let a := BASE_FILE This in
  File ← files st !! a;
  if is_null (NtfsInode File) then Some (EFI_DEVICE_ERROR, st)
  else if IsDir File then
    (* Per specs: "The only position that may be set is zero" *)
    if negb (Position =? 0) then Some (EFI_UNSUPPORTED, st)
    else Some (EFI_SUCCESS, store_file a (set_DirPos 0 File) st)
  else
    let FileSize_ := to_UINT64 (NtfsGetFileSize B st a) in
    let Position := if Position =? SEEK_TO_END then FileSize_ else Position in
    if FileSize_ <? Position then Some (EFI_UNSUPPORTED, st)
    else Some (EFI_SUCCESS, store_file a (set_Offset (to_INT64 Position) File) st).

(** *** FileGetPosition (uefi_file.c, lines 482-498)

    The second component is what is stored through [Position], [None] when
    nothing is. *)

Definition FileGetPosition (st : State) (This : EFI_FILE_HANDLE)
  : option (EFI_STATUS * option Z) :=
  let a := BASE_FILE This in
  File ← files st !! a;
  if is_null (NtfsInode File) then Some (EFI_DEVICE_ERROR, None)
  (* Per UEFI specs *)
  else if IsDir File then Some (EFI_UNSUPPORTED, None)
  else Some (EFI_SUCCESS, Some (to_UINT64 (Offset File))).

(** *** FileSetInfo (uefi_file.c, lines 634-684)

    The buffer is read as the structure of the type asked for; [None] when
    it holds a value of another kind. *)

Definition FileSetInfo (st : State) (This : EFI_FILE_HANDLE) (Type_ : EFI_GUID)
    (Len : Z) (Data : Buffer) : option (EFI_STATUS * State) :=
  let a := BASE_FILE This in
  File ← files st !! a;
  if NtfsIsVolumeReadOnly E (NtfsVolume (fs st)) then Some (EFI_WRITE_PROTECTED, st)
  else if is_null (NtfsInode File) then Some (EFI_DEVICE_ERROR, st)
  else if same_guid Type_ gEfiFileInfoGuid then
    if Len <? SIZE_OF_EFI_FILE_INFO + sizeof_CHAR16 then Some (EFI_BAD_BUFFER_SIZE, st)
    else match Data with
         | BufFileInfo Info_ =>
             if Len - SIZE_OF_EFI_FILE_INFO <? StrSize (FileName Info_)
             then Some (EFI_BAD_BUFFER_SIZE, st)
             else if negb (Z.land (Attribute Info_) (Z.lnot EFI_FILE_VALID_ATTR) =? 0)
             then Some (EFI_INVALID_PARAMETER, st)
             else Some (NtfsSetFileInfo B st a Info_ (RO_ACCESS This))
         | _ => None
         end
  else if same_guid Type_ gEfiFileSystemInfoGuid then
    if negb (IsRoot File) then Some (EFI_ACCESS_DENIED, st)
    else if Len <? SIZE_OF_EFI_FILE_SYSTEM_INFO + sizeof_CHAR16
    then Some (EFI_BAD_BUFFER_SIZE, st)
    else match Data with
         | BufFileSystemInfo FSInfo =>
             if Len - SIZE_OF_EFI_FILE_SYSTEM_INFO <? StrSize (VolumeLabel FSInfo)
             then Some (EFI_BAD_BUFFER_SIZE, st)
             else Some (NtfsRenameVolume B st (VolumeLabel FSInfo)
                          ((Len - SIZE_OF_EFI_FILE_SYSTEM_INFO) / sizeof_CHAR16))
         | _ => None
         end
  else if same_guid Type_ gEfiFileSystemVolumeLabelInfoIdGuid then
    if negb (IsRoot File) then Some (EFI_ACCESS_DENIED, st)
    else if Len <? sizeof_CHAR16 then Some (EFI_BAD_BUFFER_SIZE, st)
    else match Data with
         | BufVolumeLabel l =>
             if Len <? StrSize l then Some (EFI_BAD_BUFFER_SIZE, st)
             else Some (NtfsRenameVolume B st l (Len / sizeof_CHAR16))
         | _ => None
         end
  else Some (EFI_UNSUPPORTED, st).

(** *** FileFlush (uefi_file.c, lines 695-712) *)

Definition FileFlush (st : State) (This : EFI_FILE_HANDLE) : option (EFI_STATUS * State) :=
  let a := BASE_FILE This in
  File ← files st !! a;
  if is_null (NtfsInode File) then Some (EFI_DEVICE_ERROR, st)
  else if RO_ACCESS This then Some (EFI_ACCESS_DENIED, st)
  else if NtfsIsVolumeReadOnly E (NtfsVolume (fs st)) then Some (EFI_SUCCESS, st)
  else Some (NtfsFlushFile B st a).

(** *** The Ex versions (uefi_file.c, lines 199-205, 384-389, 423-428, 714-719) *)

Definition FileOpenEx (st : State) (This : EFI_FILE_HANDLE) (Name : wstring)
    (Mode Attributes : Z) (Token : EFI_FILE_IO_TOKEN)
  : option (EFI_STATUS * option EFI_FILE_HANDLE * State) :=
  FileOpen E st This Name Mode Attributes.

Definition FileReadEx (st : State) (This : EFI_FILE_HANDLE) (Token : EFI_FILE_IO_TOKEN)
  : option (EFI_STATUS * EFI_FILE_IO_TOKEN * State) :=
  '(Status, Len, Data, st') ← FileRead E st This (Token_BufferSize Token) (Token_Buffer Token);
  Some (Status, mkToken (Token_Event Token) (Token_Status Token) Len Data, st').

Definition FileWriteEx (st : State) (This : EFI_FILE_HANDLE) (Token : EFI_FILE_IO_TOKEN)
  : option (EFI_STATUS * EFI_FILE_IO_TOKEN * State) :=
  '(Status, Len, st') ← FileWrite E st This (Token_BufferSize Token) (Token_Buffer Token);
  Some (Status, mkToken (Token_Event Token) (Token_Status Token) Len (Token_Buffer Token), st').

Definition FileFlushEx (st : State) (This : EFI_FILE_HANDLE) (Token : EFI_FILE_IO_TOKEN)
  : option (EFI_STATUS * State) :=
  FileFlush st This.

(** *** FSUninstall (uefi_file.c, lines 847-860)

    The volume after the call; the protocol interface is then removed from
    the controller handle. *)

Definition FSUninstall (st : State) : State :=
  if 0 <? TotalRefCount (fs st) then NtfsUnmountVolume st else st.

End DriverRest.

(** *** FSInstall (uefi_file.c, lines 808-844) *)

(** What FSInstall asks of the firmware: the pool, the block device of the
    volume and the boot service that installs a protocol. *)
Record Firmware := mkFirmware {
  (** does the allocation of this many bytes fail *)
  AllocateZeroPool_fails : Z -> bool;
  (** [Media->MediaId] *)
  MediaId : Z;
  (** [ReadBlocks(This, MediaId, Lba, BufferSize, Buffer)]: the status and
      the bytes read *)
  ReadBlocks : Z -> Z -> Z -> EFI_STATUS * list Z;
  (** [gBS->InstallMultipleProtocolInterfaces] on the file system protocol *)
  InstallMultipleProtocolInterfaces : EFI_STATUS
}.

(** ['N', 'T', 'F', 'S', ' ', ' ', ' ', ' '] *)
Definition NtfsMagic : list Z := [78; 84; 70; 83; 32; 32; 32; 32].

(** The zeroed pool of [Size] bytes after the bytes read were stored. *)
Definition block_buffer (Size : Z) (bytes : list Z) : list Z :=
  take (Z.to_nat Size) (bytes ++ replicate (Z.to_nat Size) 0).

(** The status, and whether the protocol interface was installed (the list
    head [FsListHead] is initialised in the same case).  [None] when the
    block is too short to hold the bytes compared. *)
Definition FSInstall (F : Firmware) (This : EFI_FS) : option (EFI_STATUS * bool) :=
  let Size := BlockSize (BlockIo This) in
  if AllocateZeroPool_fails F Size then Some (EFI_OUT_OF_RESOURCES, false)
  else
    let '(Status, bytes) := ReadBlocks F (MediaId F) 0 Size in
    let Buffer_ := block_buffer Size bytes in
    Status ← (if EFI_ERROR Status then Some Status
              else if Size <? 3 + Z.of_nat (length NtfsMagic) then None
              else Some (if bool_decide (take (length NtfsMagic) (drop 3 Buffer_) = NtfsMagic)
                         then EFI_SUCCESS else EFI_UNSUPPORTED));
    if EFI_ERROR Status then Some (Status, false)
    else
      (* Install the simple file system protocol. *)
      let Status := InstallMultipleProtocolInterfaces F in
      if EFI_ERROR Status then Some (Status, false)
      else Some (EFI_SUCCESS, true).

(** * Vocabulary of the further statements *)

(** A name with its secondary separators rewritten. *)
Definition canonical_delimiters (Name : wstring) : wstring :=
  (λ c, if c =? DOS_PATH_CHAR then PATH_CHAR else c) <$> Name.

(** An object with its two positions forgotten, and two memories that
    differ at most in the positions of their objects and in the out-of-band
    error channel. *)
Definition forget_positions (f : EFI_NTFS_FILE) : EFI_NTFS_FILE :=
  set_DirPos 0 (set_Offset 0 f).

Definition same_but_positions (st st' : State) : Prop :=
  fs st' = fs st /\
  forall b, forget_positions <$> files st' !! b = forget_positions <$> files st !! b.

(** Instances to run the rest of the driver on. *)
Module ReferenceRest.

Definition bridge (size : Z) : Bridge :=
  {| NtfsGetFileSize := fun _ _ => size;
     NtfsSetFileInfo := fun st _ _ _ => (EFI_SUCCESS, st);
     NtfsRenameVolume := fun st _ _ => (EFI_SUCCESS, st);
     NtfsFlushFile := fun st _ => (EFI_SUCCESS, st) |}.

(** The first bytes of an NTFS boot sector and of a FAT one. *)
Definition ntfs_boot : list Z := [235; 82; 144; 78; 84; 70; 83; 32; 32; 32; 32; 0; 2; 8].
Definition fat_boot : list Z := [235; 60; 144; 77; 83; 68; 79; 83; 53; 46; 48; 0; 2; 8].

Definition firmware (first_block : list Z) : Firmware :=
  {| AllocateZeroPool_fails := fun _ => false;
     MediaId := 0;
     ReadBlocks := fun _ _ _ => (EFI_SUCCESS, first_block);
     InstallMultipleProtocolInterfaces := EFI_SUCCESS |}.

(** A discovered volume with no label and no handle open. *)
Definition volume : EFI_FS := mkFS (mkMedia 512 999) None None None 0.

(** The root and the directory "dir" open, one reference each. *)
Definition dir_d : EFI_NTFS_FILE :=
  mkFile true false 0 0 (Some [PATH_CHAR; 100; 105; 114]) 1 1 (Some 65).
Definition h_dir : EFI_FILE_HANDLE := mkHandle 3%positive EfiFileRW.
Definition st_two_dirs : State :=
  mkState (mkFS (mkMedia 512 999) None (Some 1) (Some Reference.L_DATA) 2)
    (<[1%positive := Reference.root_file]> (<[3%positive := dir_d]> ∅)) 0.

(** The root open once and "a" open twice. *)
Definition st_a_twice : State :=
  mkState (mkFS (mkMedia 512 999) None (Some 1) (Some Reference.L_DATA) 3)
    (<[1%positive := Reference.root_file]>
       (<[2%positive := set_RefCount 2 Reference.file_a]> ∅)) 0.

(** "a" open with its engine node gone. *)
Definition st_a_gone : State :=
  mkState (mkFS (mkMedia 512 999) None (Some 1) (Some Reference.L_DATA) 1)
    (<[2%positive := set_NtfsInode None Reference.file_a]> ∅) 0.

(** The root with its enumeration at the entry ".", the second of the
    listing. *)
Definition st_root_at_dot : State :=
  mkState (mkFS (mkMedia 512 999) None (Some 1) (Some Reference.L_DATA) 1)
    (<[1%positive := set_DirPos 1 Reference.root_file]> ∅) 0.

(** A volume whose second block interface reports no block size. *)
Definition st_block_io2 : State :=
  mkState (mkFS (mkMedia 512 999) (Some (mkMedia 0 99)) (Some 1) (Some Reference.L_DATA) 2)
    (<[1%positive := Reference.root_file]> (<[2%positive := Reference.file_a]> ∅)) 0.

(** The writable engine with no pool left for a file object, the other
    allocations succeeding. *)
Definition no_file_object : Engine :=
  let W := Reference.writable in
  {| NtfsIsVolumeReadOnly := NtfsIsVolumeReadOnly W;
     pool_exhausted := fun _ => true;
     AllocateZeroPool_NULL := AllocateZeroPool_NULL W;
     ntfs_mount := ntfs_mount W;
     PATH_MAX := PATH_MAX W;
     CleanPath := CleanPath W;
     NtfsOpenFile := NtfsOpenFile W;
     NtfsCreateFile := NtfsCreateFile W;
     ntfs_delete := ntfs_delete W;
     ntfs_read := ntfs_read W;
     ntfs_write := ntfs_write W;
     NtfsGetFileInfo := NtfsGetFileInfo W;
     NtfsGetVolumeFreeSpace := NtfsGetVolumeFreeSpace W;
     GetInodeNumber := GetInodeNumber W;
     ntfs_dir_entries := ntfs_dir_entries W |}.

(** A file information naming "a", and a token for a buffer of 12 bytes. *)
Definition info_a (attribute : Z) : EFI_FILE_INFO :=
  mkInfo 84 0 0 0 0 0 attribute Reference.L_a.
Definition token : EFI_FILE_IO_TOKEN := mkToken 7 0 12 (BufBytes []).

End ReferenceRest.

(** * Properties *)

(** ** Status codes *)

Lemma EFI_ERROR_ENCODE_ERROR code :
  0 <= code < MAX_BIT -> EFI_ERROR (ENCODE_ERROR code) = true.
Proof.
  intros H. unfold EFI_ERROR, ENCODE_ERROR, MAX_BIT.
  rewrite Z.lor_spec, Z.pow2_bits_true by lia. reflexivity.
Qed.

(** ** FileWrite *)

Section WriteProperties.

Variable E : Engine.

(** C5. Write fails with DeviceError when the underlying object is gone,
    with AccessDenied through a read-only handle value, whatever other
    values of the same object are open, with WriteProtected when the
    volume is read-only and with Unsupported on a directory, in this order
    and leaving the memory as it is; otherwise the result is that of the
    engine write, which advances the offset by the count written. *)
Theorem FileWrite_guards st This Len Data File :
  files st !! BASE_FILE This = Some File ->
  (NtfsInode File = None ->
     FileWrite E st This Len Data = Some (EFI_DEVICE_ERROR, Len, st)) /\
  (NtfsInode File <> None -> handle_member This = EfiFileRO ->
     FileWrite E st This Len Data = Some (EFI_ACCESS_DENIED, Len, st)) /\
  (NtfsInode File <> None -> handle_member This = EfiFileRW ->
   NtfsIsVolumeReadOnly E (NtfsVolume (fs st)) = true ->
     FileWrite E st This Len Data = Some (EFI_WRITE_PROTECTED, Len, st)) /\
  (NtfsInode File <> None -> handle_member This = EfiFileRW ->
   NtfsIsVolumeReadOnly E (NtfsVolume (fs st)) = false -> IsDir File = true ->
     FileWrite E st This Len Data = Some (EFI_UNSUPPORTED, Len, st)) /\
  (NtfsInode File <> None -> handle_member This = EfiFileRW ->
   NtfsIsVolumeReadOnly E (NtfsVolume (fs st)) = false -> IsDir File = false ->
     FileWrite E st This Len Data = Some (NtfsWriteFile E st (BASE_FILE This) File Data Len) /\
     forall s n st',
       NtfsWriteFile E st (BASE_FILE This) File Data Len = (s, n, st') ->
       EFI_ERROR s = false ->
       (s, n) = ntfs_write E st (BASE_FILE This) Data Len /\
       files st' !! BASE_FILE This = Some (set_Offset (Offset File + n) File)).
Proof.
  intros Hf. unfold FileWrite. rewrite Hf. cbn [mbind option_bind].
  unfold RO_ACCESS.
  refine (conj _ (conj _ (conj _ (conj _ _)))).
  - intros ->. reflexivity.
  - intros Hi ->. destruct (NtfsInode File); [reflexivity | congruence].
  - intros Hi -> ->. destruct (NtfsInode File); [reflexivity | congruence].
  - intros Hi -> -> ->. destruct (NtfsInode File); [reflexivity | congruence].
  - intros Hi -> -> ->. split.
    + destruct (NtfsInode File); [reflexivity | congruence].
    + intros s n st' H3 Hs. unfold NtfsWriteFile in H3.
      destruct (ntfs_write E st (BASE_FILE This) Data Len) as [s0 n0].
      destruct (EFI_ERROR s0) eqn:He; inversion H3; subst; [congruence |].
      split; [reflexivity |]. cbn. apply lookup_insert_eq.
Qed.

End WriteProperties.


(** ** FileOpen *)

Lemma valid_open_mode_cases Mode :
  valid_open_mode Mode = true <->
  Mode = EFI_FILE_MODE_READ \/ Mode = MODE_READ_WRITE \/ Mode = MODE_CREATE_READ_WRITE.
Proof.
  unfold valid_open_mode, MODE_READ_WRITE, MODE_CREATE_READ_WRITE.
  rewrite !orb_true_iff, !Z.eqb_eq. tauto.
Qed.

Lemma StrCmp_refl s : StrCmp s s = 0.
Proof. induction s as [|c s IH]; cbn; [reflexivity |]. rewrite Z.eqb_refl. exact IH. Qed.

Section OpenProperties.

Variable E : Engine.

(** The first guards of FileOpen, for a name that is empty or ".": either an
    error that leaves the memory as it is, or the reopen. *)
Lemma FileOpen_self_cases st This Name Mode Attributes File :
  files st !! BASE_FILE This = Some File ->
  Name = [] \/ Name = L_dot ->
  FileOpen E st This Name Mode Attributes =
    if NtfsIsVolumeReadOnly E (NtfsVolume (fs st)) && negb (Mode =? EFI_FILE_MODE_READ)
    then Some (EFI_WRITE_PROTECTED, None, st)
    else if negb (IsDir File) then Some (EFI_NOT_FOUND, None, st)
    else if negb (valid_open_mode Mode) then Some (EFI_INVALID_PARAMETER, None, st)
    else if has_flag Mode EFI_FILE_MODE_CREATE then Some (EFI_ACCESS_DENIED, None, st)
    else Some (EFI_SUCCESS, Some (handle_for_mode (BASE_FILE This) Mode),
               mkState (set_TotalRefCount (TotalRefCount (fs st) + 1) (fs st))
                 (<[BASE_FILE This := set_RefCount (RefCount File + 1) File]> (files st))
                 (errno st)).
Proof.
  intros Hf HN. unfold FileOpen. rewrite Hf. cbn [mbind option_bind].
  destruct (NtfsIsVolumeReadOnly E (NtfsVolume (fs st)) && negb (Mode =? EFI_FILE_MODE_READ));
    [reflexivity |].
  destruct (IsDir File); cbn [negb];
    [| destruct HN as [-> | ->]; cbn; destruct (IsRoot File); reflexivity].
  destruct HN as [-> | ->]; cbn;
    destruct (valid_open_mode Mode); cbn; try reflexivity;
    destruct (has_flag Mode EFI_FILE_MODE_CREATE); reflexivity.
Qed.

Lemma FileOpen_self_success st This Name Mode Attributes File :
  files st !! BASE_FILE This = Some File ->
  IsDir File = true ->
  Name = [] \/ Name = L_dot ->
  Mode = EFI_FILE_MODE_READ \/
    (Mode = MODE_READ_WRITE /\ NtfsIsVolumeReadOnly E (NtfsVolume (fs st)) = false) ->
  FileOpen E st This Name Mode Attributes =
    Some (EFI_SUCCESS, Some (handle_for_mode (BASE_FILE This) Mode),
          mkState (set_TotalRefCount (TotalRefCount (fs st) + 1) (fs st))
            (<[BASE_FILE This := set_RefCount (RefCount File + 1) File]> (files st))
            (errno st)).
Proof.
  intros Hf Hd HN HM. rewrite (FileOpen_self_cases _ _ _ _ _ _ Hf HN), Hd. cbn [negb].
  destruct HM as [-> | [-> Hro]].
  - rewrite andb_false_r. reflexivity.
  - rewrite Hro. reflexivity.
Qed.

Lemma FileOpen_self_failure st This Name Mode Attributes File :
  files st !! BASE_FILE This = Some File ->
  IsDir File = true ->
  Name = [] \/ Name = L_dot ->
  ~ (Mode = EFI_FILE_MODE_READ \/
     (Mode = MODE_READ_WRITE /\ NtfsIsVolumeReadOnly E (NtfsVolume (fs st)) = false)) ->
  exists Status, Status <> EFI_SUCCESS /\
    FileOpen E st This Name Mode Attributes = Some (Status, None, st).
Proof.
  intros Hf Hd HN HM. rewrite (FileOpen_self_cases _ _ _ _ _ _ Hf HN), Hd. cbn [negb].
  assert (Hr : (Mode =? EFI_FILE_MODE_READ) = false) by (apply Z.eqb_neq; tauto).
  rewrite Hr. cbn [negb]. rewrite andb_true_r.
  destruct (NtfsIsVolumeReadOnly E (NtfsVolume (fs st))) eqn:Hro.
  - exists EFI_WRITE_PROTECTED. split; [discriminate | reflexivity].
  - destruct (valid_open_mode Mode) eqn:Hv; cbn [negb].
    + apply valid_open_mode_cases in Hv. destruct Hv as [Hv | [Hv | Hv]]; [tauto | tauto |].
      subst Mode. exists EFI_ACCESS_DENIED. split; [discriminate | reflexivity].
    + exists EFI_INVALID_PARAMETER. split; [discriminate | reflexivity].
Qed.

(** C4, amended.  On a directory handle, Open with the empty name or "."
    allocates no new object and no new path, whatever the mode: the objects
    of the memory and their paths are the same afterwards.  It succeeds
    exactly for the mode Read, and for Read/Write on a writable volume, and
    then the reference count of the object and the total count of the
    volume are each one higher, and the handle returned is a value of the
    same object: the read-write value if the mode includes write access,
    else the read-only value.  For every other mode it fails, returns no
    handle and leaves the memory as it is. *)
Theorem FileOpen_reopen_self st This Name Mode Attributes File :
  files st !! BASE_FILE This = Some File ->
  IsDir File = true ->
  Name = [] \/ Name = L_dot ->
  exists Status New st',
    FileOpen E st This Name Mode Attributes = Some (Status, New, st') /\
    dom (files st') = dom (files st) /\
    (forall b, b <> BASE_FILE This -> files st' !! b = files st !! b) /\
    (exists File', files st' !! BASE_FILE This = Some File' /\
                   Path File' = Path File /\ BaseName File' = BaseName File) /\
    (Status = EFI_SUCCESS <->
       Mode = EFI_FILE_MODE_READ \/
       (Mode = MODE_READ_WRITE /\ NtfsIsVolumeReadOnly E (NtfsVolume (fs st)) = false)) /\
    (Status = EFI_SUCCESS ->
       files st' !! BASE_FILE This = Some (set_RefCount (RefCount File + 1) File) /\
       RefCount <$> files st' !! BASE_FILE This = Some (RefCount File + 1) /\
       TotalRefCount (fs st') = TotalRefCount (fs st) + 1 /\
       mounted st' = mounted st /\
       New = Some (mkHandle (BASE_FILE This)
                     (if has_flag Mode EFI_FILE_MODE_WRITE then EfiFileRW else EfiFileRO))) /\
    (Status <> EFI_SUCCESS -> New = None /\ st' = st).
Proof.
  intros Hf Hd HN.
  destruct (decide (Mode = EFI_FILE_MODE_READ \/
                    (Mode = MODE_READ_WRITE /\
                     NtfsIsVolumeReadOnly E (NtfsVolume (fs st)) = false))) as [HM | HM].
  - rewrite (FileOpen_self_success _ _ _ _ Attributes _ Hf Hd HN HM).
    eexists _, _, _. split; [reflexivity |]. cbn [files fs].
    split.
    { apply set_eq. intros x. rewrite !elem_of_dom.
      destruct (decide (x = BASE_FILE This)) as [-> | Hx].
      - rewrite lookup_insert_eq, Hf. split; eauto.
      - rewrite lookup_insert_ne by congruence. reflexivity. }
    split. { intros b Hb. rewrite lookup_insert_ne by congruence. reflexivity. }
    split. { eexists. split; [apply lookup_insert_eq | split; reflexivity]. }
    split. { tauto. }
    split.
    { intros _. split; [apply lookup_insert_eq |].
      split; [rewrite lookup_insert_eq; reflexivity |].
      split; [reflexivity |]. split; reflexivity. }
    intros X. exfalso. apply X. reflexivity.
  - destruct (FileOpen_self_failure _ _ _ _ Attributes _ Hf Hd HN HM) as (s & Hs & ->).
    eexists _, _, _. split; [reflexivity |].
    split; [reflexivity |]. split; [reflexivity |].
    split. { exists File. auto. }
    split. { split; [intros X; congruence | intros X; tauto]. }
    split. { intros X. congruence. }
    intros _. split; reflexivity.
Qed.

End OpenProperties.

(** The mode guard of FileOpen comes after the guards on the volume, the
    name and the parent. *)
Lemma FileOpen_invalid_mode_cases (E : Engine) st This Name Mode Attributes File :
  files st !! BASE_FILE This = Some File ->
  valid_open_mode Mode = false ->
  FileOpen E st This Name Mode Attributes =
    Some (if NtfsIsVolumeReadOnly E (NtfsVolume (fs st)) then EFI_WRITE_PROTECTED
          else if (StrCmp Name L_dotdot =? 0) && IsRoot File then EFI_NOT_FOUND
          else if negb (IsDir File) then EFI_NOT_FOUND
          else EFI_INVALID_PARAMETER, None, st).
Proof.
  intros Hf Hv. unfold FileOpen. rewrite Hf. cbn [mbind option_bind].
  assert (Hr : (Mode =? EFI_FILE_MODE_READ) = false).
  { apply Z.eqb_neq. intros ->. vm_compute in Hv. discriminate. }
  rewrite Hr, Hv. cbn [negb]. rewrite andb_true_r.
  destruct (NtfsIsVolumeReadOnly E (NtfsVolume (fs st))); [reflexivity |].
  destruct ((StrCmp Name L_dotdot =? 0) && IsRoot File); [reflexivity |].
  destruct (IsDir File); reflexivity.
Qed.

(** The states of the reference runs are reached through the interface. *)
Lemma open_a_reaches_st_open :
  Reference.open_a Reference.read_only
    = Some (Reference.h_root, Reference.h_a, Reference.st_open) /\
  Reference.open_a Reference.writable
    = Some (Reference.h_root, Reference.h_a, Reference.st_open) /\
  Reference.open_a Reference.failing_delete
    = Some (Reference.h_root, Reference.h_a, Reference.st_open).
Proof. repeat split; vm_compute; reflexivity. Qed.

Lemma open_a_close_root_reaches_st_a :
  Reference.open_a_close_root Reference.read_only
    = Some (Reference.h_a, Reference.st_a) /\
  Reference.open_a_close_root Reference.writable
    = Some (Reference.h_a, Reference.st_a) /\
  Reference.open_a_close_root Reference.failing_delete
    = Some (Reference.h_a, Reference.st_a).
Proof. repeat split; vm_compute; reflexivity. Qed.

Lemma open_volume_reaches_st_root :
  FileOpenVolume Reference.writable Reference.st_init
    = Some (EFI_SUCCESS, Some Reference.h_root, Reference.st_root) /\
  FileOpenVolume Reference.failing_info Reference.st_init
    = Some (EFI_SUCCESS, Some Reference.h_root, Reference.st_root) /\
  Reference.read_root_to_end Reference.writable = Some Reference.st_root_end.
Proof. repeat split; vm_compute; reflexivity. Qed.

Lemma open_root_twice_reaches_st_root_twice :
  Reference.open_root_twice Reference.writable
    = Some (Reference.h_root, Reference.h_root_ro, Reference.st_root_twice).
Proof. vm_compute. reflexivity. Qed.

(** C6, as stated, fails: with a mode that is none of the three valid
    combinations (Write alone), Open on the root of a read-only volume
    returns WriteProtected, Open on a parent that is a regular file returns
    NotFound, and Open of ".." on the root returns NotFound. *)
Lemma FileOpen_invalid_mode_other_status :
  valid_open_mode EFI_FILE_MODE_WRITE = false /\
  FileOpen Reference.read_only Reference.st_open Reference.h_root Reference.L_a
      EFI_FILE_MODE_WRITE 0
    = Some (EFI_WRITE_PROTECTED, None, Reference.st_open) /\
  FileOpen Reference.writable Reference.st_open Reference.h_a Reference.L_a
      EFI_FILE_MODE_WRITE 0
    = Some (EFI_NOT_FOUND, None, Reference.st_open) /\
  FileOpen Reference.writable Reference.st_open Reference.h_root L_dotdot
      EFI_FILE_MODE_WRITE 0
    = Some (EFI_NOT_FOUND, None, Reference.st_open) /\
  EFI_WRITE_PROTECTED <> EFI_INVALID_PARAMETER /\
  EFI_NOT_FOUND <> EFI_INVALID_PARAMETER.
Proof.
  split; [reflexivity |]. split; [vm_compute; reflexivity |].
  split; [vm_compute; reflexivity |]. split; [vm_compute; reflexivity |].
  split; discriminate.
Qed.

(** C6, amended.  For an Open call whose mode is none of Read, Read/Write
    and Create/Read/Write: on a read-only volume Open returns
    WriteProtected; else, for ".." on the root handle or a parent that is
    not a directory, NotFound; else InvalidParameter.  No handle is returned
    and the memory is left as it is. *)
Theorem FileOpen_invalid_mode (E : Engine) st This Name Mode Attributes File :
  files st !! BASE_FILE This = Some File ->
  Mode <> EFI_FILE_MODE_READ ->
  Mode <> MODE_READ_WRITE ->
  Mode <> MODE_CREATE_READ_WRITE ->
  (NtfsIsVolumeReadOnly E (NtfsVolume (fs st)) = true ->
     FileOpen E st This Name Mode Attributes = Some (EFI_WRITE_PROTECTED, None, st)) /\
  (NtfsIsVolumeReadOnly E (NtfsVolume (fs st)) = false ->
   (StrCmp Name L_dotdot = 0 /\ IsRoot File = true) \/ IsDir File = false ->
     FileOpen E st This Name Mode Attributes = Some (EFI_NOT_FOUND, None, st)) /\
  (NtfsIsVolumeReadOnly E (NtfsVolume (fs st)) = false ->
   (IsRoot File = true -> StrCmp Name L_dotdot <> 0) ->
   IsDir File = true ->
     FileOpen E st This Name Mode Attributes = Some (EFI_INVALID_PARAMETER, None, st)).
Proof.
  intros Hf H1 H2 H3.
  assert (Hv : valid_open_mode Mode = false).
  { destruct (valid_open_mode Mode) eqn:Hv; [| reflexivity].
    apply valid_open_mode_cases in Hv. tauto. }
  rewrite (FileOpen_invalid_mode_cases E _ _ _ _ _ _ Hf Hv).
  refine (conj _ (conj _ _)).
  - intros ->. reflexivity.
  - intros -> [[Hn Hr] | Hd].
    + rewrite Hn, Hr. reflexivity.
    + rewrite Hd. destruct ((StrCmp Name L_dotdot =? 0) && IsRoot File); reflexivity.
  - intros -> Hn ->.
    destruct (IsRoot File).
    + specialize (Hn eq_refl). apply Z.eqb_neq in Hn. rewrite Hn. reflexivity.
    + rewrite andb_false_r. reflexivity.
Qed.

(** On the reference engine: Open of "a" on the root of a writable volume
    with the mode Write alone. *)
Lemma FileOpen_invalid_mode_witness :
  files Reference.st_open !! BASE_FILE Reference.h_root = Some Reference.root_file /\
  FileOpen Reference.writable Reference.st_open Reference.h_root Reference.L_a
      EFI_FILE_MODE_WRITE 0
    = Some (EFI_INVALID_PARAMETER, None, Reference.st_open).
Proof.
  split; [reflexivity |].
  apply (FileOpen_invalid_mode Reference.writable Reference.st_open Reference.h_root
           Reference.L_a EFI_FILE_MODE_WRITE 0 Reference.root_file);
    try reflexivity; try discriminate.
Defined.

(** C4, as stated, fails: on the root directory, Open of "." with
    Create/Read/Write returns AccessDenied, and Open of the empty name with
    Read/Write on a read-only volume returns WriteProtected; neither
    returns a handle and both leave the counts as they are. *)
Lemma FileOpen_reopen_self_refused :
  files Reference.st_open !! BASE_FILE Reference.h_root = Some Reference.root_file /\
  IsDir Reference.root_file = true /\
  FileOpen Reference.writable Reference.st_open Reference.h_root L_dot
      MODE_CREATE_READ_WRITE 0
    = Some (EFI_ACCESS_DENIED, None, Reference.st_open) /\
  FileOpen Reference.read_only Reference.st_open Reference.h_root []
      MODE_READ_WRITE 0
    = Some (EFI_WRITE_PROTECTED, None, Reference.st_open).
Proof.
  split; [reflexivity |]. split; [reflexivity |].
  split; vm_compute; reflexivity.
Qed.

(** On the reference engine: Open of "." on the root, one reference and a
    total count of 2, for Read/Write. *)
Lemma FileOpen_reopen_self_witness :
  files Reference.st_open !! BASE_FILE Reference.h_root = Some Reference.root_file /\
  IsDir Reference.root_file = true /\
  exists st',
    FileOpen Reference.writable Reference.st_open Reference.h_root L_dot
      MODE_READ_WRITE 0
      = Some (EFI_SUCCESS, Some (mkHandle (BASE_FILE Reference.h_root) EfiFileRW), st') /\
    dom (files st') = dom (files Reference.st_open) /\
    RefCount <$> files st' !! BASE_FILE Reference.h_root = Some 2 /\
    TotalRefCount (fs st') = 3.
Proof.
  split; [reflexivity |]. split; [reflexivity |].
  destruct (FileOpen_reopen_self Reference.writable Reference.st_open Reference.h_root
              L_dot MODE_READ_WRITE 0 Reference.root_file eq_refl eq_refl
              (or_intror eq_refl))
    as (Status & New & st' & H1 & H2 & _ & _ & H5 & H6 & _).
  assert (Hs : Status = EFI_SUCCESS).
  { apply H5. right. split; reflexivity. }
  destruct (H6 Hs) as (_ & A & B & _ & D).
  exists st'. rewrite H1, Hs, D.
  split; [reflexivity |]. split; [exact H2 |]. split; [exact A | exact B].
Defined.

(** On the reference engine: Write on "a" through its read-only value and
    through its read-write value. *)
Lemma FileWrite_guards_witness :
  files Reference.st_open !! BASE_FILE Reference.h_a = Some Reference.file_a /\
  FileWrite Reference.writable Reference.st_open Reference.h_a 12 (BufBytes [])
    = Some (EFI_ACCESS_DENIED, 12, Reference.st_open) /\
  FileWrite Reference.writable Reference.st_open Reference.h_a_rw 12 (BufBytes [])
    = Some (NtfsWriteFile Reference.writable Reference.st_open
              (BASE_FILE Reference.h_a_rw) Reference.file_a (BufBytes []) 12).
Proof.
  split; [reflexivity |]. split.
  - apply (FileWrite_guards Reference.writable Reference.st_open Reference.h_a 12
             (BufBytes []) Reference.file_a eq_refl); [discriminate | reflexivity].
  - apply (FileWrite_guards Reference.writable Reference.st_open Reference.h_a_rw 12
             (BufBytes []) Reference.file_a eq_refl); [discriminate | reflexivity ..].
Defined.

(** ** The handle allocator: NtfsFreeFile and NtfsCloseFile *)

Lemma NtfsFreeFile_idempotent st File :
  NtfsFreeFile (NtfsFreeFile st File) File = NtfsFreeFile st File.
Proof.
  destruct File as [a |]; [| reflexivity]. unfold NtfsFreeFile.
  destruct (files st !! a) as [f |] eqn:Hf.
  - destruct (RefCount f =? 0) eqn:Hz.
    + cbn [files with_files]. rewrite lookup_delete_eq. reflexivity.
    + rewrite Hf, Hz. reflexivity.
  - rewrite Hf. reflexivity.
Qed.

Lemma NtfsFreeFile_referenced st a f :
  files st !! a = Some f -> RefCount f <> 0 -> NtfsFreeFile st (Some a) = st.
Proof.
  intros Hf Hr. unfold NtfsFreeFile. rewrite Hf.
  apply Z.eqb_neq in Hr. rewrite Hr. reflexivity.
Qed.

Lemma NtfsFreeFile_lookup st a b :
  files (NtfsFreeFile st (Some a)) !! b =
    if decide (a = b)
    then match files st !! a with
         | Some f => if RefCount f =? 0 then None else Some f
         | None => None
         end
    else files st !! b.
Proof.
  unfold NtfsFreeFile. destruct (files st !! a) as [f |] eqn:Hf.
  - destruct (RefCount f =? 0); cbn [files with_files].
    + rewrite lookup_delete. destruct (decide (a = b)); reflexivity.
    + destruct (decide (a = b)); congruence.
  - destruct (decide (a = b)); congruence.
Qed.

(** ** FileClose *)

Lemma files_unmount_if (c : bool) s :
  files (if c then NtfsUnmountVolume s else s) = files s.
Proof. destruct c; reflexivity. Qed.

Lemma fs_NtfsFreeFile s p : fs (NtfsFreeFile s p) = fs s.
Proof.
  destruct p as [x |]; [| reflexivity]. unfold NtfsFreeFile.
  destruct (files s !! x) as [f |]; [destruct (RefCount f =? 0) |]; reflexivity.
Qed.

(** What FileClose leaves for the object it closes, for the other objects
    and for the volume. *)
Lemma FileClose_effect st This File :
  files st !! BASE_FILE This = Some File ->
  exists st',
    FileClose st This = Some (EFI_SUCCESS, st') /\
    files st' !! BASE_FILE This =
      (if RefCount File - 1 =? 0 then None
       else if RefCount File - 1 <? 0
            then Some (set_NtfsInode None (set_RefCount (RefCount File - 1) File))
            else Some (set_RefCount (RefCount File - 1) File)) /\
    (forall b, b <> BASE_FILE This -> files st' !! b = files st !! b) /\
    TotalRefCount (fs st') = TotalRefCount (fs st) - 1 /\
    mounted st' = (if TotalRefCount (fs st) - 1 <=? 0 then false else mounted st).
Proof.
  intros Hf. unfold FileClose. rewrite Hf. cbn [mbind option_bind].
  eexists. split; [reflexivity |].
  set (a := BASE_FILE This).
  set (File1 := set_RefCount (RefCount File - 1) File).
  assert (HR : RefCount File1 = RefCount File - 1) by reflexivity.
  rewrite HR.
  set (st2 := if RefCount File - 1 <=? 0
              then NtfsFreeFile (NtfsCloseFile (store_file a File1 st) (Some a)) (Some a)
              else store_file a File1 st).
  assert (Hfs2 : fs st2 = fs st).
  { subst st2. destruct (RefCount File - 1 <=? 0); [rewrite fs_NtfsFreeFile |]; reflexivity. }
  assert (Hl2 : forall b, files st2 !! b =
            if decide (a = b)
            then (if RefCount File - 1 =? 0 then None
                  else if RefCount File - 1 <? 0
                       then Some (set_NtfsInode None File1) else Some File1)
            else files st !! b).
  { intros b. subst st2. destruct (RefCount File - 1 <=? 0) eqn:Hle.
    - rewrite NtfsFreeFile_lookup. cbn [NtfsCloseFile files with_files store_file].
      destruct (decide (a = b)) as [<- | Hab].
      + rewrite lookup_alter_eq, lookup_insert_eq. cbn [fmap option_fmap option_map].
        change (RefCount (set_NtfsInode None File1)) with (RefCount File - 1).
        destruct (RefCount File - 1 =? 0) eqn:Hz; [reflexivity |].
        assert (Hlt : (RefCount File - 1 <? 0) = true) by lia. rewrite Hlt. reflexivity.
      + rewrite lookup_alter_ne, lookup_insert_ne by congruence. reflexivity.
    - cbn [files with_files store_file].
      destruct (decide (a = b)) as [<- | Hab].
      + rewrite lookup_insert_eq.
        assert (Hz : (RefCount File - 1 =? 0) = false) by lia.
        assert (Hlt : (RefCount File - 1 <? 0) = false) by lia.
        rewrite Hz, Hlt. reflexivity.
      + rewrite lookup_insert_ne by congruence. reflexivity. }
  clearbody st2.
  refine (conj _ (conj _ (conj _ _))).
  - rewrite files_unmount_if. cbn [files with_fs]. rewrite Hl2.
    rewrite decide_True by reflexivity. reflexivity.
  - intros b Hb. rewrite files_unmount_if. cbn [files with_fs]. rewrite Hl2.
    rewrite decide_False by congruence. reflexivity.
  - cbn [fs with_fs TotalRefCount set_TotalRefCount]. rewrite Hfs2.
    destruct (TotalRefCount (fs st) - 1 <=? 0); reflexivity.
  - cbn [fs with_fs TotalRefCount set_TotalRefCount]. rewrite Hfs2.
    destruct (TotalRefCount (fs st) - 1 <=? 0); reflexivity.
Qed.

(** FileClose always succeeds and keeps the volume mounted exactly while
    handles remain open. *)
Lemma FileClose_mount_invariant st This st' Status :
  mount_invariant st ->
  FileClose st This = Some (Status, st') ->
  Status = EFI_SUCCESS /\ mount_invariant st'.
Proof.
  unfold mount_invariant. intros Hinv Hc.
  destruct (files st !! BASE_FILE This) as [File |] eqn:Hf.
  - destruct (FileClose_effect st This File Hf) as (st1 & H1 & _ & _ & Ht & Hm).
    rewrite H1 in Hc. inversion Hc; subst. split; [reflexivity |].
    rewrite Hm, Ht. destruct (TotalRefCount (fs st) - 1 <=? 0) eqn:Hle.
    + split; [discriminate | lia].
    + rewrite Hinv. lia.
  - unfold FileClose in Hc. rewrite Hf in Hc. discriminate.
Qed.

(** ** FileDelete *)

Section DeleteProperties.

Variable E : Engine.

(** The four ways out of FileDelete. *)
Lemma FileDelete_cases st This File :
  files st !! BASE_FILE This = Some File ->
  FileDelete E st This =
    if IsRoot File || is_null (NtfsInode File) then Some (EFI_ACCESS_DENIED, st)
    else if 0 <? RefCount File - 1
         then Some (EFI_WARN_DELETE_FAILURE, count_down st (BASE_FILE This) File)
    else if NtfsIsVolumeReadOnly E (NtfsVolume (fs st))
         then Some (EFI_WARN_DELETE_FAILURE, count_down st (BASE_FILE This) File)
    else
      let st4 := NtfsFreeFile (NtfsCloseFile (count_down st (BASE_FILE This) File)
                                 (Some (BASE_FILE This))) (Some (BASE_FILE This)) in
      Some (ntfs_delete E (count_down st (BASE_FILE This) File) (BASE_FILE This),
            if TotalRefCount (fs st) - 1 <=? 0 then NtfsUnmountVolume st4 else st4).
Proof.
  intros Hf. unfold FileDelete. rewrite Hf.
  cbn [mbind option_bind IsRoot RefCount set_RefCount].
  change (with_fs _ (store_file (BASE_FILE This) (set_RefCount (RefCount File - 1) File) st))
    with (count_down st (BASE_FILE This) File).
  destruct (IsRoot File) eqn:Hr; [reflexivity |].
  destruct (is_null (NtfsInode File)); [reflexivity |].
  cbn [orb].
  destruct (0 <? RefCount File - 1); [reflexivity |].
  change (NtfsVolume (fs (count_down st (BASE_FILE This) File))) with (NtfsVolume (fs st)).
  destruct (NtfsIsVolumeReadOnly E (NtfsVolume (fs st))); [reflexivity |].
  unfold NtfsDeleteFile. rewrite fs_NtfsFreeFile. reflexivity.
Qed.

Lemma count_down_lookup st a File b :
  files (count_down st a File) !! b =
    if decide (a = b) then Some (set_RefCount (RefCount File - 1) File) else files st !! b.
Proof.
  unfold count_down. cbn [files with_fs store_file with_files].
  destruct (decide (a = b)) as [<- | Hab].
  - apply lookup_insert_eq.
  - apply lookup_insert_ne. exact Hab.
Qed.

(** The last reference to a non-root object on a writable volume: the
    handle object is destroyed, the other objects stay, and the volume is
    unmounted when no handle remains. *)
Lemma FileDelete_last_reference st This File :
  files st !! BASE_FILE This = Some File ->
  IsRoot File = false -> NtfsInode File <> None -> RefCount File = 1 ->
  NtfsIsVolumeReadOnly E (NtfsVolume (fs st)) = false ->
  exists st',
    FileDelete E st This
      = Some (ntfs_delete E (count_down st (BASE_FILE This) File) (BASE_FILE This), st') /\
    files st' !! BASE_FILE This = None /\
    (forall b, b <> BASE_FILE This -> files st' !! b = files st !! b) /\
    TotalRefCount (fs st') = TotalRefCount (fs st) - 1 /\
    mounted st' = (if TotalRefCount (fs st) - 1 <=? 0 then false else mounted st).
Proof.
  intros Hf Hr Hi Hc Hro. rewrite (FileDelete_cases _ _ _ Hf).
  rewrite Hr, Hro. destruct (NtfsInode File) as [i |] eqn:HI; [| congruence].
  assert (Hlt : (0 <? RefCount File - 1) = false) by lia.
  assert (Hz : (RefCount File - 1 =? 0) = true) by lia.
  rewrite Hlt. cbn [orb is_null]. cbv zeta. eexists. split; [reflexivity |].
  refine (conj _ (conj _ (conj _ _))).
  - rewrite files_unmount_if, NtfsFreeFile_lookup, decide_True by reflexivity.
    cbn [NtfsCloseFile files with_files].
    rewrite lookup_alter_eq, count_down_lookup, decide_True by reflexivity.
    cbn [fmap option_fmap option_map].
    change (RefCount (set_NtfsInode None (set_RefCount (RefCount File - 1) File)))
      with (RefCount File - 1).
    rewrite Hz. reflexivity.
  - intros b Hb. rewrite files_unmount_if, NtfsFreeFile_lookup, decide_False by congruence.
    cbn [NtfsCloseFile files with_files].
    rewrite lookup_alter_ne, count_down_lookup, decide_False by congruence. reflexivity.
  - destruct (TotalRefCount (fs st) - 1 <=? 0); cbn [NtfsUnmountVolume with_fs fs];
      rewrite ?fs_NtfsFreeFile; reflexivity.
  - unfold mounted.
    destruct (TotalRefCount (fs st) - 1 <=? 0); cbn [NtfsUnmountVolume with_fs fs];
      rewrite ?fs_NtfsFreeFile; reflexivity.
Qed.

(** C3, amended.  Delete has a three-valued result.  On the root handle it
    always returns AccessDenied, and changes nothing.  On a non-root handle
    whose underlying object exists: with reference count 2 it returns
    WarnDeleteFailure and leaves the object present with reference count 1;
    as the last reference on a writable volume it destroys the handle
    object and returns the status of the engine's delete, which is success
    when the engine's delete succeeds. *)
Theorem FileDelete_three_valued st This File :
  files st !! BASE_FILE This = Some File ->
  (IsRoot File = true -> FileDelete E st This = Some (EFI_ACCESS_DENIED, st)) /\
  (IsRoot File = false -> NtfsInode File <> None -> RefCount File = 2 ->
     FileDelete E st This
       = Some (EFI_WARN_DELETE_FAILURE, count_down st (BASE_FILE This) File) /\
     files (count_down st (BASE_FILE This) File) !! BASE_FILE This
       = Some (set_RefCount 1 File)) /\
  (IsRoot File = false -> NtfsInode File <> None -> RefCount File = 1 ->
   NtfsIsVolumeReadOnly E (NtfsVolume (fs st)) = false ->
     exists st',
       FileDelete E st This
         = Some (ntfs_delete E (count_down st (BASE_FILE This) File) (BASE_FILE This), st') /\
       files st' !! BASE_FILE This = None /\
       (ntfs_delete E (count_down st (BASE_FILE This) File) (BASE_FILE This) = EFI_SUCCESS ->
          FileDelete E st This = Some (EFI_SUCCESS, st'))).
Proof.
  intros Hf. refine (conj _ (conj _ _)).
  - intros Hr. rewrite (FileDelete_cases _ _ _ Hf), Hr. reflexivity.
  - intros Hr Hi Hc. rewrite (FileDelete_cases _ _ _ Hf), Hr, Hc.
    destruct (NtfsInode File) eqn:HI; [| congruence]. cbn [orb is_null].
    split; [reflexivity |].
    rewrite count_down_lookup, decide_True by reflexivity. rewrite Hc. reflexivity.
  - intros Hr Hi Hc Hro.
    destruct (FileDelete_last_reference st This File Hf Hr Hi Hc Hro)
      as (st' & H1 & H2 & _).
    exists st'. split; [exact H1 |]. split; [exact H2 |].
    intros Hs. rewrite H1, Hs. reflexivity.
Qed.

(** On a writable volume FileDelete keeps the volume mounted exactly while
    handles remain open, as long as the total count covers the count of
    the object. *)
Lemma FileDelete_writable_mount_invariant st This File Status st' :
  files st !! BASE_FILE This = Some File ->
  NtfsIsVolumeReadOnly E (NtfsVolume (fs st)) = false ->
  RefCount File <= TotalRefCount (fs st) ->
  mount_invariant st ->
  FileDelete E st This = Some (Status, st') ->
  mount_invariant st'.
Proof.
  unfold mount_invariant. intros Hf Hro Hle Hinv Hd.
  rewrite (FileDelete_cases _ _ _ Hf), Hro in Hd.
  destruct (IsRoot File || is_null (NtfsInode File)).
  { inversion Hd; subst. exact Hinv. }
  destruct (0 <? RefCount File - 1) eqn:Hc.
  { inversion Hd; subst.
    change (mounted st = true <-> 0 < TotalRefCount (fs st) - 1).
    rewrite Hinv. lia. }
  cbv zeta in Hd.
  match type of Hd with Some (_, ?x) = _ => assert (Hst : st' = x) by congruence end.
  rewrite Hst. clear Hd Hst.
  destruct (TotalRefCount (fs st) - 1 <=? 0) eqn:Ht.
  - unfold mounted. cbn [NtfsUnmountVolume with_fs fs NtfsVolume set_NtfsVolume TotalRefCount].
    rewrite fs_NtfsFreeFile.
    change (false = true <-> 0 < TotalRefCount (fs st) - 1).
    split; [discriminate | lia].
  - unfold mounted. rewrite fs_NtfsFreeFile.
    change (mounted st = true <-> 0 < TotalRefCount (fs st) - 1). rewrite Hinv. lia.
Qed.

End DeleteProperties.

(** C3, as stated, fails.  On the last reference to the non-root "a",
    its underlying object present, on a writable volume, Delete returns
    what the engine's delete returns: WarnDeleteFailure, not success, when
    the engine's delete fails. *)
Lemma FileDelete_last_reference_engine_failure :
  files Reference.st_a !! BASE_FILE Reference.h_a = Some Reference.file_a /\
  IsRoot Reference.file_a = false /\
  NtfsInode Reference.file_a = Some 64 /\
  RefCount Reference.file_a = 1 /\
  NtfsIsVolumeReadOnly Reference.failing_delete (NtfsVolume (fs Reference.st_a)) = false /\
  (exists st', FileDelete Reference.failing_delete Reference.st_a Reference.h_a
                 = Some (EFI_WARN_DELETE_FAILURE, st')) /\
  EFI_WARN_DELETE_FAILURE <> EFI_SUCCESS.
Proof.
  split; [reflexivity |]. split; [reflexivity |]. split; [reflexivity |].
  split; [reflexivity |]. split; [reflexivity |]. split; [| discriminate].
  eexists. vm_compute. reflexivity.
Qed.

(** On the reference engine: Delete on the root, and on the last
    reference to "a". *)
Lemma FileDelete_three_valued_witness :
  files Reference.st_open !! BASE_FILE Reference.h_root = Some Reference.root_file /\
  files Reference.st_a !! BASE_FILE Reference.h_a = Some Reference.file_a /\
  FileDelete Reference.writable Reference.st_open Reference.h_root
    = Some (EFI_ACCESS_DENIED, Reference.st_open) /\
  exists st',
    FileDelete Reference.writable Reference.st_a Reference.h_a = Some (EFI_SUCCESS, st') /\
    files st' !! BASE_FILE Reference.h_a = None.
Proof.
  split; [reflexivity |]. split; [reflexivity |]. split.
  - apply (FileDelete_three_valued Reference.writable Reference.st_open Reference.h_root
             Reference.root_file eq_refl). reflexivity.
  - destruct (FileDelete_three_valued Reference.writable Reference.st_a Reference.h_a
                Reference.file_a eq_refl) as (_ & _ & H).
    destruct H as (st' & H1 & H2 & H3);
      [reflexivity | discriminate | reflexivity | reflexivity |].
    exists st'. split; [apply H3; reflexivity | exact H2].
Defined.

(** ** The reference counts on a writable volume *)

Lemma refcount_sum_delete (m : gmap addr EFI_NTFS_FILE) a f :
  m !! a = Some f -> refcount_sum m = RefCount f + refcount_sum (delete a m).
Proof.
  intros Hf. unfold refcount_sum.
  apply (map_fold_delete_L (fun _ f acc => RefCount f + acc)); [| exact Hf].
  intros. lia.
Qed.

Lemma refcount_sum_insert_fresh (m : gmap addr EFI_NTFS_FILE) a g :
  m !! a = None -> refcount_sum (<[a := g]> m) = RefCount g + refcount_sum m.
Proof.
  intros Hf. unfold refcount_sum.
  apply (map_fold_insert_L (fun _ f acc => RefCount f + acc)); [| exact Hf].
  intros. lia.
Qed.

Lemma refcount_sum_insert (m : gmap addr EFI_NTFS_FILE) a f g :
  m !! a = Some f -> refcount_sum (<[a := g]> m) = refcount_sum m - RefCount f + RefCount g.
Proof.
  intros Hf. rewrite <- insert_delete_eq.
  rewrite refcount_sum_insert_fresh by apply lookup_delete_eq.
  rewrite (refcount_sum_delete m a f Hf). lia.
Qed.

(** The sum after a change at one address, from the lookups alone. *)
Lemma refcount_sum_change (m m' : gmap addr EFI_NTFS_FILE) a f :
  m !! a = Some f ->
  (forall b, b <> a -> m' !! b = m !! b) ->
  refcount_sum m' =
    refcount_sum m - RefCount f + match m' !! a with Some g => RefCount g | None => 0 end.
Proof.
  intros Hf Hother. destruct (m' !! a) as [g |] eqn:Hg.
  - assert (m' = <[a := g]> m) as ->.
    { apply map_eq. intros b. destruct (decide (b = a)) as [-> | Hb].
      - rewrite lookup_insert_eq. exact Hg.
      - rewrite lookup_insert_ne by congruence. apply Hother. exact Hb. }
    apply refcount_sum_insert. exact Hf.
  - assert (m' = delete a m) as ->.
    { apply map_eq. intros b. destruct (decide (b = a)) as [-> | Hb].
      - rewrite lookup_delete_eq. exact Hg.
      - rewrite lookup_delete_ne by congruence. apply Hother. exact Hb. }
    rewrite (refcount_sum_delete m a f Hf). lia.
Qed.

Lemma refcount_sum_nonneg (m : gmap addr EFI_NTFS_FILE) :
  (forall a f, m !! a = Some f -> 0 < RefCount f) -> 0 <= refcount_sum m.
Proof.
  induction m as [| a f m Hf IH] using map_ind; intros Hpos.
  - unfold refcount_sum. rewrite map_fold_empty. lia.
  - rewrite refcount_sum_insert_fresh by exact Hf.
    assert (0 < RefCount f) by (apply (Hpos a); apply lookup_insert_eq).
    assert (0 <= refcount_sum m).
    { apply IH. intros b g Hb. apply (Hpos b).
      rewrite lookup_insert_ne; [exact Hb |]. intros ->. congruence. }
    lia.
Qed.

Lemma well_counted_covers st a f :
  well_counted st -> files st !! a = Some f ->
  0 < RefCount f <= TotalRefCount (fs st).
Proof.
  intros [Hpos Hsum] Hf. split; [exact (Hpos a f Hf) |].
  rewrite Hsum, (refcount_sum_delete _ a f Hf).
  assert (0 <= refcount_sum (delete a (files st))).
  { apply refcount_sum_nonneg. intros b g Hb.
    apply lookup_delete_Some in Hb as [_ Hb]. exact (Hpos b g Hb). }
  lia.
Qed.

(** A step that changes the object at [a] to [o] and the total count by
    the same amount keeps the memory well counted. *)
Lemma well_counted_step st st' a f :
  well_counted st ->
  files st !! a = Some f ->
  (forall b, b <> a -> files st' !! b = files st !! b) ->
  (forall g, files st' !! a = Some g -> 0 < RefCount g) ->
  TotalRefCount (fs st') =
    TotalRefCount (fs st) - RefCount f
      + match files st' !! a with Some g => RefCount g | None => 0 end ->
  well_counted st'.
Proof.
  intros [Hpos Hsum] Hf Hother Hnew Ht. split.
  - intros b g Hb. destruct (decide (b = a)) as [-> | Hne].
    + exact (Hnew g Hb).
    + rewrite Hother in Hb by exact Hne. exact (Hpos b g Hb).
  - rewrite Ht, (refcount_sum_change (files st) (files st') a f Hf Hother), Hsum.
    reflexivity.
Qed.

Section WritableVolume.

Variable E : Engine.
Hypothesis writable : forall v, NtfsIsVolumeReadOnly E v = false.

Lemma FileClose_well_counted st This Status st' :
  well_counted st ->
  FileClose st This = Some (Status, st') ->
  well_counted st'.
Proof.
  intros Hw Hc. destruct (files st !! BASE_FILE This) as [File |] eqn:Hf.
  - destruct (FileClose_effect st This File Hf) as (st1 & H1 & Ha & Hb & Ht & _).
    rewrite H1 in Hc. assert (st' = st1) as -> by congruence.
    destruct (well_counted_covers st _ _ Hw Hf) as [Hpos _].
    assert (Hlt : (RefCount File - 1 <? 0) = false) by lia.
    rewrite Hlt in Ha.
    apply (well_counted_step st st1 (BASE_FILE This) File Hw Hf Hb).
    + intros g. rewrite Ha. destruct (RefCount File - 1 =? 0) eqn:Hz; [discriminate |].
      intros [= <-]. cbn. lia.
    + rewrite Ht, Ha. destruct (RefCount File - 1 =? 0) eqn:Hz; cbn; lia.
  - unfold FileClose in Hc. rewrite Hf in Hc. discriminate.
Qed.

Lemma FileDelete_well_counted st This Status st' :
  well_counted st ->
  FileDelete E st This = Some (Status, st') ->
  well_counted st'.
Proof.
  intros Hw Hd. destruct (files st !! BASE_FILE This) as [File |] eqn:Hf.
  2: { unfold FileDelete in Hd. rewrite Hf in Hd. discriminate. }
  destruct (well_counted_covers st _ _ Hw Hf) as [Hpos _].
  pose proof Hd as Hd0.
  rewrite (FileDelete_cases E _ _ _ Hf), writable in Hd.
  destruct (IsRoot File) eqn:Hr.
  { cbn [orb] in Hd. assert (st' = st) as -> by congruence. exact Hw. }
  destruct (NtfsInode File) as [i |] eqn:Hi.
  2: { cbn [orb is_null] in Hd. assert (st' = st) as -> by congruence. exact Hw. }
  cbn [orb is_null] in Hd.
  destruct (0 <? RefCount File - 1) eqn:Hc.
  - assert (st' = count_down st (BASE_FILE This) File) as -> by congruence.
    apply (well_counted_step st _ (BASE_FILE This) File Hw Hf).
    + intros b Hb. rewrite count_down_lookup, decide_False by congruence. reflexivity.
    + intros g. rewrite count_down_lookup, decide_True by reflexivity.
      intros [= <-]. cbn. lia.
    + rewrite count_down_lookup, decide_True by reflexivity. cbn. lia.
  - assert (H1 : RefCount File = 1) by lia.
    destruct (FileDelete_last_reference E st This File Hf Hr) as (st1 & E1 & Ha & Hb & Ht & _);
      [congruence | exact H1 | apply writable |].
    rewrite E1 in Hd0. assert (st' = st1) as -> by congruence.
    apply (well_counted_step st st1 (BASE_FILE This) File Hw Hf Hb).
    + intros g. rewrite Ha. discriminate.
    + rewrite Ht, Ha. lia.
Qed.

Lemma FileOpen_self_well_counted st This Name Mode Attributes Status New st' :
  Name = [] \/ Name = L_dot ->
  well_counted st -> mount_invariant st ->
  FileOpen E st This Name Mode Attributes = Some (Status, New, st') ->
  well_counted st' /\ mount_invariant st'.
Proof.
  intros HN Hw Hm Ho. destruct (files st !! BASE_FILE This) as [File |] eqn:Hf.
  2: { unfold FileOpen in Ho. rewrite Hf in Ho. discriminate. }
  rewrite (FileOpen_self_cases E _ _ _ _ _ _ Hf HN) in Ho.
  destruct (well_counted_covers st _ _ Hw Hf) as [Hpos Hle].
  repeat match type of Ho with
         | (if ?c then _ else _) = _ =>
             destruct c; [assert (st' = st) as -> by congruence; split; assumption |]
         end.
  match type of Ho with Some (_, _, ?x) = _ => assert (st' = x) as -> by congruence end.
  split.
  - apply (well_counted_step st _ (BASE_FILE This) File Hw Hf).
    + intros b Hb. cbn [files]. rewrite lookup_insert_ne by congruence. reflexivity.
    + intros g. cbn [files]. rewrite lookup_insert_eq. intros [= <-]. cbn. lia.
    + cbn [files fs TotalRefCount set_TotalRefCount]. rewrite lookup_insert_eq. cbn. lia.
  - unfold mount_invariant in *.
    change (mounted st = true <-> 0 < TotalRefCount (fs st) + 1). rewrite Hm. lia.
Qed.

(** X1. On a writable volume Close, Delete and the reopen of the empty name
    or "." keep the counts and the mount state together: along every
    sequence of them each object in memory has a positive reference count,
    the total count is the sum of the reference counts, and the volume is
    mounted exactly while the total count is positive. *)
Lemma run_ops_writable_invariant ops : forall st st',
  well_counted st -> mount_invariant st ->
  run_ops E st ops = Some st' ->
  well_counted st' /\ mount_invariant st'.
Proof.
  induction ops as [| op rest IH]; intros st st' Hw Hm Hr.
  - cbn in Hr. assert (st' = st) as -> by congruence. split; assumption.
  - cbn [run_ops] in Hr. destruct (run_op E st op) as [st1 |] eqn:Hop; [| discriminate].
    cbn [mbind option_bind] in Hr.
    assert (H1 : well_counted st1 /\ mount_invariant st1).
    { destruct op as [h | h | h dot Mode]; cbn [run_op] in Hop.
      - destruct (FileClose st h) as [[s x] |] eqn:Hc; [| discriminate].
        cbn in Hop. assert (x = st1) as -> by congruence. split.
        + exact (FileClose_well_counted _ _ _ _ Hw Hc).
        + exact (proj2 (FileClose_mount_invariant _ _ _ _ Hm Hc)).
      - destruct (FileDelete E st h) as [[s x] |] eqn:Hc; [| discriminate].
        cbn in Hop. assert (x = st1) as -> by congruence. split.
        + exact (FileDelete_well_counted _ _ _ _ Hw Hc).
        + destruct (files st !! BASE_FILE h) as [File |] eqn:Hf.
          * destruct (well_counted_covers st _ _ Hw Hf) as [_ Hle].
            exact (FileDelete_writable_mount_invariant E _ _ _ _ _ Hf (writable _) Hle Hm Hc).
          * unfold FileDelete in Hc. rewrite Hf in Hc. discriminate.
      - destruct (FileOpen E st h _ Mode 0) as [[[s n] x] |] eqn:Hc; [| discriminate].
        cbn in Hop. assert (x = st1) as -> by congruence.
        assert (HN : (if dot then L_dot else []) = [] \/ (if dot then L_dot else []) = L_dot)
          by (destruct dot; auto).
        exact (FileOpen_self_well_counted _ _ _ _ _ _ _ _ HN Hw Hm Hc). }
    destruct H1 as [Hw1 Hm1]. exact (IH st1 st' Hw1 Hm1 Hr).
Qed.

End WritableVolume.

(** ** The reference counts on a read-only volume *)

(** C1. On the code the invariant fails.  OpenVolume, Open "a" for
    reading and Close of the root on a read-only volume leave the volume
    mounted with total count 1; Delete on the handle of "a" then brings the
    total count to 0 and returns WarnDeleteFailure with the volume still
    mounted. *)
Theorem FileDelete_read_only_volume_stays_mounted :
  Reference.open_a_close_root Reference.read_only
    = Some (Reference.h_a, Reference.st_a) /\
  mount_invariant Reference.st_a /\
  TotalRefCount (fs Reference.st_a) = 1 /\
  FileDelete Reference.read_only Reference.st_a Reference.h_a
    = Some (EFI_WARN_DELETE_FAILURE, Reference.st_a_zero) /\
  TotalRefCount (fs Reference.st_a_zero) = 0 /\
  mounted Reference.st_a_zero = true /\
  ~ mount_invariant Reference.st_a_zero.
Proof.
  split; [vm_compute; reflexivity |].
  split; [unfold mount_invariant; cbn; split; [lia | reflexivity] |].
  split; [reflexivity |].
  split; [vm_compute; reflexivity |].
  split; [reflexivity |]. split; [reflexivity |].
  unfold mount_invariant. cbn. intros [H _]. specialize (H eq_refl). lia.
Qed.

(** C2. On the code an object can reach reference count 0 and stay.
    Delete on the only handle of "a" on a read-only volume brings its
    reference count from 1 to exactly 0 and returns with the handle object
    still in memory, its engine node still open and its path still
    allocated; Close on the same handle destroys the object. *)
Theorem FileDelete_read_only_object_survives :
  files Reference.st_a !! BASE_FILE Reference.h_a = Some Reference.file_a /\
  RefCount Reference.file_a = 1 /\
  (exists st' File',
     FileDelete Reference.read_only Reference.st_a Reference.h_a
       = Some (EFI_WARN_DELETE_FAILURE, st') /\
     files st' !! BASE_FILE Reference.h_a = Some File' /\
     RefCount File' = 0 /\
     NtfsInode File' = Some 64 /\
     Path File' = Path Reference.file_a) /\
  (exists st',
     FileClose Reference.st_a Reference.h_a = Some (EFI_SUCCESS, st') /\
     files st' !! BASE_FILE Reference.h_a = None).
Proof.
  split; [reflexivity |]. split; [reflexivity |]. split.
  - exists Reference.st_a_zero, (set_RefCount 0 Reference.file_a).
    split; [vm_compute; reflexivity |]. repeat split; reflexivity.
  - eexists. split; [vm_compute; reflexivity |]. reflexivity.
Qed.

(** ** Directory reads *)

Section ReadProperties.

Variable E : Engine.

Lemma visit_entries_nil Hook st Data pos :
  visit_entries Hook st Data [] pos = Some (EFI_END_OF_FILE, pos, st, Data).
Proof. reflexivity. Qed.

(** What FileRead makes of the status of the enumeration. *)
Lemma FileRead_directory st This Len Data File :
  files st !! BASE_FILE This = Some File ->
  NtfsInode File <> None ->
  IsDir File = true ->
  FileRead E st This Len Data =
    '(Status, st1, D1) ← NtfsReadDirectory E st (BASE_FILE This) File (DirHook E)
                           (mkDirData (BASE_FILE This) (set_Info_Size Len (as_FILE_INFO Data)));
    if EFI_ERROR Status then
      if Status =? EFI_END_OF_FILE
      then Some (EFI_SUCCESS, 0, BufFileInfo (Info D1), st1)
      else Some (Status, Len, BufFileInfo (Info D1), st1)
    else Some (EFI_SUCCESS, Info_Size (Info D1), BufFileInfo (Info D1), st1).
Proof.
  intros Hf Hi Hd. unfold FileRead. rewrite Hf. cbn [mbind option_bind].
  destruct (NtfsInode File); [| congruence]. cbn [is_null]. rewrite Hd.
  reflexivity.
Qed.

(** C8. On a directory handle whose enumeration position is at the end of
    the directory, Read returns success with length zero; whenever the
    enumeration reports end of directory the read is a success of length
    zero, and any other error status of the enumeration is returned as it
    is, with the caller's length untouched. *)
Theorem FileRead_end_of_directory st This Len Data File :
  files st !! BASE_FILE This = Some File ->
  NtfsInode File <> None ->
  IsDir File = true ->
  (Z.of_nat (length (ntfs_dir_entries E st (BASE_FILE This))) <= DirPos File ->
     exists Data' st', FileRead E st This Len Data = Some (EFI_SUCCESS, 0, Data', st')) /\
  (forall Status st1 D1,
     NtfsReadDirectory E st (BASE_FILE This) File (DirHook E)
       (mkDirData (BASE_FILE This) (set_Info_Size Len (as_FILE_INFO Data)))
       = Some (Status, st1, D1) ->
     (Status = EFI_END_OF_FILE ->
        FileRead E st This Len Data = Some (EFI_SUCCESS, 0, BufFileInfo (Info D1), st1)) /\
     (EFI_ERROR Status = true -> Status <> EFI_END_OF_FILE ->
        FileRead E st This Len Data = Some (Status, Len, BufFileInfo (Info D1), st1))).
Proof.
  intros Hf Hi Hd. rewrite (FileRead_directory _ _ _ _ _ Hf Hi Hd). split.
  - intros Hend. unfold NtfsReadDirectory.
    rewrite drop_ge by lia. rewrite visit_entries_nil. cbn. eauto.
  - intros Status st1 D1 ->. cbn [mbind option_bind]. split.
    + intros ->. reflexivity.
    + intros He Hn. rewrite He. apply Z.eqb_neq in Hn. rewrite Hn. reflexivity.
Qed.

End ReadProperties.

(** On the reference engine: Read at the end of the root directory, and
    Read with a failing metadata query. *)
Lemma FileRead_end_of_directory_witness :
  files Reference.st_root_end !! BASE_FILE Reference.h_root
    = Some (set_DirPos 5 Reference.root_file) /\
  (exists Data' st',
     FileRead Reference.writable Reference.st_root_end Reference.h_root 600 (BufBytes [])
       = Some (EFI_SUCCESS, 0, Data', st')) /\
  (exists Data' st',
     FileRead Reference.failing_info Reference.st_root Reference.h_root 600 (BufBytes [])
       = Some (EFI_DEVICE_ERROR, 600, Data', st')).
Proof.
  split; [reflexivity |]. split.
  - apply (FileRead_end_of_directory Reference.writable Reference.st_root_end
             Reference.h_root 600 (BufBytes []) (set_DirPos 5 Reference.root_file) eq_refl);
      [discriminate | reflexivity | vm_compute; discriminate].
  - destruct (FileRead_end_of_directory Reference.failing_info Reference.st_root
                Reference.h_root 600 (BufBytes []) Reference.root_file eq_refl)
      as [_ H]; [discriminate | reflexivity |].
    eexists _, _. eapply H; [vm_compute; reflexivity | reflexivity | discriminate].
Defined.

(** ** The skip rule of the directory enumeration *)

Section EnumerationProperties.

Variable E : Engine.

(** The guard of DirHook is the skip rule. *)
Lemma DirHook_guard_listed e :
  (GetInodeNumber E (d_MRef e) <? FILE_FIRST_USER)
    && negb (GetInodeNumber E (d_MRef e) =? FILE_ROOT) = negb (listed E e).
Proof.
  unfold listed, FILE_FIRST_USER, FILE_ROOT.
  destruct (GetInodeNumber E (d_MRef e) <? 16) eqn:H1;
    destruct (GetInodeNumber E (d_MRef e) =? 5) eqn:H2;
    destruct (16 <=? GetInodeNumber E (d_MRef e)) eqn:H3; cbn; try reflexivity; lia.
Qed.

Lemma filter_listed_skip l :
  List.filter (listed E) l =
    match skip_unlisted E l with
    | [] => []
    | e :: rest => e :: List.filter (listed E) rest
    end.
Proof.
  induction l as [| e r IH]; [reflexivity |]. cbn.
  destruct (listed E e) eqn:He; [reflexivity | exact IH].
Qed.

Lemma skip_unlisted_suffix l :
  (length (skip_unlisted E l) <= length l)%nat /\
  skip_unlisted E l = drop (length l - length (skip_unlisted E l)) l.
Proof.
  induction l as [| e r [IH1 IH2]]; [split; reflexivity |]. cbn [skip_unlisted].
  destruct (listed E e).
  - split; [reflexivity |]. rewrite Nat.sub_diag. reflexivity.
  - split; [cbn [length]; lia |]. cbn [length].
    replace (S (length r) - length (skip_unlisted E r))%nat
      with (S (length r - length (skip_unlisted E r))) by lia.
    cbn [drop]. exact IH2.
Qed.

Lemma name_bytes_small n : 0 <= n < 256 -> name_bytes n = (n + 1) * 2.
Proof.
  intros H. unfold name_bytes, UINT64_MODULUS, sizeof_CHAR16.
  rewrite (Z.mod_small n) by lia. rewrite Z.mod_small by lia. reflexivity.
Qed.

(** DirHook on a listed entry: one shot, with the name and the size stored. *)
Lemma DirHook_listed st Data e pos Len :
  info_query_succeeds E ->
  listed E e = true ->
  0 <= d_NameLen e < 256 ->
  SIZE_OF_EFI_FILE_INFO + name_bytes (d_NameLen e) <= Len ->
  Info_Size (Info Data) = Len ->
  exists i,
    DirHook E st Data (d_Name e) (d_NameLen e) (d_NameType e) pos (d_MRef e) (d_DtType e)
      = Some (1, st, mkDirData (Parent Data) i) /\
    FileName i = entry_name e /\
    Info_Size i = SIZE_OF_EFI_FILE_INFO + name_bytes (d_NameLen e).
Proof.
  intros HQ Hl Hn Hfit HS. unfold DirHook.
  rewrite DirHook_guard_listed, Hl. cbn [negb].
  assert (H256 : (d_NameLen e <? 256) = true) by lia. rewrite H256. cbn [negb].
  assert (Hb := name_bytes_small _ Hn).
  assert (Hlt : (Info_Size (Info Data) <? name_bytes (d_NameLen e)) = false).
  { unfold SIZE_OF_EFI_FILE_INFO in Hfit. lia. }
  rewrite Hlt.
  assert (H0 : (d_NameLen e <? 0) = false) by lia. rewrite H0.
  match goal with |- context [NtfsGetFileInfo E ?s ?a ?i ?m ?d] =>
    destruct (HQ s a i m d) as (Q1 & Q2 & Q3);
    destruct (NtfsGetFileInfo E s a i m d) as [Status i3] eqn:Hq end.
  cbn [fst snd] in Q1, Q2, Q3. rewrite Q1.
  exists i3. split; [reflexivity |]. split; [exact Q2 |].
  rewrite Q3. cbn [Info_Size set_Info_Size].
  apply Z.mod_small. unfold UINT64_MODULUS, SIZE_OF_EFI_FILE_INFO. lia.
Qed.

(** The visit stops at the first listed entry, or reports the end. *)
Lemma visit_entries_skip l : forall st Data pos Len,
  info_query_succeeds E ->
  names_fit E Len l ->
  Info_Size (Info Data) = Len ->
  match skip_unlisted E l with
  | [] =>
      visit_entries (DirHook E) st Data l pos
        = Some (EFI_END_OF_FILE, pos + Z.of_nat (length l), st, Data)
  | e :: rest =>
      exists i,
        visit_entries (DirHook E) st Data l pos
          = Some (EFI_SUCCESS, pos + Z.of_nat (length l - length rest), st,
                  mkDirData (Parent Data) i) /\
        FileName i = entry_name e /\
        Info_Size i = SIZE_OF_EFI_FILE_INFO + name_bytes (d_NameLen e)
  end.
Proof.
  induction l as [| e r IH]; intros st Data pos Len HQ Hfit HS.
  - cbn. rewrite Z.add_0_r. reflexivity.
  - inversion Hfit as [| ? ? Hfe Hfit']; subst.
    cbn [skip_unlisted]. destruct (listed E e) eqn:Hl.
    + destruct (Hfe eq_refl) as [Hn Hsz].
      destruct (DirHook_listed st Data e pos _ HQ Hl Hn Hsz eq_refl) as (i & Hh & Hi1 & Hi2).
      exists i. cbn [visit_entries]. rewrite Hh. cbn [mbind option_bind].
      split; [| split; assumption].
      replace (length (e :: r) - length r)%nat with 1%nat by (cbn [length]; lia).
      reflexivity.
    + assert (Hh : DirHook E st Data (d_Name e) (d_NameLen e) (d_NameType e) pos
                     (d_MRef e) (d_DtType e) = Some (0, st, Data)).
      { unfold DirHook. rewrite DirHook_guard_listed, Hl. reflexivity. }
      specialize (IH st Data (pos + 1) _ HQ Hfit' eq_refl).
      destruct (skip_unlisted_suffix r) as [Hle _].
      destruct (skip_unlisted E r) as [| e' rest] eqn:Hs.
      * cbn [visit_entries]. rewrite Hh. cbn [mbind option_bind Z.eqb].
        rewrite IH.
        replace (pos + 1 + Z.of_nat (length r)) with (pos + Z.of_nat (length (e :: r)))
          by (cbn [length]; lia).
        reflexivity.
      * destruct IH as (i & Hv & Hi). exists i. split; [| exact Hi].
        cbn [visit_entries]. rewrite Hh. cbn [mbind option_bind Z.eqb].
        rewrite Hv.
        replace (pos + 1 + Z.of_nat (length r - length rest))
          with (pos + Z.of_nat (length (e :: r) - length rest))
          by (cbn [length] in *; lia).
        reflexivity.
Qed.

Lemma skip_unlisted_Forall (P : DirEntry -> Prop) l :
  Forall P l -> Forall P (skip_unlisted E l).
Proof.
  induction 1 as [| e r He Hr IH]; [constructor |]. cbn [skip_unlisted].
  destruct (listed E e); [constructor; assumption | exact IH].
Qed.

Lemma skip_unlisted_head_listed l :
  match skip_unlisted E l with [] => True | e :: _ => listed E e = true end.
Proof.
  induction l as [| e r IH]; [exact I |]. cbn [skip_unlisted].
  destruct (listed E e) eqn:He; [exact He | exact IH].
Qed.

Lemma drop_to_rest (entries : list DirEntry) p l e rest :
  0 <= p ->
  drop (Z.to_nat p) entries = l ->
  skip_unlisted E l = e :: rest ->
  drop (Z.to_nat (p + Z.of_nat (length l - length rest))) entries = rest /\
  (length rest < length l)%nat.
Proof.
  intros Hp Hl Hs.
  destruct (skip_unlisted_suffix l) as [Hle Hsuf]. rewrite Hs in Hle, Hsuf.
  cbn [length] in Hle, Hsuf.
  split; [| lia].
  replace (Z.to_nat (p + Z.of_nat (length l - length rest)))
    with (Z.to_nat p + S (length l - S (length rest)))%nat by lia.
  rewrite <- drop_drop, Hl.
  replace (S (length l - S (length rest))) with ((length l - S (length rest)) + 1)%nat by lia.
  rewrite <- drop_drop, <- Hsuf. reflexivity.
Qed.

(** C7. Repeated Read calls on a directory handle return, one entry per
    call and in the order of the directory, exactly the entries from the
    current position on that are the root entry (inode 5) or have an inode
    number of at least 16, and then a read of length zero; no other entry is
    returned.  This is for a directory that does not change meanwhile, names
    that fit the buffer, and an engine whose metadata query succeeds. *)
Theorem read_directory_skip_rule entries This Len :
  info_query_succeeds E ->
  (forall st, ntfs_dir_entries E st (BASE_FILE This) = entries) ->
  names_fit E Len entries ->
  forall calls st Data File,
    files st !! BASE_FILE This = Some File ->
    NtfsInode File <> None ->
    IsDir File = true ->
    0 <= DirPos File ->
    (length (drop (Z.to_nat (DirPos File)) entries) < calls)%nat ->
    read_directory E calls st This Len Data
      = Some (entry_name <$>
                List.filter (listed E) (drop (Z.to_nat (DirPos File)) entries)).
Proof.
  intros HQ Hent Hfit. induction calls as [| k IH]; intros st Data File Hf Hi Hd Hp Hc.
  { lia. }
  cbn [read_directory]. rewrite (FileRead_directory E _ _ _ _ _ Hf Hi Hd).
  unfold NtfsReadDirectory. rewrite Hent.
  set (l := drop (Z.to_nat (DirPos File)) entries) in *.
  assert (Hfitl : names_fit E Len l) by (apply Forall_drop; exact Hfit).
  pose proof (visit_entries_skip l st
                (mkDirData (BASE_FILE This) (set_Info_Size Len (as_FILE_INFO Data)))
                (DirPos File) Len HQ Hfitl eq_refl) as Hv.
  rewrite (filter_listed_skip l).
  destruct (skip_unlisted E l) as [| e rest] eqn:Hs.
  - rewrite Hv. reflexivity.
  - destruct Hv as (i & Hv & Hn & Hsz). rewrite Hv. cbn [mbind option_bind Parent Info].
    change (EFI_ERROR EFI_SUCCESS) with false. cbn [mbind option_bind Parent Info].
    assert (He : 0 <= d_NameLen e < 256).
    { pose proof (skip_unlisted_Forall _ l Hfitl) as HF.
      pose proof (skip_unlisted_head_listed l) as Hh. rewrite Hs in HF, Hh.
      inversion HF as [| ? ? He _]. apply He. exact Hh. }
    assert (Hnz : (Info_Size i =? 0) = false).
    { rewrite Hsz, (name_bytes_small _ He). unfold SIZE_OF_EFI_FILE_INFO. lia. }
    rewrite Hnz.
    destruct (drop_to_rest entries (DirPos File) l e rest Hp eq_refl Hs) as [Hrest Hlen].
    set (pos' := DirPos File + Z.of_nat (length l - length rest)) in *.
    set (st' := with_files (alter (set_DirPos pos') (BASE_FILE This) (files st)) st).
    assert (Hf' : files st' !! BASE_FILE This = Some (set_DirPos pos' File)).
    { subst st'. cbn [files with_files]. rewrite lookup_alter_eq, Hf. reflexivity. }
    rewrite (IH st' (BufFileInfo i) (set_DirPos pos' File) Hf' Hi Hd).
    + cbn [mbind option_bind as_FILE_INFO DirPos set_DirPos]. rewrite Hrest, Hn. reflexivity.
    + cbn [DirPos set_DirPos]. subst pos'. lia.
    + cbn [DirPos set_DirPos]. rewrite Hrest. lia.
Qed.

End EnumerationProperties.

(** On the reference engine: the root directory lists ".", "a" and "dir",
    not the system files of inodes 0 and 11. *)
Lemma read_directory_skip_rule_witness :
  info_query_succeeds Reference.writable /\
  names_fit Reference.writable 600 Reference.listing /\
  read_directory Reference.writable 6 Reference.st_root Reference.h_root 600 (BufBytes [])
    = Some [[46]; [97]; [100; 105; 114]].
Proof.
  assert (HQ : info_query_succeeds Reference.writable).
  { intros st a i m d. cbn. auto. }
  assert (HF : names_fit Reference.writable 600 Reference.listing).
  { unfold names_fit, Reference.listing.
    repeat constructor; cbn; try lia; discriminate. }
  split; [exact HQ |]. split; [exact HF |].
  apply (read_directory_skip_rule Reference.writable Reference.listing Reference.h_root 600
           HQ (fun _ => eq_refl) HF 6%nat Reference.st_root (BufBytes []) Reference.root_file).
  - reflexivity.
  - discriminate.
  - reflexivity.
  - unfold Reference.root_file. cbn. lia.
  - apply Nat.ltb_lt. vm_compute. reflexivity.
Defined.

(** ** FileGetInfo *)

Section GetInfoProperties.

Variable E : Engine.

Lemma label_size_at_least_one_unit v : sizeof_CHAR16 <= label_size v.
Proof.
  unfold label_size, SafeStrSize, SafeStrLen, sizeof_CHAR16.
  destruct (NtfsVolumeLabel v); lia.
Qed.

(** The volume-label branch of FileGetInfo. *)
Lemma FileGetInfo_volume_label_cases st This Len Data File :
  files st !! BASE_FILE This = Some File ->
  FileGetInfo E st This gEfiFileSystemVolumeLabelInfoIdGuid Len Data =
    if is_null (NtfsInode File) then Some (EFI_DEVICE_ERROR, Len, Data)
    else if negb (IsRoot File) then Some (EFI_ACCESS_DENIED, Len, Data)
    else if Len <? sizeof_CHAR16 then Some (EFI_BUFFER_TOO_SMALL, Len, Data)
    else if label_size (fs st) <? Len then Some (EFI_BUFFER_TOO_SMALL, label_size (fs st), Data)
    else Some (EFI_SUCCESS, label_size (fs st),
               BufVolumeLabel (match NtfsVolumeLabel (fs st) with Some l => l | None => [] end)).
Proof.
  intros Hf. unfold FileGetInfo. rewrite Hf. cbn [mbind option_bind].
  destruct (is_null (NtfsInode File)); reflexivity.
Qed.

(** C10. For the volume-label information type, GetInfo succeeds only when
    the caller's buffer length is at least one code unit and at most the
    required size of the label; and on the root handle, its underlying
    object present, it succeeds for every such length, while every call
    whose buffer length strictly exceeds the required size returns
    BufferTooSmall with the caller's size set to the required size and the
    buffer left as it is. *)
Theorem FileGetInfo_volume_label st This Len Data File :
  files st !! BASE_FILE This = Some File ->
  (forall Len' Data',
     FileGetInfo E st This gEfiFileSystemVolumeLabelInfoIdGuid Len Data
       = Some (EFI_SUCCESS, Len', Data') ->
     sizeof_CHAR16 <= Len <= label_size (fs st)) /\
  (IsRoot File = true -> NtfsInode File <> None ->
     (label_size (fs st) < Len ->
        FileGetInfo E st This gEfiFileSystemVolumeLabelInfoIdGuid Len Data
          = Some (EFI_BUFFER_TOO_SMALL, label_size (fs st), Data)) /\
     (sizeof_CHAR16 <= Len <= label_size (fs st) ->
        exists Data',
          FileGetInfo E st This gEfiFileSystemVolumeLabelInfoIdGuid Len Data
            = Some (EFI_SUCCESS, label_size (fs st), Data'))).
Proof.
  intros Hf. rewrite (FileGetInfo_volume_label_cases _ _ _ _ _ Hf).
  pose proof (label_size_at_least_one_unit (fs st)) as Hmin.
  split.
  - intros Len' Data'.
    destruct (is_null (NtfsInode File)); [discriminate |].
    destruct (negb (IsRoot File)); [discriminate |].
    destruct (Len <? sizeof_CHAR16) eqn:H1; [discriminate |].
    destruct (label_size (fs st) <? Len) eqn:H2; [discriminate |].
    intros _. lia.
  - intros Hr Hi. rewrite Hr. destruct (NtfsInode File); [| congruence].
    cbn [is_null negb]. split.
    + intros Hlt.
      assert (H1 : (Len <? sizeof_CHAR16) = false) by lia.
      assert (H2 : (label_size (fs st) <? Len) = true) by lia.
      rewrite H1, H2. reflexivity.
    + intros [Hlo Hhi].
      assert (H1 : (Len <? sizeof_CHAR16) = false) by lia.
      assert (H2 : (label_size (fs st) <? Len) = false) by lia.
      rewrite H1, H2. eauto.
Qed.

(** X2. The file-information type follows the buffer-too-small protocol: an
    undersized buffer gets BufferTooSmall and the required size, the buffer
    left as it is.  With a buffer of the required size the engine's
    metadata query runs on the zeroed buffer: when it fails the call returns
    its status, the length left as it is and the buffer as the query left
    it; when it succeeds the call returns success and the required size,
    with the base name and that size stored in what the query returned. *)
Lemma FileGetInfo_file_info_protocol st This Len Data File name :
  files st !! BASE_FILE This = Some File ->
  NtfsInode File <> None ->
  base_name File = Some name ->
  let Required := SIZE_OF_EFI_FILE_INFO + SafeStrSize name in
  let Query := NtfsGetFileInfo E st (BASE_FILE This)
                 (set_FileName (FileName (as_FILE_INFO Data)) zero_info) 0 (IsDir File) in
  (Len < Required ->
     FileGetInfo E st This gEfiFileInfoGuid Len Data
       = Some (EFI_BUFFER_TOO_SMALL, Required, Data)) /\
  (Required <= Len -> EFI_ERROR Query.1 = true ->
     FileGetInfo E st This gEfiFileInfoGuid Len Data
       = Some (Query.1, Len, BufFileInfo Query.2)) /\
  (Required <= Len -> EFI_ERROR Query.1 = false ->
     exists Info',
       FileGetInfo E st This gEfiFileInfoGuid Len Data
         = Some (EFI_SUCCESS, Required, BufFileInfo Info') /\
       Info' = set_Info_Size Required (set_FileName name Query.2) /\
       Info_Size Info' = Required /\ FileName Info' = name).
Proof.
  intros Hf Hi Hn Required Query. unfold FileGetInfo. rewrite Hf. cbn [mbind option_bind].
  destruct (NtfsInode File); [| congruence]. cbn [is_null].
  change (same_guid gEfiFileInfoGuid gEfiFileInfoGuid) with true. cbv iota.
  rewrite Hn. cbn [mbind option_bind].
  assert (H2 : (sizeof_CHAR16 <=? SafeStrSize name) = true).
  { apply Z.leb_le. unfold SafeStrSize, SafeStrLen, sizeof_CHAR16. lia. }
  rewrite H2. cbn [negb]. fold Required. fold Query.
  refine (conj _ (conj _ _)).
  - intros Hlt. assert (H1 : (Len <? Required) = true) by (apply Z.ltb_lt; exact Hlt).
    rewrite H1. reflexivity.
  - intros Hle He. assert (H1 : (Len <? Required) = false) by (apply Z.ltb_ge; exact Hle).
    rewrite H1. destruct Query as [Status Info1]. cbn [fst snd] in *. rewrite He.
    reflexivity.
  - intros Hle He. assert (H1 : (Len <? Required) = false) by (apply Z.ltb_ge; exact Hle).
    rewrite H1. destruct Query as [Status Info1]. cbn [fst snd] in *. rewrite He.
    cbn [Info_Size set_Info_Size].
    replace (SafeStrSize name + SIZE_OF_EFI_FILE_INFO) with Required
      by (subst Required; lia).
    eexists. split; [reflexivity |]. split; [reflexivity |]. split; reflexivity.
Qed.

(** X3. The file-system information type follows the buffer-too-small
    protocol: an undersized buffer gets BufferTooSmall and the required
    size, the buffer left as it is; a buffer of the required size always
    succeeds with that size. *)
Lemma FileGetInfo_file_system_info_protocol st This Len Data File :
  files st !! BASE_FILE This = Some File ->
  NtfsInode File <> None ->
  let Required := SIZE_OF_EFI_FILE_SYSTEM_INFO + label_size (fs st) in
  (Len < Required ->
     FileGetInfo E st This gEfiFileSystemInfoGuid Len Data
       = Some (EFI_BUFFER_TOO_SMALL, Required, Data)) /\
  (Required <= Len ->
     exists Info',
       FileGetInfo E st This gEfiFileSystemInfoGuid Len Data
         = Some (EFI_SUCCESS, Required, BufFileSystemInfo Info') /\
       FSInfo_Size Info' = Required /\
       (FSInfo_BlockSize Info' = 512 \/
        FSInfo_BlockSize Info'
          = BlockSize (match BlockIo2 (fs st) with Some m => m | None => BlockIo (fs st) end))).
Proof.
  intros Hf Hi Required. unfold FileGetInfo. rewrite Hf. cbn [mbind option_bind].
  destruct (NtfsInode File); [| congruence]. cbn [is_null].
  change (same_guid gEfiFileSystemInfoGuid gEfiFileInfoGuid) with false.
  change (same_guid gEfiFileSystemInfoGuid gEfiFileSystemInfoGuid) with true. cbv iota.
  fold Required. split.
  - intros Hlt. assert (H1 : (Len <? Required) = true) by (apply Z.ltb_lt; exact Hlt).
    rewrite H1. reflexivity.
  - intros Hle. assert (H1 : (Len <? Required) = false) by (apply Z.ltb_ge; exact Hle).
    rewrite H1.
    eexists. split; [subst Required; f_equal; f_equal; f_equal; lia |].
    cbn [FSInfo_Size FSInfo_BlockSize]. split; [subst Required; lia |].
    destruct (BlockSize _ =? 0); auto.
Qed.

End GetInfoProperties.

(** On the reference engine: a label of 10 bytes asked for with buffers of
    12 and of 10 bytes. *)
Lemma FileGetInfo_volume_label_witness :
  files Reference.st_open !! BASE_FILE Reference.h_root = Some Reference.root_file /\
  label_size (fs Reference.st_open) = 10 /\
  FileGetInfo Reference.writable Reference.st_open Reference.h_root
      gEfiFileSystemVolumeLabelInfoIdGuid 12 (BufBytes [])
    = Some (EFI_BUFFER_TOO_SMALL, 10, BufBytes []) /\
  exists Data',
    FileGetInfo Reference.writable Reference.st_open Reference.h_root
      gEfiFileSystemVolumeLabelInfoIdGuid 10 (BufBytes [])
    = Some (EFI_SUCCESS, 10, Data').
Proof.
  split; [reflexivity |]. split; [reflexivity |].
  destruct (FileGetInfo_volume_label Reference.writable Reference.st_open Reference.h_root
              12 (BufBytes []) Reference.root_file eq_refl) as [_ H12].
  destruct (FileGetInfo_volume_label Reference.writable Reference.st_open Reference.h_root
              10 (BufBytes []) Reference.root_file eq_refl) as [_ H10].
  split.
  - apply H12; [reflexivity | discriminate | reflexivity].
  - apply H10; [reflexivity | discriminate | split; discriminate].
Defined.

(** C9. On the code the protocol fails for the volume-label information
    type.  The label "DATA" requires 10 bytes.  With a buffer of 4 bytes
    GetInfo on the root handle returns success and stores the whole label
    through the buffer; with a buffer of 1 byte it returns BufferTooSmall
    and leaves the caller's size at 1; with a buffer of 12 bytes it returns
    BufferTooSmall.  The file and file-system information types of the same
    call return BufferTooSmall with the required size. *)
Theorem FileGetInfo_volume_label_undersized :
  label_size (fs Reference.st_open) = 10 /\
  FileGetInfo Reference.writable Reference.st_open Reference.h_root
      gEfiFileSystemVolumeLabelInfoIdGuid 4 (BufBytes [0; 0; 0; 0])
    = Some (EFI_SUCCESS, 10, BufVolumeLabel Reference.L_DATA) /\
  FileGetInfo Reference.writable Reference.st_open Reference.h_root
      gEfiFileSystemVolumeLabelInfoIdGuid 1 (BufBytes [0])
    = Some (EFI_BUFFER_TOO_SMALL, 1, BufBytes [0]) /\
  FileGetInfo Reference.writable Reference.st_open Reference.h_root
      gEfiFileSystemVolumeLabelInfoIdGuid 12 (BufBytes [])
    = Some (EFI_BUFFER_TOO_SMALL, 10, BufBytes []) /\
  FileGetInfo Reference.writable Reference.st_open Reference.h_root
      gEfiFileSystemInfoGuid 4 (BufBytes [0; 0; 0; 0])
    = Some (EFI_BUFFER_TOO_SMALL, 46, BufBytes [0; 0; 0; 0]) /\
  FileGetInfo Reference.writable Reference.st_open Reference.h_root
      gEfiFileInfoGuid 4 (BufBytes [0; 0; 0; 0])
    = Some (EFI_BUFFER_TOO_SMALL, 82, BufBytes [0; 0; 0; 0]).
Proof. repeat split; vm_compute; reflexivity. Qed.

(** * Further properties *)

(** ** FileOpen: what every call returns *)

Section OpenResult.

Variable E : Engine.

Lemma FileOpen_out_error Status NewFile st r :
  EFI_ERROR Status = true ->
  FileOpen_out Status NewFile st = Some r ->
  r = (Status, None, NtfsFreeFile st NewFile).
Proof. unfold FileOpen_out. intros ->. congruence. Qed.

(** X4. Open returns a handle exactly when it returns EFI_SUCCESS, and every
    other status it returns is an error. The handle returned is a value of
    an object in memory, the read-write value exactly when the mode includes
    write access; the mode is then one of the three valid ones, and on a
    read-only volume the handle is a read-only value. *)
Theorem FileOpen_handle_iff_success st This Name Mode Attributes Status New st' :
  FileOpen E st This Name Mode Attributes = Some (Status, New, st') ->
  (EFI_ERROR Status = true /\ New = None) \/
  (Status = EFI_SUCCESS /\
   valid_open_mode Mode = true /\
   exists h, New = Some h /\
     is_Some (files st' !! BASE_FILE h) /\
     RO_ACCESS h = negb (has_flag Mode EFI_FILE_MODE_WRITE) /\
     (NtfsIsVolumeReadOnly E (NtfsVolume (fs st)) = true -> RO_ACCESS h = true)).
Proof.
  unfold FileOpen. intros H.
  destruct (files st !! BASE_FILE This) as [File |]; [| discriminate].
  cbn [mbind option_bind] in H.
  assert (Hh : forall a, RO_ACCESS (handle_for_mode a Mode)
                         = negb (has_flag Mode EFI_FILE_MODE_WRITE)).
  { intros a. unfold RO_ACCESS, handle_for_mode. cbn.
    destruct (has_flag Mode EFI_FILE_MODE_WRITE); reflexivity. }
  destruct (NtfsIsVolumeReadOnly E (NtfsVolume (fs st)) && negb (Mode =? EFI_FILE_MODE_READ))
    eqn:Hro.
  { left. assert (Status = EFI_WRITE_PROTECTED /\ New = None) as [-> ->]
      by (split; congruence). split; reflexivity. }
  assert (Hread : NtfsIsVolumeReadOnly E (NtfsVolume (fs st)) = true ->
                  negb (has_flag Mode EFI_FILE_MODE_WRITE) = true).
  { intros Hr. rewrite Hr in Hro. cbn in Hro. apply negb_false_iff, Z.eqb_eq in Hro.
    subst Mode. reflexivity. }
  destruct ((StrCmp Name L_dotdot =? 0) && IsRoot File).
  { left. assert (Status = EFI_NOT_FOUND /\ New = None) as [-> ->]
      by (split; congruence). split; reflexivity. }
  destruct (negb (IsDir File)).
  { left. assert (Status = EFI_NOT_FOUND /\ New = None) as [-> ->]
      by (split; congruence). split; reflexivity. }
  destruct (valid_open_mode Mode) eqn:Hv; cbn [negb] in H.
  2: { left. assert (Status = EFI_INVALID_PARAMETER /\ New = None) as [-> ->]
         by (split; congruence). split; reflexivity. }
  destruct (has_flag Mode EFI_FILE_MODE_CREATE &&
            (is_empty Name || (StrCmp Name L_dot =? 0) || (StrCmp Name L_dotdot =? 0))).
  { left. assert (Status = EFI_ACCESS_DENIED /\ New = None) as [-> ->]
      by (split; congruence). split; reflexivity. }
  destruct (is_empty Name || (StrCmp Name L_dot =? 0)).
  { right. injection H as <- <- <-. split; [reflexivity |]. split; [reflexivity |].
    eexists. split; [reflexivity |]. split.
    - cbn. rewrite lookup_insert_eq. eauto.
    - split; [apply Hh |]. intros Hr. rewrite Hh. auto. }
  destruct (AllocateZeroPool_NULL E st (PATH_MAX E * sizeof_CHAR16)).
  { left. apply FileOpen_out_error in H; [| reflexivity].
    injection H as -> -> _. split; reflexivity. }
  match type of H with (?p ≫= _) = _ => destruct p as [parent |]; [| discriminate] end.
  cbn [mbind option_bind] in H.
  match type of H with (?p ≫= _) = _ => destruct p as [rest |]; [| discriminate] end.
  cbn [mbind option_bind] in H.
  match type of H with (if negb ?c then _ else _) = _ => destruct c; [| discriminate] end.
  cbn [negb] in H.
  destruct (NtfsAllocateFile E st) as [[Status1 NewFile] st1].
  destruct (EFI_ERROR Status1) eqn:He1.
  { left. apply FileOpen_out_error in H; [| exact He1].
    injection H as -> -> _. split; [exact He1 | reflexivity]. }
  match type of H with (if ?c then _ else _) = _ => destruct c end.
  { left. apply FileOpen_out_error in H; [| reflexivity].
    injection H as -> -> _. split; reflexivity. }
  destruct NewFile as [n |]; [| discriminate]. cbn [mbind option_bind] in H.
  destruct (files st1 !! n) as [f |]; [| discriminate]. cbn [mbind option_bind] in H.
  match type of H with
  | context [if has_flag Mode EFI_FILE_MODE_CREATE then ?x else ?y] =>
      destruct (if has_flag Mode EFI_FILE_MODE_CREATE then x else y) as [[Status2 n2] st2]
  end.
  destruct (EFI_ERROR Status2) eqn:He2.
  { left. apply FileOpen_out_error in H; [| exact He2].
    injection H as -> -> _. split; [exact He2 | reflexivity]. }
  destruct (files st2 !! n2) as [f2 |]; [| discriminate]. cbn [mbind option_bind] in H.
  right. injection H as <- <- <-. split; [reflexivity |]. split; [reflexivity |].
  eexists. split; [reflexivity |]. split.
  - cbn. rewrite lookup_insert_eq. eauto.
  - split; [apply Hh |]. intros Hr. rewrite Hh. auto.
Qed.

End OpenResult.

(** ** FileOpen: names *)

Section OpenNames.

Variable E : Engine.

Lemma StrCmp_absolute c r s y :
  IS_PATH_DELIMITER c = true -> y = 46 ->
  (StrCmp (c :: r) (y :: s) =? 0) = false.
Proof.
  unfold IS_PATH_DELIMITER, PATH_CHAR, DOS_PATH_CHAR. intros Hc ->. cbn [StrCmp].
  apply orb_true_iff in Hc. destruct Hc as [Hc | Hc]; apply Z.eqb_eq in Hc; subst c;
    reflexivity.
Qed.

(** X5. A name that begins with a delimiter is resolved without the parent:
    on the same memory, Open of it gives the same result from every
    directory handle. *)
Theorem FileOpen_absolute_name st h1 h2 File1 File2 c r Mode Attributes :
  files st !! BASE_FILE h1 = Some File1 ->
  files st !! BASE_FILE h2 = Some File2 ->
  IsDir File1 = true ->
  IsDir File2 = true ->
  IS_PATH_DELIMITER c = true ->
  FileOpen E st h1 (c :: r) Mode Attributes = FileOpen E st h2 (c :: r) Mode Attributes.
Proof.
  intros H1 H2 D1 D2 Hc. unfold FileOpen. rewrite H1, H2. cbn [mbind option_bind].
  rewrite D1, D2.
  unfold L_dotdot, L_dot. rewrite !(StrCmp_absolute c r _ 46 Hc eq_refl).
  cbn [andb orb negb is_empty]. rewrite Hc. reflexivity.
Qed.

Lemma canonical_delimiters_idempotent Name :
  canonical_delimiters (canonical_delimiters Name) = canonical_delimiters Name.
Proof.
  unfold canonical_delimiters. rewrite <- list_fmap_compose.
  apply list_fmap_ext. intros _ c _. cbn. unfold DOS_PATH_CHAR, PATH_CHAR.
  destruct (c =? 92) eqn:Hc; [reflexivity | rewrite Hc; reflexivity].
Qed.

Lemma StrCmp_canonical_delimiters s : forall Name,
  Forall (fun y => y <> PATH_CHAR /\ y <> DOS_PATH_CHAR) s ->
  (StrCmp (canonical_delimiters Name) s =? 0) = (StrCmp Name s =? 0).
Proof.
  unfold PATH_CHAR, DOS_PATH_CHAR.
  induction s as [| y s IH]; intros [| x Name] Hs; try reflexivity.
  - cbn. unfold DOS_PATH_CHAR, PATH_CHAR. destruct (x =? 92) eqn:Hx; [| reflexivity].
    apply Z.eqb_eq in Hx. subst x. reflexivity.
  - inversion Hs as [| ? ? [Hy1 Hy2] Hs']; subst.
    change (canonical_delimiters (x :: Name))
      with ((if x =? DOS_PATH_CHAR then PATH_CHAR else x) :: canonical_delimiters Name).
    unfold DOS_PATH_CHAR, PATH_CHAR. cbn [StrCmp].
    destruct (x =? 92) eqn:Hx.
    + apply Z.eqb_eq in Hx. subst x.
      assert (H47 : (47 =? y) = false) by lia. assert (H92 : (92 =? y) = false) by lia.
      rewrite H47, H92. lia.
    + destruct (x =? y); [apply IH; exact Hs' | reflexivity].
Qed.

(** X6. The secondary separator is the separator: Open of a name gives the
    same result as Open of the name with every DOS_PATH_CHAR written as
    PATH_CHAR. *)
Theorem FileOpen_secondary_separator st This Name Mode Attributes :
  FileOpen E st This (canonical_delimiters Name) Mode Attributes
    = FileOpen E st This Name Mode Attributes.
Proof.
  unfold FileOpen. destruct (files st !! BASE_FILE This) as [File |]; [| reflexivity].
  cbn [mbind option_bind].
  assert (Hdd : Forall (fun y => y <> PATH_CHAR /\ y <> DOS_PATH_CHAR) L_dotdot)
    by (repeat constructor; discriminate).
  assert (Hd : Forall (fun y => y <> PATH_CHAR /\ y <> DOS_PATH_CHAR) L_dot)
    by (repeat constructor; discriminate).
  rewrite !(StrCmp_canonical_delimiters _ Name Hdd), !(StrCmp_canonical_delimiters _ Name Hd).
  assert (He : is_empty (canonical_delimiters Name) = is_empty Name)
    by (destruct Name; reflexivity).
  rewrite He.
  assert (Hfirst : match canonical_delimiters Name with
                   | c :: _ => IS_PATH_DELIMITER c | [] => false end
                   = match Name with c :: _ => IS_PATH_DELIMITER c | [] => false end).
  { destruct Name as [| c r]; [reflexivity |]. cbn.
    unfold IS_PATH_DELIMITER, DOS_PATH_CHAR, PATH_CHAR.
    destruct (c =? 92) eqn:Hc; [rewrite orb_true_r; reflexivity |].
    rewrite Hc. reflexivity. }
  rewrite Hfirst.
  assert (Hcpy : forall m, SafeStrCpy m (canonical_delimiters Name)
                           = canonical_delimiters <$> SafeStrCpy m Name).
  { intros m. unfold SafeStrCpy, SafeStrLen.
    replace (length (canonical_delimiters Name)) with (length Name)
      by (unfold canonical_delimiters; rewrite length_fmap; reflexivity).
    destruct (Z.of_nat (length Name) <? m); reflexivity. }
  repeat match goal with
         | |- (if ?c then _ else _) = (if ?c then _ else _) => destruct c; [reflexivity |]
         end.
  match goal with |- (?p ≫= _) = _ => destruct p as [parent |]; [| reflexivity] end.
  cbn [mbind option_bind]. rewrite Hcpy.
  destruct (SafeStrCpy (PATH_MAX E - SafeStrLen parent) Name) as [rest |]; [| reflexivity].
  cbn [fmap option_fmap option_map mbind option_bind].
  change ((λ c, if c =? DOS_PATH_CHAR then PATH_CHAR else c) <$> canonical_delimiters rest)
    with (canonical_delimiters (canonical_delimiters rest)).
  rewrite canonical_delimiters_idempotent. reflexivity.
Qed.

End OpenNames.

(** ** FileOpen: roll back, and the way back through FileClose *)

Lemma State_eta st : mkState (fs st) (files st) (errno st) = st.
Proof. destruct st. reflexivity. Qed.

Lemma set_RefCount_same f : set_RefCount (RefCount f) f = f.
Proof. destruct f. reflexivity. Qed.

Lemma set_TotalRefCount_same v : set_TotalRefCount (TotalRefCount v) v = v.
Proof. destruct v. reflexivity. Qed.

Section OpenRollBack.

Variable E : Engine.

(** An object allocated and released again leaves the memory as it was. *)
Lemma NtfsAllocateFile_then_free st Status NewFile st1 :
  NtfsAllocateFile E st = (Status, NewFile, st1) ->
  NtfsFreeFile st1 NewFile = st.
Proof.
  unfold NtfsAllocateFile. destruct (pool_exhausted E st).
  - intros [= <- <- <-]. reflexivity.
  - intros [= <- <- <-]. unfold NtfsFreeFile, store_file. cbn [files with_files].
    rewrite lookup_insert_eq. cbn. rewrite delete_insert_eq, delete_id.
    + destruct st. reflexivity.
    + apply not_elem_of_dom, is_fresh.
Qed.

(** X7. Creating the root is refused after the file object was allocated,
    and the object is released again: on a writable volume, Open with
    Create/Read/Write of an absolute name that is cleaned to the root path
    returns OutOfResources when the path buffer or, after it, the file
    object cannot be allocated, and AccessDenied otherwise; in every case it
    returns no handle and leaves the memory exactly as it was. *)
Theorem FileOpen_create_root st This File c r Attributes :
  files st !! BASE_FILE This = Some File ->
  IsDir File = true ->
  NtfsIsVolumeReadOnly E (NtfsVolume (fs st)) = false ->
  IS_PATH_DELIMITER c = true ->
  SafeStrLen (c :: r) < PATH_MAX E ->
  CleanPath E (canonical_delimiters (c :: r)) = [PATH_CHAR] ->
  FileOpen E st This (c :: r) MODE_CREATE_READ_WRITE Attributes
    = Some (if AllocateZeroPool_NULL E st (PATH_MAX E * sizeof_CHAR16)
            then EFI_OUT_OF_RESOURCES
            else if pool_exhausted E st then EFI_OUT_OF_RESOURCES
            else EFI_ACCESS_DENIED,
            None, st).
Proof.
  intros Hf Hd Hro Hc Hlen Hclean. unfold FileOpen. rewrite Hf. cbn [mbind option_bind].
  rewrite Hro, Hd. unfold L_dotdot, L_dot.
  rewrite !(StrCmp_absolute c r _ 46 Hc eq_refl).
  change (valid_open_mode MODE_CREATE_READ_WRITE) with true.
  cbn [andb orb negb is_empty]. rewrite andb_false_r.
  destruct (AllocateZeroPool_NULL E st (PATH_MAX E * sizeof_CHAR16)); [reflexivity |].
  rewrite Hc. cbn [mbind option_bind]. unfold SafeStrCpy.
  change (SafeStrLen []) with 0. rewrite Z.sub_0_r.
  apply Z.ltb_lt in Hlen. rewrite Hlen. cbn [mbind option_bind app].
  change ((λ c0, if c0 =? DOS_PATH_CHAR then PATH_CHAR else c0) <$> c :: r)
    with (canonical_delimiters (c :: r)).
  rewrite Hclean. cbn [negb]. rewrite Z.eqb_refl. cbn [negb andb is_empty].
  destruct (NtfsAllocateFile E st) as [[Status1 NewFile] st1] eqn:Ha.
  pose proof (NtfsAllocateFile_then_free _ _ _ _ Ha) as Hfree.
  unfold NtfsAllocateFile in Ha. destruct (pool_exhausted E st).
  - assert (Status1 = EFI_OUT_OF_RESOURCES) as -> by congruence.
    change (EFI_ERROR EFI_OUT_OF_RESOURCES) with true. cbv iota.
    unfold FileOpen_out. change (EFI_ERROR EFI_OUT_OF_RESOURCES) with true. cbv iota.
    rewrite Hfree. reflexivity.
  - assert (Status1 = EFI_SUCCESS) as -> by congruence.
    change (EFI_ERROR EFI_SUCCESS) with false. cbv iota.
    change (has_flag MODE_CREATE_READ_WRITE EFI_FILE_MODE_CREATE) with true.
    unfold FileOpen_out. change (EFI_ERROR EFI_ACCESS_DENIED) with true. cbv iota.
    rewrite Hfree. reflexivity.
Qed.

(** X8. Reopening a directory and closing the handle returned brings the
    memory back to what it was. *)
Theorem FileOpen_self_then_close st This File Name Mode Attributes h st1 :
  files st !! BASE_FILE This = Some File ->
  Name = [] \/ Name = L_dot ->
  0 < RefCount File ->
  0 < TotalRefCount (fs st) ->
  FileOpen E st This Name Mode Attributes = Some (EFI_SUCCESS, Some h, st1) ->
  BASE_FILE h = BASE_FILE This /\ FileClose st1 h = Some (EFI_SUCCESS, st).
Proof.
  intros Hf HN Hrc Ht Ho. rewrite (FileOpen_self_cases E _ _ _ _ _ _ Hf HN) in Ho.
  repeat match type of Ho with
         | (if ?c then _ else _) = _ => destruct c; [discriminate |]
         end.
  injection Ho as <- <-. split; [reflexivity |].
  unfold FileClose. cbn [BASE_FILE handle_for_mode handle_object files].
  change (handle_object This) with (BASE_FILE This).
  rewrite lookup_insert_eq. cbn [mbind option_bind RefCount set_RefCount].
  assert (H1 : (RefCount File + 1 - 1 <=? 0) = false) by lia. rewrite H1.
  cbn [fs with_fs store_file with_files files errno TotalRefCount set_TotalRefCount].
  assert (H2 : (TotalRefCount (fs st) + 1 - 1 <=? 0) = false) by lia. rewrite H2.
  do 2 f_equal.
  replace (RefCount File + 1 - 1) with (RefCount File) by lia.
  replace (TotalRefCount (fs st) + 1 - 1) with (TotalRefCount (fs st)) by lia.
  unfold with_fs, store_file, with_files. cbn [fs files errno].
  rewrite insert_insert_eq.
  change (set_RefCount (RefCount File) (set_RefCount (RefCount File + 1) File))
    with (set_RefCount (RefCount File) File).
  rewrite set_RefCount_same, (insert_id _ _ _ Hf).
  change (set_TotalRefCount (TotalRefCount (fs st))
            (set_TotalRefCount (TotalRefCount (fs st) + 1) (fs st)))
    with (set_TotalRefCount (TotalRefCount (fs st)) (fs st)).
  rewrite set_TotalRefCount_same. apply State_eta.
Qed.

(** X9. Delete on a handle whose object has other references is a Close that
    reports WarnDeleteFailure: the memory it leaves is the memory Close
    leaves. *)
Theorem FileDelete_shared_is_close st This File :
  files st !! BASE_FILE This = Some File ->
  IsRoot File = false ->
  NtfsInode File <> None ->
  1 < RefCount File ->
  RefCount File <= TotalRefCount (fs st) ->
  exists st',
    FileDelete E st This = Some (EFI_WARN_DELETE_FAILURE, st') /\
    FileClose st This = Some (EFI_SUCCESS, st') /\
    files st' !! BASE_FILE This = Some (set_RefCount (RefCount File - 1) File).
Proof.
  intros Hf Hr Hi Hc Hle. exists (count_down st (BASE_FILE This) File).
  rewrite (FileDelete_cases E _ _ _ Hf), Hr.
  destruct (NtfsInode File); [| congruence]. cbn [orb is_null].
  assert (H1 : (0 <? RefCount File - 1) = true) by lia. rewrite H1.
  split; [reflexivity |]. split.
  - unfold FileClose. rewrite Hf. cbn [mbind option_bind RefCount set_RefCount].
    assert (H2 : (RefCount File - 1 <=? 0) = false) by lia. rewrite H2.
    cbn [fs with_fs store_file with_files TotalRefCount set_TotalRefCount].
    assert (H3 : (TotalRefCount (fs st) - 1 <=? 0) = false) by lia. rewrite H3.
    reflexivity.
  - rewrite count_down_lookup, decide_True by reflexivity. reflexivity.
Qed.

End OpenRollBack.

(** ** FileOpenVolume *)

Section OpenVolumeResult.

Variable E : Engine.

Lemma mounted_NtfsUnmountVolume st : mounted (NtfsUnmountVolume st) = false.
Proof. reflexivity. Qed.

(** X10. OpenVolume returns a handle exactly when it returns EFI_SUCCESS,
    every other status it returns is an error, and every failed call leaves
    the volume unmounted. The root handle returned is the read-write value
    of an object in memory, on read-only volumes too. *)
Theorem FileOpenVolume_result st Status Root st' :
  FileOpenVolume E st = Some (Status, Root, st') ->
  (EFI_ERROR Status = true /\ Root = None /\ mounted st' = false) \/
  (Status = EFI_SUCCESS /\
   exists r File, Root = Some (mkHandle r EfiFileRW) /\
     RO_ACCESS (mkHandle r EfiFileRW) = false /\
     files st' !! r = Some File).
Proof.
  unfold FileOpenVolume, FileOpenVolume_out. intros H.
  destruct (NtfsMountVolume E st) as [Status0 st1].
  destruct (EFI_ERROR Status0) eqn:He0.
  { left. injection H as <- <- <-. auto using mounted_NtfsUnmountVolume. }
  destruct (NtfsAllocateFile E st1) as [[Status1 RootFile] st2].
  destruct (EFI_ERROR Status1) eqn:He1.
  { left. injection H as <- <- <-. auto using mounted_NtfsUnmountVolume. }
  destruct RootFile as [r |]; [| discriminate]. cbn [mbind option_bind] in H.
  destruct (files st2 !! r) as [f |]; [| discriminate]. cbn [mbind option_bind] in H.
  destruct (AllocateZeroPool_NULL E st2 (2 * sizeof_CHAR16)).
  { left. injection H as <- <- <-. auto using mounted_NtfsUnmountVolume. }
  destruct (NtfsOpenFile E _ r) as [[Status2 r2] st4].
  destruct (EFI_ERROR Status2) eqn:He2.
  { left. injection H as <- <- <-. auto using mounted_NtfsUnmountVolume. }
  destruct (files st4 !! r2) as [f2 |]; [| discriminate]. cbn [mbind option_bind] in H.
  right. injection H as <- <- <-. split; [reflexivity |].
  eexists _, _. split; [reflexivity |]. split; [reflexivity |].
  cbn. apply lookup_insert_eq.
Qed.

End OpenVolumeResult.

(** ** The base name of a path *)

Lemma base_name_index_spec p : forall k acc,
  (base_name_index p k acc = acc /\ Forall (fun c => c <> PATH_CHAR) p) \/
  (exists j, p !! j = Some PATH_CHAR /\
             base_name_index p k acc = k + Z.of_nat j + 1 /\
             Forall (fun c => c <> PATH_CHAR) (drop (S j) p)).
Proof.
  induction p as [| c p IH]; intros k acc.
  - left. split; [reflexivity | constructor].
  - cbn [base_name_index].
    destruct (IH (k + 1) (if c =? PATH_CHAR then k + 1 else acc)) as [[Hr Hp] | (j & Hj & Hr & Hp)].
    + destruct (c =? PATH_CHAR) eqn:Hc.
      * right. exists 0%nat. apply Z.eqb_eq in Hc. subst c.
        split; [reflexivity |]. split; [rewrite Hr; lia | exact Hp].
      * left. split; [exact Hr |]. constructor; [lia | exact Hp].
    + right. exists (S j). split; [exact Hj |]. split; [rewrite Hr; lia | exact Hp].
Qed.

(** X11. The base name FileOpen sets for a path is the part of the path
    after its last PATH_CHAR: the path is a prefix, empty or ending in
    PATH_CHAR, followed by the base name, and the base name holds no
    PATH_CHAR. *)
Theorem base_name_after_last_delimiter P f :
  exists prefix name,
    base_name (set_Path (Some P) (base_name_index P 0 0) f) = Some name /\
    P = prefix ++ name /\
    Forall (fun c => c <> PATH_CHAR) name /\
    (prefix = [] \/ last prefix = Some PATH_CHAR).
Proof.
  unfold base_name. cbn [Path BaseName set_Path mbind option_bind].
  destruct (base_name_index_spec P 0 0) as [[Hr Hp] | (j & Hj & Hr & Hp)]; rewrite Hr.
  - exists [], P. cbn. auto.
  - replace (Z.to_nat (0 + Z.of_nat j + 1)) with (S j) by lia.
    exists (take (S j) P), (drop (S j) P).
    split; [reflexivity |]. split; [symmetry; apply take_drop |]. split; [exact Hp |].
    right. rewrite (take_S_r _ _ _ Hj). apply last_snoc.
Qed.

(** ** Positions *)

Lemma to_UINT64_to_INT64 p : 0 <= p < UINT64_MODULUS -> to_UINT64 (to_INT64 p) = p.
Proof.
  intros Hp. unfold to_UINT64, to_INT64, UINT64_MODULUS in *.
  rewrite Zminus_mod_idemp_l.
  replace (p + 2 ^ 63 - 2 ^ 63) with p by lia.
  apply Z.mod_small. exact Hp.
Qed.

Lemma to_UINT64_range x : 0 <= to_UINT64 x < UINT64_MODULUS.
Proof. unfold to_UINT64, UINT64_MODULUS. apply Z.mod_pos_bound. lia. Qed.

Section Positions.

Variable E : Engine.
Variable B : Bridge.

(** X12. On a file with its engine node, SetPosition to a position up to the
    size of the file succeeds and GetPosition then returns that position;
    the position 0xFFFFFFFFFFFFFFFF stands for the size of the file; any
    other position past the size is Unsupported and moves nothing. *)
Theorem FileSetPosition_then_GetPosition st This File Position :
  files st !! BASE_FILE This = Some File ->
  is_null (NtfsInode File) = false ->
  IsDir File = false ->
  0 <= Position < UINT64_MODULUS ->
  let FileSize_ := to_UINT64 (NtfsGetFileSize B st (BASE_FILE This)) in
  (Position <> SEEK_TO_END -> Position <= FileSize_ ->
   exists st', FileSetPosition B st This Position = Some (EFI_SUCCESS, st') /\
               FileGetPosition st' This = Some (EFI_SUCCESS, Some Position)) /\
  (Position = SEEK_TO_END ->
   exists st', FileSetPosition B st This Position = Some (EFI_SUCCESS, st') /\
               FileGetPosition st' This = Some (EFI_SUCCESS, Some FileSize_)) /\
  (Position <> SEEK_TO_END -> FileSize_ < Position ->
   FileSetPosition B st This Position = Some (EFI_UNSUPPORTED, st)).
Proof.
  intros Hf Hn Hd Hp FileSize_.
  assert (Hget : forall p, 0 <= p < UINT64_MODULUS ->
            FileGetPosition (store_file (BASE_FILE This) (set_Offset (to_INT64 p) File) st) This
            = Some (EFI_SUCCESS, Some p)).
  { intros p Hr. unfold FileGetPosition, store_file. cbn [files with_files].
    rewrite lookup_insert_eq. cbn [mbind option_bind].
    cbn [NtfsInode IsDir Offset set_Offset]. rewrite Hn, Hd.
    rewrite (to_UINT64_to_INT64 p Hr). reflexivity. }
  unfold FileSetPosition. rewrite Hf. cbn [mbind option_bind]. rewrite Hn, Hd.
  fold FileSize_.
  refine (conj _ (conj _ _)).
  - intros Hne Hle.
    destruct (Position =? SEEK_TO_END) eqn:He; [apply Z.eqb_eq in He; contradiction |].
    assert ((FileSize_ <? Position) = false) as -> by lia.
    eexists. split; [reflexivity | apply Hget; exact Hp].
  - intros ->. change (SEEK_TO_END =? SEEK_TO_END) with true. cbv iota.
    rewrite Z.ltb_irrefl.
    eexists. split; [reflexivity | apply Hget; apply to_UINT64_range].
  - intros Hne Hlt.
    destruct (Position =? SEEK_TO_END) eqn:He; [apply Z.eqb_eq in He; contradiction |].
    assert ((FileSize_ <? Position) = true) as -> by lia.
    reflexivity.
Qed.

(** X13. On a directory with its engine node the only position SetPosition
    accepts is zero, GetPosition is Unsupported, and after SetPosition to
    zero the next Read returns the first listed entry of the directory
    again, or length zero when it has none. *)
Theorem FileSetPosition_directory_rewind st This File Len Data :
  files st !! BASE_FILE This = Some File ->
  is_null (NtfsInode File) = false ->
  IsDir File = true ->
  info_query_succeeds E ->
  names_fit E Len (ntfs_dir_entries E st (BASE_FILE This)) ->
  (forall st', ntfs_dir_entries E st' (BASE_FILE This) = ntfs_dir_entries E st (BASE_FILE This)) ->
  FileGetPosition st This = Some (EFI_UNSUPPORTED, None) /\
  (forall Position, Position <> 0 ->
     FileSetPosition B st This Position = Some (EFI_UNSUPPORTED, st)) /\
  exists st', FileSetPosition B st This 0 = Some (EFI_SUCCESS, st') /\
    match skip_unlisted E (ntfs_dir_entries E st (BASE_FILE This)) with
    | [] => exists Data' st'', FileRead E st' This Len Data = Some (EFI_SUCCESS, 0, Data', st'')
    | e :: _ =>
        exists Data' st'',
          FileRead E st' This Len Data
          = Some (EFI_SUCCESS, SIZE_OF_EFI_FILE_INFO + name_bytes (d_NameLen e), Data', st'') /\
          FileName (as_FILE_INFO Data') = entry_name e
    end.
Proof.
  intros Hf Hn Hd Hq Hfit Hstable.
  refine (conj _ (conj _ _)).
  - unfold FileGetPosition. rewrite Hf. cbn [mbind option_bind]. rewrite Hn, Hd. reflexivity.
  - intros Position Hne. unfold FileSetPosition. rewrite Hf. cbn [mbind option_bind].
    rewrite Hn, Hd. destruct (Position =? 0) eqn:He; [apply Z.eqb_eq in He; contradiction |].
    reflexivity.
  - unfold FileSetPosition. rewrite Hf. cbn [mbind option_bind]. rewrite Hn, Hd.
    change (negb (0 =? 0)) with false. cbv iota.
    eexists. split; [reflexivity |].
    set (st' := store_file (BASE_FILE This) (set_DirPos 0 File) st).
    assert (Hf' : files st' !! BASE_FILE This = Some (set_DirPos 0 File))
      by (unfold st', store_file; cbn [files with_files]; apply lookup_insert_eq).
    unfold FileRead. rewrite Hf'. cbn [mbind option_bind].
    cbn [NtfsInode IsDir set_DirPos]. rewrite Hn, Hd.
    unfold FileReadDir, NtfsReadDirectory. cbn [DirPos set_DirPos].
    change (Z.to_nat 0) with 0%nat. rewrite drop_0, (Hstable st').
    set (D := mkDirData (BASE_FILE This) (set_Info_Size Len (as_FILE_INFO Data))).
    pose proof (visit_entries_skip E (ntfs_dir_entries E st (BASE_FILE This)) st' D 0 Len
                  Hq Hfit eq_refl) as Hv.
    destruct (skip_unlisted E (ntfs_dir_entries E st (BASE_FILE This))) as [| e rest].
    + rewrite Hv. cbn [mbind option_bind].
      change (EFI_ERROR EFI_END_OF_FILE) with true. cbv iota.
      change (EFI_END_OF_FILE =? EFI_END_OF_FILE) with true. cbv iota.
      eexists _, _. reflexivity.
    + destruct Hv as (i & -> & Hname & Hs). cbn [mbind option_bind].
      change (EFI_ERROR EFI_SUCCESS) with false. cbv iota.
      eexists _, _. cbn [Info]. split; [rewrite Hs; reflexivity |]. exact Hname.
Qed.

End Positions.

(** ** FileSetInfo and FileFlush *)

Lemma StrSize_at_least_one_unit s : sizeof_CHAR16 <= StrSize s.
Proof. unfold StrSize, sizeof_CHAR16. lia. Qed.

Lemma valid_attribute_bits a :
  (forall n, 0 <= n -> Z.testbit a n = true -> n = 0 \/ n = 1 \/ n = 2 \/ n = 4 \/ n = 5) ->
  Z.land a (Z.lnot EFI_FILE_VALID_ATTR) = 0.
Proof.
  intros H. apply Z.bits_inj'. intros n Hn.
  rewrite Z.land_spec, Z.lnot_spec, Z.bits_0 by exact Hn.
  destruct (Z.testbit a n) eqn:Ht; [| reflexivity].
  destruct (H n Hn Ht) as [-> | [-> | [-> | [-> | ->]]]]; reflexivity.
Qed.

Lemma invalid_attribute_bit a n :
  n = 3 \/ 6 <= n -> Z.testbit a n = true ->
  Z.land a (Z.lnot EFI_FILE_VALID_ATTR) <> 0.
Proof.
  intros Hn Ht Hz.
  assert (H0 : 0 <= n) by lia.
  assert (Hb : Z.testbit (Z.land a (Z.lnot EFI_FILE_VALID_ATTR)) n = true).
  { rewrite Z.land_spec, Z.lnot_spec, Ht by exact H0.
    destruct Hn as [-> | Hn]; [reflexivity |].
    rewrite (Z.bits_above_log2 EFI_FILE_VALID_ATTR n); [reflexivity | unfold EFI_FILE_VALID_ATTR; lia |].
    change (Z.log2 EFI_FILE_VALID_ATTR) with 5. lia. }
  rewrite Hz, Z.bits_0 in Hb. discriminate.
Qed.

Section SetInfoProperties.

Variable E : Engine.
Variable B : Bridge.

(** X14. The guards of SetInfo, in their order, each leaving the memory as
    it is: WriteProtected on a read-only volume, whatever the object, the
    type and the buffer; then DeviceError when the object is gone; then
    AccessDenied for either of the two label types on an object that is not
    the root directory, and Unsupported for a type that is none of the
    three. *)
Theorem FileSetInfo_guards st This Type_ Len Data File :
  files st !! BASE_FILE This = Some File ->
  (NtfsIsVolumeReadOnly E (NtfsVolume (fs st)) = true ->
     FileSetInfo E B st This Type_ Len Data = Some (EFI_WRITE_PROTECTED, st)) /\
  (NtfsIsVolumeReadOnly E (NtfsVolume (fs st)) = false -> NtfsInode File = None ->
     FileSetInfo E B st This Type_ Len Data = Some (EFI_DEVICE_ERROR, st)) /\
  (NtfsIsVolumeReadOnly E (NtfsVolume (fs st)) = false -> NtfsInode File <> None ->
   IsRoot File = false ->
   Type_ = gEfiFileSystemInfoGuid \/ Type_ = gEfiFileSystemVolumeLabelInfoIdGuid ->
     FileSetInfo E B st This Type_ Len Data = Some (EFI_ACCESS_DENIED, st)) /\
  (NtfsIsVolumeReadOnly E (NtfsVolume (fs st)) = false -> NtfsInode File <> None ->
   Type_ <> gEfiFileInfoGuid -> Type_ <> gEfiFileSystemInfoGuid ->
   Type_ <> gEfiFileSystemVolumeLabelInfoIdGuid ->
     FileSetInfo E B st This Type_ Len Data = Some (EFI_UNSUPPORTED, st)).
Proof.
  intros Hf. unfold FileSetInfo. rewrite Hf. cbn [mbind option_bind].
  refine (conj _ (conj _ (conj _ _))).
  - intros ->. reflexivity.
  - intros -> ->. reflexivity.
  - intros -> Hi Hr HT. destruct (NtfsInode File); [| congruence]. cbn [is_null].
    rewrite Hr. destruct HT as [-> | ->]; reflexivity.
  - intros -> Hi H1 H2 H3. destruct (NtfsInode File); [| congruence]. cbn [is_null].
    unfold same_guid. rewrite !bool_decide_eq_false_2 by assumption. reflexivity.
Qed.

(** X15. SetInfo of the file information on a writable volume, the object
    not gone: a buffer shorter than the fixed part and the name with its NUL
    is BadBufferSize; with a long enough buffer, an attribute bit that is
    none of read-only, hidden, system, directory and archive (bits 0, 1, 2,
    4, 5) is InvalidParameter; both leave the memory as it is. Else the
    change goes to the engine, a read-only handle value included: the driver
    refuses none, it passes the access of the value along. *)
Theorem FileSetInfo_file_info st This Len Info_ File :
  files st !! BASE_FILE This = Some File ->
  NtfsIsVolumeReadOnly E (NtfsVolume (fs st)) = false ->
  NtfsInode File <> None ->
  (Len < SIZE_OF_EFI_FILE_INFO + StrSize (FileName Info_) ->
     FileSetInfo E B st This gEfiFileInfoGuid Len (BufFileInfo Info_)
     = Some (EFI_BAD_BUFFER_SIZE, st)) /\
  (SIZE_OF_EFI_FILE_INFO + StrSize (FileName Info_) <= Len ->
   (exists n, (n = 3 \/ 6 <= n) /\ Z.testbit (Attribute Info_) n = true) ->
     FileSetInfo E B st This gEfiFileInfoGuid Len (BufFileInfo Info_)
     = Some (EFI_INVALID_PARAMETER, st)) /\
  (SIZE_OF_EFI_FILE_INFO + StrSize (FileName Info_) <= Len ->
   (forall n, 0 <= n -> Z.testbit (Attribute Info_) n = true ->
              n = 0 \/ n = 1 \/ n = 2 \/ n = 4 \/ n = 5) ->
     FileSetInfo E B st This gEfiFileInfoGuid Len (BufFileInfo Info_)
     = Some (NtfsSetFileInfo B st (BASE_FILE This) Info_ (RO_ACCESS This))).
Proof.
  intros Hf Hw Hi. unfold FileSetInfo. rewrite Hf. cbn [mbind option_bind].
  rewrite Hw. destruct (NtfsInode File) as [inode |]; [| congruence]. cbn [is_null].
  change (same_guid gEfiFileInfoGuid gEfiFileInfoGuid) with true. cbv iota.
  pose proof (StrSize_at_least_one_unit (FileName Info_)) as Hs.
  refine (conj _ (conj _ _)).
  - intros Hlt.
    destruct (Len <? SIZE_OF_EFI_FILE_INFO + sizeof_CHAR16) eqn:H1; [reflexivity |].
    assert ((Len - SIZE_OF_EFI_FILE_INFO <? StrSize (FileName Info_)) = true) as -> by lia.
    reflexivity.
  - intros Hle (n & Hn & Ht).
    assert ((Len <? SIZE_OF_EFI_FILE_INFO + sizeof_CHAR16) = false) as -> by lia.
    assert ((Len - SIZE_OF_EFI_FILE_INFO <? StrSize (FileName Info_)) = false) as -> by lia.
    pose proof (invalid_attribute_bit _ _ Hn Ht) as Hne.
    apply Z.eqb_neq in Hne. rewrite Hne. reflexivity.
  - intros Hle Hbits.
    assert ((Len <? SIZE_OF_EFI_FILE_INFO + sizeof_CHAR16) = false) as -> by lia.
    assert ((Len - SIZE_OF_EFI_FILE_INFO <? StrSize (FileName Info_)) = false) as -> by lia.
    rewrite (valid_attribute_bits _ Hbits). reflexivity.
Qed.

(** X16. The two ways to rename the volume agree: SetInfo of a file system
    information of [SIZE_OF_EFI_FILE_SYSTEM_INFO + Len] bytes does what
    SetInfo of a volume label of [Len] bytes holding the same label does,
    the same guards failing and the same rename reaching the engine. *)
Theorem FileSetInfo_label_types_agree st This Len FSInfo :
  FileSetInfo E B st This gEfiFileSystemInfoGuid (SIZE_OF_EFI_FILE_SYSTEM_INFO + Len)
    (BufFileSystemInfo FSInfo)
  = FileSetInfo E B st This gEfiFileSystemVolumeLabelInfoIdGuid Len
      (BufVolumeLabel (VolumeLabel FSInfo)).
Proof.
  unfold FileSetInfo. destruct (files st !! BASE_FILE This) as [File |]; [| reflexivity].
  cbn [mbind option_bind].
  destruct (NtfsIsVolumeReadOnly E (NtfsVolume (fs st))); [reflexivity |].
  destruct (is_null (NtfsInode File)); [reflexivity |].
  change (same_guid gEfiFileSystemInfoGuid gEfiFileInfoGuid) with false.
  change (same_guid gEfiFileSystemInfoGuid gEfiFileSystemInfoGuid) with true.
  change (same_guid gEfiFileSystemVolumeLabelInfoIdGuid gEfiFileInfoGuid) with false.
  change (same_guid gEfiFileSystemVolumeLabelInfoIdGuid gEfiFileSystemInfoGuid) with false.
  change (same_guid gEfiFileSystemVolumeLabelInfoIdGuid gEfiFileSystemVolumeLabelInfoIdGuid)
    with true.
  cbv iota.
  destruct (IsRoot File); [| reflexivity]. cbn [negb].
  replace (SIZE_OF_EFI_FILE_SYSTEM_INFO + Len - SIZE_OF_EFI_FILE_SYSTEM_INFO) with Len by lia.
  replace (SIZE_OF_EFI_FILE_SYSTEM_INFO + Len <? SIZE_OF_EFI_FILE_SYSTEM_INFO + sizeof_CHAR16)
    with (Len <? sizeof_CHAR16); [reflexivity |].
  destruct (Len <? sizeof_CHAR16) eqn:H1; symmetry; lia.
Qed.

(** X17. The guards of Flush, in their order, each leaving the memory as it
    is: DeviceError when the object is gone, AccessDenied through a
    read-only handle value, and on a read-only volume success without the
    engine; otherwise the result is that of the engine flush. *)
Theorem FileFlush_guards st This File :
  files st !! BASE_FILE This = Some File ->
  (NtfsInode File = None -> FileFlush E B st This = Some (EFI_DEVICE_ERROR, st)) /\
  (NtfsInode File <> None -> handle_member This = EfiFileRO ->
     FileFlush E B st This = Some (EFI_ACCESS_DENIED, st)) /\
  (NtfsInode File <> None -> handle_member This = EfiFileRW ->
   NtfsIsVolumeReadOnly E (NtfsVolume (fs st)) = true ->
     FileFlush E B st This = Some (EFI_SUCCESS, st)) /\
  (NtfsInode File <> None -> handle_member This = EfiFileRW ->
   NtfsIsVolumeReadOnly E (NtfsVolume (fs st)) = false ->
     FileFlush E B st This = Some (NtfsFlushFile B st (BASE_FILE This))).
Proof.
  intros Hf. unfold FileFlush. rewrite Hf. cbn [mbind option_bind].
  unfold RO_ACCESS.
  refine (conj _ (conj _ (conj _ _))).
  - intros ->. reflexivity.
  - intros Hi ->. destruct (NtfsInode File); [reflexivity | congruence].
  - intros Hi -> ->. destruct (NtfsInode File); [reflexivity | congruence].
  - intros Hi -> ->. destruct (NtfsInode File); [reflexivity | congruence].
Qed.

(** X18. An object whose engine node is gone: Read, Write, SetPosition,
    GetPosition, GetInfo and Flush all fail with DeviceError, whatever the
    handle value, the type and the buffer, and leave the memory, the length
    and the buffer as they are; SetInfo does too unless the volume is
    read-only, where it is WriteProtected; Delete is AccessDenied; only
    Close still succeeds. *)
Theorem gone_object_operations st This File :
  files st !! BASE_FILE This = Some File ->
  NtfsInode File = None ->
  (forall Len Data, FileRead E st This Len Data = Some (EFI_DEVICE_ERROR, Len, Data, st)) /\
  (forall Len Data, FileWrite E st This Len Data = Some (EFI_DEVICE_ERROR, Len, st)) /\
  (forall Position, FileSetPosition B st This Position = Some (EFI_DEVICE_ERROR, st)) /\
  FileGetPosition st This = Some (EFI_DEVICE_ERROR, None) /\
  (forall Type_ Len Data,
     FileGetInfo E st This Type_ Len Data = Some (EFI_DEVICE_ERROR, Len, Data)) /\
  FileFlush E B st This = Some (EFI_DEVICE_ERROR, st) /\
  (forall Type_ Len Data,
     FileSetInfo E B st This Type_ Len Data
     = Some (if NtfsIsVolumeReadOnly E (NtfsVolume (fs st))
             then EFI_WRITE_PROTECTED else EFI_DEVICE_ERROR, st)) /\
  FileDelete E st This = Some (EFI_ACCESS_DENIED, st) /\
  exists st', FileClose st This = Some (EFI_SUCCESS, st').
Proof.
  intros Hf Hi.
  unfold FileRead, FileWrite, FileSetPosition, FileGetPosition, FileGetInfo, FileFlush,
    FileSetInfo, FileDelete, FileClose.
  rewrite Hf. cbn [mbind option_bind]. rewrite Hi. cbn [is_null orb].
  rewrite orb_true_r.
  refine (conj _ (conj _ (conj _ (conj _ (conj _ (conj _ (conj _ (conj _ _)))))))); try reflexivity.
  - intros Type_ Len Data. destruct (NtfsIsVolumeReadOnly E (NtfsVolume (fs st))); reflexivity.
  - eexists. reflexivity.
Qed.

End SetInfoProperties.

(** ** The file system information *)

Section FileSystemInfoProperties.

Variable E : Engine.

(** X19. GetInfo of the file system information with a buffer of the
    required size, on any object that is not gone, root or not: the block
    size is that of the second block interface when the volume has one, of
    the first otherwise, and 512 when that is zero, so never zero; the
    volume size is the number of blocks times the block size returned, as a
    UINT64; the read-only flag and the free space are the engine's answers
    and the label is the volume's, empty when it has none. *)
Theorem FileGetInfo_file_system_info_geometry st This Len Data File :
  files st !! BASE_FILE This = Some File ->
  NtfsInode File <> None ->
  SIZE_OF_EFI_FILE_SYSTEM_INFO + label_size (fs st) <= Len ->
  let Media := match BlockIo2 (fs st) with Some m => m | None => BlockIo (fs st) end in
  exists Info',
    FileGetInfo E st This gEfiFileSystemInfoGuid Len Data
      = Some (EFI_SUCCESS, SIZE_OF_EFI_FILE_SYSTEM_INFO + label_size (fs st),
              BufFileSystemInfo Info') /\
    FSInfo_BlockSize Info' <> 0 /\
    (BlockSize Media <> 0 -> FSInfo_BlockSize Info' = BlockSize Media) /\
    (BlockSize Media = 0 -> FSInfo_BlockSize Info' = 512) /\
    VolumeSize Info' = to_UINT64 ((LastBlock Media + 1) * FSInfo_BlockSize Info') /\
    ReadOnly Info' = NtfsIsVolumeReadOnly E (NtfsVolume (fs st)) /\
    FreeSpace Info' = NtfsGetVolumeFreeSpace E (NtfsVolume (fs st)) /\
    VolumeLabel Info' = default [] (NtfsVolumeLabel (fs st)).
Proof.
  intros Hf Hi Hle Media. unfold FileGetInfo. rewrite Hf. cbn [mbind option_bind].
  destruct (NtfsInode File); [| congruence]. cbn [is_null].
  change (same_guid gEfiFileSystemInfoGuid gEfiFileInfoGuid) with false.
  change (same_guid gEfiFileSystemInfoGuid gEfiFileSystemInfoGuid) with true. cbv iota.
  assert (H1 : (Len <? SIZE_OF_EFI_FILE_SYSTEM_INFO + label_size (fs st)) = false)
    by (apply Z.ltb_ge; exact Hle).
  rewrite H1. fold Media.
  eexists. split; [rewrite (Z.add_comm (label_size (fs st))); reflexivity |].
  cbn [FSInfo_BlockSize VolumeSize ReadOnly FreeSpace VolumeLabel].
  refine (conj _ (conj _ (conj _ (conj _ (conj _ (conj _ _)))))).
  - destruct (BlockSize Media =? 0) eqn:Hb; [discriminate | apply Z.eqb_neq; exact Hb].
  - intros Hb. apply Z.eqb_neq in Hb. rewrite Hb. reflexivity.
  - intros ->. reflexivity.
  - unfold to_UINT64. rewrite Zmult_mod_idemp_l. reflexivity.
  - reflexivity.
  - reflexivity.
  - destruct (NtfsVolumeLabel (fs st)); reflexivity.
Qed.

End FileSystemInfoProperties.

(** ** FSInstall and FSUninstall *)

(** X20. FSInstall installs the protocol exactly when it returns
    EFI_SUCCESS, and returns an error status otherwise; it succeeds only
    when the pool gave the block, the read of the first block of the volume
    did not fail, the eight bytes from offset 3 of that block are "NTFS" and
    four spaces, and the firmware installed the interface. *)
Theorem FSInstall_signature F This Status installed :
  FSInstall F This = Some (Status, installed) ->
  let Size := BlockSize (BlockIo This) in
  let Read := ReadBlocks F (MediaId F) 0 Size in
  (installed = true <-> Status = EFI_SUCCESS) /\
  (installed = false -> EFI_ERROR Status = true) /\
  (Status = EFI_SUCCESS ->
     AllocateZeroPool_fails F Size = false /\
     EFI_ERROR Read.1 = false /\
     take 8 (drop 3 (block_buffer Size Read.2)) = NtfsMagic /\
     EFI_ERROR (InstallMultipleProtocolInterfaces F) = false).
Proof.
  intros H Size Read. unfold FSInstall in H. fold Size in H.
  destruct (AllocateZeroPool_fails F Size) eqn:Ha.
  { injection H as <- <-. split; [split; discriminate |]. split; [reflexivity | discriminate]. }
  fold Read in H. destruct Read as [Status0 bytes] eqn:HR. cbn [fst snd].
  destruct (EFI_ERROR Status0) eqn:He0.
  { cbn [mbind option_bind] in H. rewrite He0 in H. injection H as <- <-.
    split; [split; [discriminate | intros ->; discriminate] |].
    split; [intros _; exact He0 | intros ->; discriminate]. }
  destruct (Size <? 3 + Z.of_nat (length NtfsMagic)); [discriminate |].
  cbn [mbind option_bind] in H.
  destruct (bool_decide (take (length NtfsMagic) (drop 3 (block_buffer Size bytes)) = NtfsMagic))
    eqn:Hm.
  - apply bool_decide_eq_true in Hm.
    change (EFI_ERROR EFI_SUCCESS) with false in H. cbv iota in H.
    destruct (EFI_ERROR (InstallMultipleProtocolInterfaces F)) eqn:Hi.
    + injection H as <- <-.
      split; [split; [discriminate | intros Hs; rewrite Hs in Hi; discriminate] |].
      split; [intros _; exact Hi | intros Hs; rewrite Hs in Hi; discriminate].
    + injection H as <- <-.
      split; [split; reflexivity |]. split; [discriminate |].
      intros _. auto.
  - change (EFI_ERROR EFI_UNSUPPORTED) with true in H. cbv iota in H.
    injection H as <- <-.
    split; [split; discriminate |]. split; [reflexivity | discriminate].
Qed.

(** X21. FSUninstall unmounts the volume exactly when its total count is
    positive: the volume is then unmounted with files still open, the
    objects and the counts left as they are.  With a total count of zero or
    less it leaves the memory as it is, so a volume that is mounted with no
    handle open stays mounted. *)
Theorem FSUninstall_forces_unmount st :
  files (FSUninstall st) = files st /\
  TotalRefCount (fs (FSUninstall st)) = TotalRefCount (fs st) /\
  (0 < TotalRefCount (fs st) -> mounted (FSUninstall st) = false) /\
  (TotalRefCount (fs st) <= 0 -> FSUninstall st = st).
Proof.
  unfold FSUninstall.
  destruct (0 <? TotalRefCount (fs st)) eqn:Ht.
  - refine (conj eq_refl (conj eq_refl (conj _ _))); [reflexivity | lia].
  - refine (conj eq_refl (conj eq_refl (conj _ _))); [lia | reflexivity].
Qed.

(** ** What Read, Write and SetPosition leave alone *)

Lemma same_but_positions_refl st : same_but_positions st st.
Proof. split; reflexivity. Qed.

Lemma same_but_positions_store st a File g :
  files st !! a = Some File ->
  forget_positions g = forget_positions File ->
  same_but_positions st (store_file a g st).
Proof.
  intros Hf Hg. split; [reflexivity |]. intros b. cbn [files store_file with_files].
  destruct (decide (b = a)) as [-> | Hne].
  - rewrite lookup_insert_eq, Hf. cbn [fmap option_fmap option_map]. rewrite Hg. reflexivity.
  - rewrite lookup_insert_ne by congruence. reflexivity.
Qed.

Lemma refcount_sum_ext (m : gmap addr EFI_NTFS_FILE) : forall m',
  (forall b, RefCount <$> m' !! b = RefCount <$> m !! b) ->
  refcount_sum m' = refcount_sum m.
Proof.
  induction m as [| a f m Hf IH] using map_ind; intros m' H.
  - assert (m' = ∅) as ->; [| reflexivity].
    apply map_eq. intros b. specialize (H b). rewrite lookup_empty in *.
    destruct (m' !! b); [discriminate | reflexivity].
  - pose proof (H a) as Ha. rewrite lookup_insert_eq in Ha.
    destruct (m' !! a) as [g |] eqn:Hg; [| discriminate].
    cbn in Ha. assert (Hr : RefCount g = RefCount f) by congruence.
    rewrite (refcount_sum_delete m' a g Hg), refcount_sum_insert_fresh, Hr by exact Hf.
    f_equal. apply IH. intros b. destruct (decide (b = a)) as [-> | Hne].
    + rewrite lookup_delete_eq, Hf. reflexivity.
    + rewrite lookup_delete_ne by congruence. rewrite H, lookup_insert_ne by congruence.
      reflexivity.
Qed.

Lemma same_but_positions_counts st st' :
  same_but_positions st st' ->
  (well_counted st -> well_counted st') /\ (mount_invariant st -> mount_invariant st').
Proof.
  intros [Hfs Hfiles].
  assert (Hrc : forall b, RefCount <$> files st' !! b = RefCount <$> files st !! b).
  { intros b. specialize (Hfiles b).
    destruct (files st' !! b) as [g |], (files st !! b) as [f |];
      cbn [fmap option_fmap option_map] in *; try congruence.
    f_equal. assert (Hg : forget_positions g = forget_positions f) by congruence.
    change (RefCount g) with (RefCount (forget_positions g)). rewrite Hg. reflexivity. }
  split.
  - intros [Hpos Hsum]. split.
    + intros b g Hg. specialize (Hrc b). rewrite Hg in Hrc.
      destruct (files st !! b) as [f |] eqn:Hf; [| discriminate].
      cbn in Hrc. assert (RefCount g = RefCount f) as -> by congruence.
      exact (Hpos b f Hf).
    + rewrite Hfs, Hsum. symmetry. apply refcount_sum_ext. exact Hrc.
  - unfold mount_invariant, mounted. rewrite Hfs. tauto.
Qed.

Section Frame.

Variable E : Engine.
Variable B : Bridge.

Lemma DirHook_frame st D Name NameLen NameType Pos MRef DtType r st' D' :
  DirHook E st D Name NameLen NameType Pos MRef DtType = Some (r, st', D') ->
  fs st' = fs st /\ files st' = files st.
Proof.
  unfold DirHook. intros H.
  repeat match type of H with
         | (if ?c then _ else _) = _ => destruct c
         | (let '(_, _) := ?c in _) = _ => destruct c
         end; try discriminate;
    match type of H with Some (_, ?x, _) = _ => assert (st' = x) as -> by congruence end;
    split; reflexivity.
Qed.

Lemma visit_entries_frame l : forall st D pos s pos' st' D',
  visit_entries (DirHook E) st D l pos = Some (s, pos', st', D') ->
  fs st' = fs st /\ files st' = files st.
Proof.
  induction l as [| e l IH]; intros st D pos s pos' st' D' H.
  - cbn in H. assert (st' = st) as -> by congruence. split; reflexivity.
  - cbn [visit_entries] in H.
    destruct (DirHook E st D (d_Name e) (d_NameLen e) (d_NameType e) pos (d_MRef e) (d_DtType e))
      as [[[r st1] D1] |] eqn:Hh; [| discriminate].
    cbn [mbind option_bind] in H.
    destruct (DirHook_frame _ _ _ _ _ _ _ _ _ _ _ Hh) as [H1 H2].
    destruct (r =? 0).
    + destruct (IH _ _ _ _ _ _ _ H) as [H3 H4]. split; congruence.
    + destruct (r <? 0); assert (st' = st1) as -> by congruence; split; assumption.
Qed.

(** X22. Read, Write and SetPosition change at most the positions of the
    objects in memory and the out-of-band error channel: the volume, its
    mount state and total count, and the path, engine node and reference
    count of every object stay as they are. So they keep the counts together
    and the volume mounted while handles are open. *)
Theorem data_operations_leave_counts st This :
  (forall Len Data s n d st',
     FileRead E st This Len Data = Some (s, n, d, st') ->
     same_but_positions st st' /\
     (well_counted st -> well_counted st') /\ (mount_invariant st -> mount_invariant st')) /\
  (forall Len Data s n st',
     FileWrite E st This Len Data = Some (s, n, st') ->
     same_but_positions st st' /\
     (well_counted st -> well_counted st') /\ (mount_invariant st -> mount_invariant st')) /\
  (forall Position s st',
     FileSetPosition B st This Position = Some (s, st') ->
     same_but_positions st st' /\
     (well_counted st -> well_counted st') /\ (mount_invariant st -> mount_invariant st')).
Proof.
  assert (Hk : forall st', same_but_positions st st' ->
            same_but_positions st st' /\
            (well_counted st -> well_counted st') /\ (mount_invariant st -> mount_invariant st'))
    by (intros st' H; split; [exact H | exact (same_but_positions_counts _ _ H)]).
  refine (conj _ (conj _ _)).
  - intros Len Data s n d st' H. apply Hk. unfold FileRead in H.
    destruct (files st !! BASE_FILE This) as [File |] eqn:Hf; [| discriminate].
    cbn [mbind option_bind] in H.
    destruct (is_null (NtfsInode File)).
    { assert (st' = st) as -> by congruence. apply same_but_positions_refl. }
    destruct (IsDir File).
    + unfold FileReadDir, NtfsReadDirectory in H.
      destruct (visit_entries _ _ _ _ _) as [[[[s0 pos] st1] D1] |] eqn:Hv; [| discriminate].
      cbn [mbind option_bind] in H.
      destruct (visit_entries_frame _ _ _ _ _ _ _ _ Hv) as [H1 H2].
      assert (st' = with_files (alter (set_DirPos pos) (BASE_FILE This) (files st1)) st1) as ->.
      { destruct (EFI_ERROR s0); [destruct (s0 =? EFI_END_OF_FILE) |]; congruence. }
      split; [exact H1 |]. intros b. cbn [files with_files]. rewrite H2.
      destruct (decide (b = BASE_FILE This)) as [-> | Hne].
      * rewrite lookup_alter_eq, Hf. reflexivity.
      * rewrite lookup_alter_ne by congruence. reflexivity.
    + unfold NtfsReadFile in H.
      destruct (ntfs_read E st (BASE_FILE This) Len) as [s0 bytes].
      destruct (EFI_ERROR s0).
      * assert (st' = st) as -> by congruence. apply same_but_positions_refl.
      * match type of H with Some (_, _, _, ?x) = _ => assert (st' = x) as -> by congruence end.
        apply (same_but_positions_store _ _ File); [exact Hf | reflexivity].
  - intros Len Data s n st' H. apply Hk. unfold FileWrite in H.
    destruct (files st !! BASE_FILE This) as [File |] eqn:Hf; [| discriminate].
    cbn [mbind option_bind] in H.
    repeat match type of H with
           | (if ?c then _ else _) = _ =>
               destruct c; [assert (st' = st) as -> by congruence; apply same_but_positions_refl |]
           end.
    unfold NtfsWriteFile in H.
    destruct (ntfs_write E st (BASE_FILE This) Data Len) as [s0 n0].
    destruct (EFI_ERROR s0).
    + assert (st' = st) as -> by congruence. apply same_but_positions_refl.
    + match type of H with Some (_, _, ?x) = _ => assert (st' = x) as -> by congruence end.
      apply (same_but_positions_store _ _ File); [exact Hf | reflexivity].
  - intros Position s st' H. apply Hk. unfold FileSetPosition in H.
    destruct (files st !! BASE_FILE This) as [File |] eqn:Hf; [| discriminate].
    cbn [mbind option_bind] in H.
    destruct (is_null (NtfsInode File)).
    { assert (st' = st) as -> by congruence. apply same_but_positions_refl. }
    destruct (IsDir File).
    + destruct (negb (Position =? 0)).
      * assert (st' = st) as -> by congruence. apply same_but_positions_refl.
      * match type of H with Some (_, ?x) = _ => assert (st' = x) as -> by congruence end.
        apply (same_but_positions_store _ _ File); [exact Hf | reflexivity].
    + cbv zeta in H.
      match type of H with
      | (if ?c then _ else _) = _ => destruct c
      end.
      * assert (st' = st) as -> by congruence. apply same_but_positions_refl.
      * match type of H with Some (_, ?x) = _ => assert (st' = x) as -> by congruence end.
        apply (same_but_positions_store _ _ File); [exact Hf | reflexivity].
Qed.

End Frame.

(** ** The buffer check of a directory read *)

Section DirectoryBuffer.

Variable E : Engine.

(** DirHook on a listed entry compares the buffer with the name alone. *)
Lemma DirHook_listed_name_fits st Data e pos :
  info_query_succeeds E ->
  listed E e = true ->
  0 <= d_NameLen e < 256 ->
  name_bytes (d_NameLen e) <= Info_Size (Info Data) ->
  exists i,
    DirHook E st Data (d_Name e) (d_NameLen e) (d_NameType e) pos (d_MRef e) (d_DtType e)
      = Some (1, st, mkDirData (Parent Data) i) /\
    FileName i = entry_name e /\
    Info_Size i = SIZE_OF_EFI_FILE_INFO + name_bytes (d_NameLen e).
Proof.
  intros HQ Hl Hn Hfit. unfold DirHook.
  rewrite DirHook_guard_listed, Hl. cbn [negb].
  assert (H256 : (d_NameLen e <? 256) = true) by lia. rewrite H256. cbn [negb].
  assert (Hb := name_bytes_small _ Hn).
  assert (Hlt : (Info_Size (Info Data) <? name_bytes (d_NameLen e)) = false) by lia.
  rewrite Hlt.
  assert (H0 : (d_NameLen e <? 0) = false) by lia. rewrite H0.
  match goal with |- context [NtfsGetFileInfo E ?s ?a ?i ?m ?d] =>
    destruct (HQ s a i m d) as (Q1 & Q2 & Q3);
    destruct (NtfsGetFileInfo E s a i m d) as [Status i3] eqn:Hq end.
  cbn [fst snd] in Q1, Q2, Q3. rewrite Q1.
  exists i3. split; [reflexivity |]. split; [exact Q2 |].
  rewrite Q3. cbn [Info_Size set_Info_Size].
  apply Z.mod_small. unfold UINT64_MODULUS, SIZE_OF_EFI_FILE_INFO. lia.
Qed.

Lemma DirHook_listed_name_too_long st Data e pos :
  listed E e = true ->
  0 <= d_NameLen e < 256 ->
  Info_Size (Info Data) < name_bytes (d_NameLen e) ->
  DirHook E st Data (d_Name e) (d_NameLen e) (d_NameType e) pos (d_MRef e) (d_DtType e)
    = Some (-1, with_errno EFI_BUFFER_TOO_SMALL st, Data).
Proof.
  intros Hl Hn Hlt. unfold DirHook.
  rewrite DirHook_guard_listed, Hl. cbn [negb].
  assert (H256 : (d_NameLen e <? 256) = true) by lia. rewrite H256. cbn [negb].
  assert (H : (Info_Size (Info Data) <? name_bytes (d_NameLen e)) = true) by lia.
  rewrite H. reflexivity.
Qed.

(** X23. Read on a directory whose next entry is listed checks the buffer
    against the bytes of the name alone, not against the fixed part of the
    information with the name. A buffer shorter than the name is
    BufferTooSmall, the caller's length left as it is, not set to the size
    needed. Any other buffer is a success whose returned length is the fixed
    part plus the name: with a buffer that holds the name but not the whole
    information the length returned is larger than the buffer. *)
Theorem FileRead_directory_buffer_check st This File Len Data e rest :
  files st !! BASE_FILE This = Some File ->
  NtfsInode File <> None ->
  IsDir File = true ->
  drop (Z.to_nat (DirPos File)) (ntfs_dir_entries E st (BASE_FILE This)) = e :: rest ->
  listed E e = true ->
  0 <= d_NameLen e < 256 ->
  info_query_succeeds E ->
  (Len < name_bytes (d_NameLen e) ->
     exists Data' st',
       FileRead E st This Len Data = Some (EFI_BUFFER_TOO_SMALL, Len, Data', st') /\
       DirPos <$> files st' !! BASE_FILE This = Some (DirPos File)) /\
  (name_bytes (d_NameLen e) <= Len ->
     exists Data' st',
       FileRead E st This Len Data
         = Some (EFI_SUCCESS, SIZE_OF_EFI_FILE_INFO + name_bytes (d_NameLen e), Data', st') /\
       FileName (as_FILE_INFO Data') = entry_name e /\
       DirPos <$> files st' !! BASE_FILE This = Some (DirPos File + 1)).
Proof.
  intros Hf Hi Hd Hdrop Hl Hn HQ.
  rewrite (FileRead_directory E _ _ _ _ _ Hf Hi Hd).
  unfold NtfsReadDirectory. rewrite Hdrop. cbn [visit_entries].
  set (D := mkDirData (BASE_FILE This) (set_Info_Size Len (as_FILE_INFO Data))).
  assert (HS : Info_Size (Info D) = Len) by reflexivity.
  split.
  - intros Hlt.
    rewrite (DirHook_listed_name_too_long st D e (DirPos File) Hl Hn) by (rewrite HS; exact Hlt).
    cbn [mbind option_bind].
    change (-1 =? 0) with false. change (-1 <? 0) with true. cbv iota.
    cbn [errno with_errno].
    change (EFI_ERROR EFI_BUFFER_TOO_SMALL) with true.
    change (EFI_BUFFER_TOO_SMALL =? EFI_END_OF_FILE) with false. cbv iota.
    eexists _, _. split; [reflexivity |].
    cbn [files with_files with_errno]. rewrite lookup_alter_eq, Hf. reflexivity.
  - intros Hle.
    destruct (DirHook_listed_name_fits st D e (DirPos File) HQ Hl Hn) as (i & Hh & Hname & Hsize);
      [rewrite HS; exact Hle |].
    rewrite Hh. cbn [mbind option_bind].
    change (1 =? 0) with false. change (1 <? 0) with false. cbv iota.
    cbn [mbind option_bind].
    change (EFI_ERROR EFI_SUCCESS) with false. cbv iota. cbn [Info].
    eexists _, _. split; [rewrite Hsize; reflexivity |].
    split; [exact Hname |].
    cbn [files with_files]. rewrite lookup_alter_eq, Hf. reflexivity.
Qed.

End DirectoryBuffer.

(** ** FileClose on counted memory *)

(** X24. With the counts together, Close always succeeds: the object closed
    loses one reference and is destroyed when that was its last, the other
    objects stay as they are, the total count goes down by one, and the
    volume stays mounted exactly when another handle is still open. *)
Theorem FileClose_releases st This File :
  files st !! BASE_FILE This = Some File ->
  well_counted st ->
  mount_invariant st ->
  exists st',
    FileClose st This = Some (EFI_SUCCESS, st') /\
    files st' !! BASE_FILE This =
      (if RefCount File =? 1 then None else Some (set_RefCount (RefCount File - 1) File)) /\
    (forall b, b <> BASE_FILE This -> files st' !! b = files st !! b) /\
    TotalRefCount (fs st') = TotalRefCount (fs st) - 1 /\
    (mounted st' = true <-> 1 < TotalRefCount (fs st)) /\
    well_counted st' /\ mount_invariant st'.
Proof.
  intros Hf Hw Hm.
  destruct (FileClose_effect st This File Hf) as (st' & Hc & Ha & Hb & Ht & Hmo).
  destruct (well_counted_covers st _ _ Hw Hf) as [Hpos Hle].
  exists st'. split; [exact Hc |].
  pose proof (FileClose_mount_invariant _ _ _ _ Hm Hc) as [_ Hm'].
  refine (conj _ (conj Hb (conj Ht (conj _ (conj _ Hm'))))).
  - rewrite Ha. destruct (RefCount File =? 1) eqn:H1.
    + assert ((RefCount File - 1 =? 0) = true) as -> by lia. reflexivity.
    + assert ((RefCount File - 1 =? 0) = false) as -> by lia.
      assert ((RefCount File - 1 <? 0) = false) as -> by lia. reflexivity.
  - unfold mount_invariant in Hm'. rewrite Hm', Ht. lia.
  - exact (FileClose_well_counted _ _ _ _ Hw Hc).
Qed.

(** ** The guards of FileOpen *)

(** X25. The first guards of Open, in their order, each returning no handle
    and leaving the memory as it is: WriteProtected on a read-only volume
    for every mode but Read; then NotFound for ".." on the root and for
    every name on a handle that is not a directory, whatever the mode; then,
    on a directory, AccessDenied for the creation of the empty name, of "."
    and of "..". *)
Theorem FileOpen_guards (E : Engine) st This Name Mode Attributes File :
  files st !! BASE_FILE This = Some File ->
  (NtfsIsVolumeReadOnly E (NtfsVolume (fs st)) = true -> Mode <> EFI_FILE_MODE_READ ->
     FileOpen E st This Name Mode Attributes = Some (EFI_WRITE_PROTECTED, None, st)) /\
  (NtfsIsVolumeReadOnly E (NtfsVolume (fs st)) = false \/ Mode = EFI_FILE_MODE_READ ->
   (Name = L_dotdot /\ IsRoot File = true) \/ IsDir File = false ->
     FileOpen E st This Name Mode Attributes = Some (EFI_NOT_FOUND, None, st)) /\
  (NtfsIsVolumeReadOnly E (NtfsVolume (fs st)) = false ->
   IsDir File = true ->
   Name = [] \/ Name = L_dot \/ (Name = L_dotdot /\ IsRoot File = false) ->
     FileOpen E st This Name MODE_CREATE_READ_WRITE Attributes
     = Some (EFI_ACCESS_DENIED, None, st)).
Proof.
  intros Hf. unfold FileOpen. rewrite Hf. cbn [mbind option_bind].
  refine (conj _ (conj _ _)).
  - intros -> Hm. apply Z.eqb_neq in Hm. rewrite Hm. reflexivity.
  - intros Hv Hc.
    assert (NtfsIsVolumeReadOnly E (NtfsVolume (fs st)) && negb (Mode =? EFI_FILE_MODE_READ)
            = false) as ->.
    { destruct Hv as [-> | ->]; [reflexivity |]. rewrite Z.eqb_refl. apply andb_false_r. }
    destruct Hc as [[-> ->] | Hd].
    + rewrite StrCmp_refl. reflexivity.
    + rewrite Hd. destruct ((StrCmp Name L_dotdot =? 0) && IsRoot File); reflexivity.
  - intros -> Hd HN. rewrite Hd. cbn [andb negb].
    destruct HN as [-> | [-> | [-> ->]]]; reflexivity.
Qed.

(** ** The properties on the reference engine *)

Lemma st_open_well_counted : well_counted Reference.st_open.
Proof.
  split; [| vm_compute; reflexivity].
  apply map_Forall_insert_2; [cbn; lia |].
  apply map_Forall_insert_2; [cbn; lia |].
  apply map_Forall_empty.
Qed.

Lemma st_open_mount_invariant : mount_invariant Reference.st_open.
Proof. split; [intros _; cbn; lia | reflexivity]. Qed.

(** Reopen of "." on the root, Delete of the only handle of "a" and Close
    of one of the root's two, from the memory with both open. *)
Lemma run_ops_writable_invariant_witness :
  exists st',
    run_ops Reference.writable Reference.st_open
      [OpReopen Reference.h_root true EFI_FILE_MODE_READ; OpDelete Reference.h_a;
       OpClose Reference.h_root] = Some st' /\
    well_counted st' /\ mount_invariant st'.
Proof.
  eexists. split; [vm_compute; reflexivity |].
  apply (run_ops_writable_invariant Reference.writable (fun _ => eq_refl)
           [OpReopen Reference.h_root true EFI_FILE_MODE_READ; OpDelete Reference.h_a;
            OpClose Reference.h_root]
           Reference.st_open _ st_open_well_counted st_open_mount_invariant).
  vm_compute. reflexivity.
Defined.

(** The information of "a" asked for with buffers of 10 and of 84 bytes,
    and with 84 bytes on the engine whose metadata query fails. *)
Lemma FileGetInfo_file_info_protocol_witness :
  FileGetInfo Reference.writable Reference.st_open Reference.h_a gEfiFileInfoGuid 10
      (BufBytes [])
    = Some (EFI_BUFFER_TOO_SMALL, 84, BufBytes []) /\
  FileGetInfo Reference.writable Reference.st_open Reference.h_a gEfiFileInfoGuid 84
      (BufBytes [])
    = Some (EFI_SUCCESS, 84, BufFileInfo (mkInfo 84 0 0 0 0 0 0 Reference.L_a)) /\
  FileGetInfo Reference.failing_info Reference.st_open Reference.h_a gEfiFileInfoGuid 84
      (BufBytes [])
    = Some (EFI_DEVICE_ERROR, 84, BufFileInfo zero_info).
Proof.
  refine (conj _ (conj _ _)).
  - destruct (FileGetInfo_file_info_protocol Reference.writable Reference.st_open
                Reference.h_a 10 (BufBytes []) Reference.file_a Reference.L_a eq_refl)
      as (H & _ & _); [discriminate | reflexivity |].
    apply H. vm_compute. reflexivity.
  - destruct (FileGetInfo_file_info_protocol Reference.writable Reference.st_open
                Reference.h_a 84 (BufBytes []) Reference.file_a Reference.L_a eq_refl)
      as (_ & _ & H); [discriminate | reflexivity |].
    destruct H as (i & H & -> & _); [vm_compute; discriminate | reflexivity |].
    exact H.
  - destruct (FileGetInfo_file_info_protocol Reference.failing_info Reference.st_open
                Reference.h_a 84 (BufBytes []) Reference.file_a Reference.L_a eq_refl)
      as (_ & H & _); [discriminate | reflexivity |].
    apply H; [vm_compute; discriminate | reflexivity].
Defined.

(** The information of the volume labelled "DATA" asked for with buffers
    of 10 and of 46 bytes. *)
Lemma FileGetInfo_file_system_info_protocol_witness :
  FileGetInfo Reference.writable Reference.st_open Reference.h_a gEfiFileSystemInfoGuid 10
      (BufBytes [])
    = Some (EFI_BUFFER_TOO_SMALL, 46, BufBytes []) /\
  exists Info',
    FileGetInfo Reference.writable Reference.st_open Reference.h_a gEfiFileSystemInfoGuid 46
      (BufBytes [])
    = Some (EFI_SUCCESS, 46, BufFileSystemInfo Info') /\
    FSInfo_Size Info' = 46.
Proof.
  split.
  - apply (FileGetInfo_file_system_info_protocol Reference.writable Reference.st_open
             Reference.h_a 10 (BufBytes []) Reference.file_a eq_refl);
      [discriminate | vm_compute; reflexivity].
  - destruct (FileGetInfo_file_system_info_protocol Reference.writable Reference.st_open
                Reference.h_a 46 (BufBytes []) Reference.file_a eq_refl)
      as [_ H]; [discriminate |].
    destruct H as (i & H1 & H2 & _); [vm_compute; discriminate |].
    exists i. split; [exact H1 | exact H2].
Defined.

(** Open of "a" for reading and writing on the root of the writable
    volume. *)
Lemma FileOpen_handle_iff_success_witness :
  exists h st',
    FileOpen Reference.writable Reference.st_open Reference.h_root Reference.L_a
      MODE_READ_WRITE 0 = Some (EFI_SUCCESS, Some h, st') /\
    is_Some (files st' !! BASE_FILE h) /\ RO_ACCESS h = false.
Proof.
  eassert (H : FileOpen Reference.writable Reference.st_open Reference.h_root Reference.L_a
                 MODE_READ_WRITE 0 = Some (EFI_SUCCESS, Some _, _))
    by (vm_compute; reflexivity).
  destruct (FileOpen_handle_iff_success Reference.writable _ _ _ _ _ _ _ _ H)
    as [[He _] | (_ & _ & h & Hn & Hs & Hro & _)]; [vm_compute in He; discriminate |].
  injection Hn as <-.
  eexists _, _. split; [exact H |]. split; [exact Hs | exact Hro].
Defined.

(** "/a" opened on the root and on the directory "dir". *)
Lemma FileOpen_absolute_name_witness :
  FileOpen Reference.writable ReferenceRest.st_two_dirs Reference.h_root
    [PATH_CHAR; 97] EFI_FILE_MODE_READ 0
  = FileOpen Reference.writable ReferenceRest.st_two_dirs ReferenceRest.h_dir
      [PATH_CHAR; 97] EFI_FILE_MODE_READ 0.
Proof.
  apply (FileOpen_absolute_name Reference.writable ReferenceRest.st_two_dirs Reference.h_root
           ReferenceRest.h_dir Reference.root_file ReferenceRest.dir_d PATH_CHAR [97]
           EFI_FILE_MODE_READ 0); reflexivity.
Defined.

(** Creation of the name that is one secondary separator, on the root:
    with the pool as it is, and with none left for the file object. *)
Lemma FileOpen_create_root_witness :
  FileOpen Reference.writable Reference.st_root Reference.h_root [DOS_PATH_CHAR]
      MODE_CREATE_READ_WRITE 0
    = Some (EFI_ACCESS_DENIED, None, Reference.st_root) /\
  FileOpen ReferenceRest.no_file_object Reference.st_root Reference.h_root [DOS_PATH_CHAR]
      MODE_CREATE_READ_WRITE 0
    = Some (EFI_OUT_OF_RESOURCES, None, Reference.st_root).
Proof.
  split.
  - apply (FileOpen_create_root Reference.writable Reference.st_root Reference.h_root
             Reference.root_file DOS_PATH_CHAR [] 0);
      [reflexivity | reflexivity | reflexivity | reflexivity | vm_compute; reflexivity
      | vm_compute; reflexivity].
  - apply (FileOpen_create_root ReferenceRest.no_file_object Reference.st_root
             Reference.h_root Reference.root_file DOS_PATH_CHAR [] 0);
      [reflexivity | reflexivity | reflexivity | reflexivity | vm_compute; reflexivity
      | vm_compute; reflexivity].
Defined.

(** Reopen of "." on the root for reading, then Close of the value
    returned. *)
Lemma FileOpen_self_then_close_witness :
  BASE_FILE Reference.h_root_ro = BASE_FILE Reference.h_root /\
  FileClose Reference.st_root_twice Reference.h_root_ro
    = Some (EFI_SUCCESS, Reference.st_root).
Proof.
  apply (FileOpen_self_then_close Reference.writable Reference.st_root Reference.h_root
           Reference.root_file L_dot EFI_FILE_MODE_READ 0 Reference.h_root_ro
           Reference.st_root_twice);
    [reflexivity | right; reflexivity | vm_compute; reflexivity | vm_compute; reflexivity
    | vm_compute; reflexivity].
Defined.

(** Delete through one of the two handles of "a". *)
Lemma FileDelete_shared_is_close_witness :
  exists st',
    FileDelete Reference.writable ReferenceRest.st_a_twice Reference.h_a
      = Some (EFI_WARN_DELETE_FAILURE, st') /\
    FileClose ReferenceRest.st_a_twice Reference.h_a = Some (EFI_SUCCESS, st') /\
    files st' !! BASE_FILE Reference.h_a = Some Reference.file_a.
Proof.
  apply (FileDelete_shared_is_close Reference.writable ReferenceRest.st_a_twice Reference.h_a
           (set_RefCount 2 Reference.file_a));
    [reflexivity | reflexivity | discriminate | vm_compute; reflexivity
    | vm_compute; discriminate].
Defined.

(** OpenVolume on the reference volume. *)
Lemma FileOpenVolume_result_witness :
  FileOpenVolume Reference.writable Reference.st_init
    = Some (EFI_SUCCESS, Some Reference.h_root, Reference.st_root) /\
  exists r File,
    Some Reference.h_root = Some (mkHandle r EfiFileRW) /\
    files Reference.st_root !! r = Some File.
Proof.
  assert (H : FileOpenVolume Reference.writable Reference.st_init
              = Some (EFI_SUCCESS, Some Reference.h_root, Reference.st_root))
    by (vm_compute; reflexivity).
  split; [exact H |].
  destruct (FileOpenVolume_result Reference.writable _ _ _ _ H)
    as [[He _] | (_ & r & F & H1 & _ & H2)]; [vm_compute in He; discriminate |].
  exists r, F. split; [exact H1 | exact H2].
Defined.

(** Seeks to 10, to the end and to 200 in the file "a" of 100 bytes. *)
Lemma FileSetPosition_then_GetPosition_witness :
  (exists st',
     FileSetPosition (ReferenceRest.bridge 100) Reference.st_open Reference.h_a 10
       = Some (EFI_SUCCESS, st') /\
     FileGetPosition st' Reference.h_a = Some (EFI_SUCCESS, Some 10)) /\
  (exists st',
     FileSetPosition (ReferenceRest.bridge 100) Reference.st_open Reference.h_a SEEK_TO_END
       = Some (EFI_SUCCESS, st') /\
     FileGetPosition st' Reference.h_a = Some (EFI_SUCCESS, Some 100)) /\
  FileSetPosition (ReferenceRest.bridge 100) Reference.st_open Reference.h_a 200
    = Some (EFI_UNSUPPORTED, Reference.st_open).
Proof.
  refine (conj _ (conj _ _)).
  - apply (FileSetPosition_then_GetPosition (ReferenceRest.bridge 100) Reference.st_open
             Reference.h_a Reference.file_a 10 eq_refl eq_refl eq_refl);
      [vm_compute; split; [discriminate | reflexivity] | discriminate | vm_compute; discriminate].
  - apply (FileSetPosition_then_GetPosition (ReferenceRest.bridge 100) Reference.st_open
             Reference.h_a Reference.file_a SEEK_TO_END eq_refl eq_refl eq_refl);
      [vm_compute; split; [discriminate | reflexivity] | reflexivity].
  - apply (FileSetPosition_then_GetPosition (ReferenceRest.bridge 100) Reference.st_open
             Reference.h_a Reference.file_a 200 eq_refl eq_refl eq_refl);
      [vm_compute; split; [discriminate | reflexivity] | discriminate | reflexivity].
Defined.

(** The root read to its end, rewound, and read again. *)
Lemma FileSetPosition_directory_rewind_witness :
  FileSetPosition (ReferenceRest.bridge 0) Reference.st_root_end Reference.h_root 3
    = Some (EFI_UNSUPPORTED, Reference.st_root_end) /\
  exists st',
    FileSetPosition (ReferenceRest.bridge 0) Reference.st_root_end Reference.h_root 0
      = Some (EFI_SUCCESS, st') /\
    exists Data' st'',
      FileRead Reference.writable st' Reference.h_root 600 (BufBytes [])
        = Some (EFI_SUCCESS, 84, Data', st'') /\
      FileName (as_FILE_INFO Data') = [46].
Proof.
  assert (HQ : info_query_succeeds Reference.writable).
  { intros st a i m d. cbn. auto. }
  assert (HF : names_fit Reference.writable 600 Reference.listing).
  { unfold names_fit, Reference.listing.
    repeat constructor; cbn; try lia; discriminate. }
  destruct (FileSetPosition_directory_rewind Reference.writable (ReferenceRest.bridge 0)
              Reference.st_root_end Reference.h_root (set_DirPos 5 Reference.root_file)
              600 (BufBytes []) eq_refl eq_refl eq_refl HQ HF (fun _ => eq_refl))
    as (_ & H1 & st' & H2 & H3).
  split; [apply H1; discriminate |].
  exists st'. split; [exact H2 | exact H3].
Defined.

(** SetInfo on "a": on the read-only volume, with a label type, and with
    a type that is none of the three. *)
Lemma FileSetInfo_guards_witness :
  FileSetInfo Reference.read_only (ReferenceRest.bridge 0) Reference.st_open Reference.h_a
      gEfiFileInfoGuid 84 (BufFileInfo (ReferenceRest.info_a 0))
    = Some (EFI_WRITE_PROTECTED, Reference.st_open) /\
  FileSetInfo Reference.writable (ReferenceRest.bridge 0) Reference.st_open Reference.h_a
      gEfiFileSystemVolumeLabelInfoIdGuid 10 (BufVolumeLabel Reference.L_DATA)
    = Some (EFI_ACCESS_DENIED, Reference.st_open) /\
  FileSetInfo Reference.writable (ReferenceRest.bridge 0) Reference.st_open Reference.h_a
      (0, 0, 0, 0) 10 (BufBytes [])
    = Some (EFI_UNSUPPORTED, Reference.st_open).
Proof.
  refine (conj _ (conj _ _)).
  - apply (FileSetInfo_guards Reference.read_only (ReferenceRest.bridge 0) Reference.st_open
             Reference.h_a gEfiFileInfoGuid 84 (BufFileInfo (ReferenceRest.info_a 0))
             Reference.file_a eq_refl). reflexivity.
  - apply (FileSetInfo_guards Reference.writable (ReferenceRest.bridge 0) Reference.st_open
             Reference.h_a gEfiFileSystemVolumeLabelInfoIdGuid 10
             (BufVolumeLabel Reference.L_DATA) Reference.file_a eq_refl);
      [reflexivity | discriminate | reflexivity | right; reflexivity].
  - apply (FileSetInfo_guards Reference.writable (ReferenceRest.bridge 0) Reference.st_open
             Reference.h_a (0, 0, 0, 0) 10 (BufBytes []) Reference.file_a eq_refl);
      [reflexivity | discriminate | discriminate | discriminate | discriminate].
Defined.

(** SetInfo of the file information on "a" through its read-only value:
    a buffer one byte short, the reserved attribute bit 3, and a change the
    engine takes. *)
Lemma FileSetInfo_file_info_witness :
  FileSetInfo Reference.writable (ReferenceRest.bridge 0) Reference.st_open Reference.h_a
      gEfiFileInfoGuid 83 (BufFileInfo (ReferenceRest.info_a 0))
    = Some (EFI_BAD_BUFFER_SIZE, Reference.st_open) /\
  FileSetInfo Reference.writable (ReferenceRest.bridge 0) Reference.st_open Reference.h_a
      gEfiFileInfoGuid 84 (BufFileInfo (ReferenceRest.info_a 8))
    = Some (EFI_INVALID_PARAMETER, Reference.st_open) /\
  FileSetInfo Reference.writable (ReferenceRest.bridge 0) Reference.st_open Reference.h_a
      gEfiFileInfoGuid 84 (BufFileInfo (ReferenceRest.info_a 0))
    = Some (EFI_SUCCESS, Reference.st_open).
Proof.
  refine (conj _ (conj _ _)).
  - apply (FileSetInfo_file_info Reference.writable (ReferenceRest.bridge 0) Reference.st_open
             Reference.h_a 83 (ReferenceRest.info_a 0) Reference.file_a eq_refl eq_refl);
      [discriminate | vm_compute; reflexivity].
  - apply (FileSetInfo_file_info Reference.writable (ReferenceRest.bridge 0) Reference.st_open
             Reference.h_a 84 (ReferenceRest.info_a 8) Reference.file_a eq_refl eq_refl);
      [discriminate | vm_compute; discriminate |].
    exists 3. split; [left; reflexivity | reflexivity].
  - apply (FileSetInfo_file_info Reference.writable (ReferenceRest.bridge 0) Reference.st_open
             Reference.h_a 84 (ReferenceRest.info_a 0) Reference.file_a eq_refl eq_refl);
      [discriminate | vm_compute; discriminate |].
    intros n Hn Ht. cbn in Ht. rewrite Z.bits_0 in Ht. discriminate.
Defined.

(** Flush of "a" through its read-only value, and through its read-write
    value on the read-only volume. *)
Lemma FileFlush_guards_witness :
  FileFlush Reference.writable (ReferenceRest.bridge 0) Reference.st_open Reference.h_a
    = Some (EFI_ACCESS_DENIED, Reference.st_open) /\
  FileFlush Reference.read_only (ReferenceRest.bridge 0) Reference.st_open Reference.h_a_rw
    = Some (EFI_SUCCESS, Reference.st_open).
Proof.
  split.
  - apply (FileFlush_guards Reference.writable (ReferenceRest.bridge 0) Reference.st_open
             Reference.h_a Reference.file_a eq_refl); [discriminate | reflexivity].
  - destruct (FileFlush_guards Reference.read_only (ReferenceRest.bridge 0) Reference.st_open
                Reference.h_a_rw Reference.file_a eq_refl) as (_ & _ & H & _).
    apply H; [discriminate | reflexivity | reflexivity].
Defined.

(** Read and Delete on "a" with its engine node gone. *)
Lemma gone_object_operations_witness :
  FileRead Reference.writable ReferenceRest.st_a_gone Reference.h_a 12 (BufBytes [])
    = Some (EFI_DEVICE_ERROR, 12, BufBytes [], ReferenceRest.st_a_gone) /\
  FileDelete Reference.writable ReferenceRest.st_a_gone Reference.h_a
    = Some (EFI_ACCESS_DENIED, ReferenceRest.st_a_gone).
Proof.
  destruct (gone_object_operations Reference.writable (ReferenceRest.bridge 0)
              ReferenceRest.st_a_gone Reference.h_a (set_NtfsInode None Reference.file_a)
              eq_refl eq_refl)
    as (HR & _ & _ & _ & _ & _ & _ & HD & _).
  split; [apply HR | exact HD].
Defined.

(** The file system information of a volume of 100 blocks whose second
    block interface reports no block size. *)
Lemma FileGetInfo_file_system_info_geometry_witness :
  exists Info',
    FileGetInfo Reference.writable ReferenceRest.st_block_io2 Reference.h_a
      gEfiFileSystemInfoGuid 46 (BufBytes [])
    = Some (EFI_SUCCESS, 46, BufFileSystemInfo Info') /\
    FSInfo_BlockSize Info' = 512 /\
    VolumeSize Info' = 51200.
Proof.
  destruct (FileGetInfo_file_system_info_geometry Reference.writable
              ReferenceRest.st_block_io2 Reference.h_a 46 (BufBytes []) Reference.file_a
              eq_refl)
    as (i & H1 & _ & _ & H512 & HV & _); [discriminate | vm_compute; discriminate |].
  exists i. split; [exact H1 |]. split; [apply H512; reflexivity |].
  rewrite HV, H512 by reflexivity. reflexivity.
Defined.

(** A volume whose first block starts as an NTFS boot sector does. *)
Lemma FSInstall_signature_witness :
  FSInstall (ReferenceRest.firmware ReferenceRest.ntfs_boot) ReferenceRest.volume
    = Some (EFI_SUCCESS, true) /\
  take 8 (drop 3 (block_buffer 512 ReferenceRest.ntfs_boot)) = NtfsMagic.
Proof.
  assert (H : FSInstall (ReferenceRest.firmware ReferenceRest.ntfs_boot) ReferenceRest.volume
              = Some (EFI_SUCCESS, true)) by (vm_compute; reflexivity).
  split; [exact H |].
  destruct (FSInstall_signature _ _ _ _ H) as (_ & _ & H3).
  destruct (H3 eq_refl) as (_ & _ & Hm & _). exact Hm.
Defined.

(** Uninstall with the root and "a" open, and on the mounted volume whose
    total count is zero. *)
Lemma FSUninstall_forces_unmount_witness :
  mounted Reference.st_open = true /\
  mounted (FSUninstall Reference.st_open) = false /\
  TotalRefCount (fs (FSUninstall Reference.st_open)) = 2 /\
  mounted Reference.st_a_zero = true /\
  FSUninstall Reference.st_a_zero = Reference.st_a_zero.
Proof.
  destruct (FSUninstall_forces_unmount Reference.st_open) as (_ & H2 & H3 & _).
  destruct (FSUninstall_forces_unmount Reference.st_a_zero) as (_ & _ & _ & H4).
  split; [reflexivity |]. split; [apply H3; reflexivity |]. split; [exact H2 |].
  split; [reflexivity |]. apply H4. discriminate.
Defined.

(** The root with its enumeration at ".", read with buffers of 3 and of 10
    bytes. *)
Lemma FileRead_directory_buffer_check_witness :
  (exists Data' st',
     FileRead Reference.writable ReferenceRest.st_root_at_dot Reference.h_root 3 (BufBytes [])
       = Some (EFI_BUFFER_TOO_SMALL, 3, Data', st')) /\
  (exists Data' st',
     FileRead Reference.writable ReferenceRest.st_root_at_dot Reference.h_root 10 (BufBytes [])
       = Some (EFI_SUCCESS, 84, Data', st') /\
     FileName (as_FILE_INFO Data') = [46]).
Proof.
  assert (HQ : info_query_succeeds Reference.writable).
  { intros st a i m d. cbn. auto. }
  assert (Hi : NtfsInode (set_DirPos 1 Reference.root_file) <> None) by discriminate.
  assert (Hn : 0 <= d_NameLen (mkEntry [46] 1 1 5 4) < 256) by (cbn; lia).
  split.
  - destruct (FileRead_directory_buffer_check Reference.writable ReferenceRest.st_root_at_dot
                Reference.h_root (set_DirPos 1 Reference.root_file) 3 (BufBytes [])
                (mkEntry [46] 1 1 5 4) (drop 2 Reference.listing)
                eq_refl Hi eq_refl eq_refl eq_refl Hn HQ) as [H _].
    destruct H as (d & s & H & _); [vm_compute; reflexivity |].
    exists d, s. exact H.
  - destruct (FileRead_directory_buffer_check Reference.writable ReferenceRest.st_root_at_dot
                Reference.h_root (set_DirPos 1 Reference.root_file) 10 (BufBytes [])
                (mkEntry [46] 1 1 5 4) (drop 2 Reference.listing)
                eq_refl Hi eq_refl eq_refl eq_refl Hn HQ) as [_ H].
    destruct H as (d & s & H & Hname & _); [vm_compute; discriminate |].
    exists d, s. split; [exact H | exact Hname].
Defined.

(** Close of the only handle of "a" with the root open. *)
Lemma FileClose_releases_witness :
  exists st',
    FileClose Reference.st_open Reference.h_a = Some (EFI_SUCCESS, st') /\
    files st' !! BASE_FILE Reference.h_a = None /\
    mounted st' = true.
Proof.
  destruct (FileClose_releases Reference.st_open Reference.h_a Reference.file_a eq_refl
              st_open_well_counted st_open_mount_invariant)
    as (st' & H1 & H2 & _ & _ & H5 & _).
  exists st'. split; [exact H1 |]. split; [exact H2 |].
  apply H5. vm_compute. reflexivity.
Defined.


(** Open of "a" on the handle of the file "a", creation of "." on the
    root, and Open for writing on the read-only volume. *)
Lemma FileOpen_guards_witness :
  FileOpen Reference.writable Reference.st_open Reference.h_a Reference.L_a
      EFI_FILE_MODE_READ 0
    = Some (EFI_NOT_FOUND, None, Reference.st_open) /\
  FileOpen Reference.writable Reference.st_open Reference.h_root L_dot
      MODE_CREATE_READ_WRITE 0
    = Some (EFI_ACCESS_DENIED, None, Reference.st_open) /\
  FileOpen Reference.read_only Reference.st_open Reference.h_root Reference.L_a
      MODE_READ_WRITE 0
    = Some (EFI_WRITE_PROTECTED, None, Reference.st_open).
Proof.
  refine (conj _ (conj _ _)).
  - destruct (FileOpen_guards Reference.writable Reference.st_open Reference.h_a Reference.L_a
                EFI_FILE_MODE_READ 0 Reference.file_a eq_refl) as (_ & H & _).
    apply H; [left; reflexivity | right; reflexivity].
  - destruct (FileOpen_guards Reference.writable Reference.st_open Reference.h_root L_dot
                MODE_CREATE_READ_WRITE 0 Reference.root_file eq_refl) as (_ & _ & H).
    apply H; [reflexivity | reflexivity | right; left; reflexivity].
  - destruct (FileOpen_guards Reference.read_only Reference.st_open Reference.h_root
                Reference.L_a MODE_READ_WRITE 0 Reference.root_file eq_refl) as (H & _).
    apply H; [reflexivity | discriminate].
Defined.
